(* ===================================================================== *)
(*  Flash-card application (script.js): a shallow embedding of the       *)
(*  deck/card store and of the study session, and the properties of      *)
(*  the specification proved about it.                                   *)
(* ===================================================================== *)

From Stdlib Require Import ZArith NArith Ascii String Floats Sorted.
From stdpp Require Import base decidable option list.

(* --------------------------------------------------------------------- *)
(*  JavaScript strings                                                   *)
(* --------------------------------------------------------------------- *)

(* A JavaScript string is a sequence of UTF-16 code units; `===` on two
   strings is equality of the sequences. *)
Definition jsstring := list N.

(* A literal of the script, for text made of one-byte characters. *)
Definition str (s : string) : jsstring :=
  N_of_ascii <$> list_ascii_of_string s.

(* White space and line terminators, as String.prototype.trim strips them
   (ECMAScript WhiteSpace and LineTerminator, all in the basic plane). *)
Definition white_space : list N :=
  [9; 10; 11; 12; 13; 32; 160; 5760;
   8192; 8193; 8194; 8195; 8196; 8197; 8198; 8199; 8200; 8201; 8202;
   8232; 8233; 8239; 8287; 12288; 65279]%N.

Definition is_white (c : N) : bool := bool_decide (c ∈ white_space).

Fixpoint trimStart (s : jsstring) : jsstring :=
  match s with
  | c :: s' => if is_white c then trimStart s' else s
  | [] => []
  end.

Definition trimEnd (s : jsstring) : jsstring := reverse (trimStart (reverse s)).

Definition trim (s : jsstring) : jsstring := trimEnd (trimStart s).

(* Truthiness of a string: only the empty string is falsy. *)
Definition truthy (s : jsstring) : bool :=
  match s with [] => false | _ => true end.

(* --------------------------------------------------------------------- *)
(*  Array helpers of the language                                        *)
(* --------------------------------------------------------------------- *)

(* Array.prototype.findIndex; None stands for the result -1. *)
Fixpoint findIndex {A} (p : A → bool) (l : list A) : option nat :=
  match l with
  | [] => None
  | x :: l' => if p x then Some 0 else S <$> findIndex p l'
  end.

(* The value a comparator hands to Array.prototype.sort: a number, or
   NaN (None), which sort reads as +0. *)
Definition positive_result (v : option Z) : bool :=
  match v with
  | Some z => (0 <? z)%Z
  | None => false
  end.

(* Array.prototype.sort is stable.  The model is the insertion sort that
   moves an element behind another one only when the comparator puts it
   strictly after.  When the comparator orders by a numeric key this is
   the list every stable sort returns ([sorted_stable_unique]); for a
   comparator that is not consistent the language leaves the order to
   the engine, and the model is one such order. *)
Fixpoint sort_insert {A} (cmp : A → A → option Z) (x : A) (l : list A) : list A :=
  match l with
  | [] => [x]
  | y :: l' =>
      if positive_result (cmp x y) then y :: sort_insert cmp x l' else x :: l
  end.

Definition sort {A} (cmp : A → A → option Z) (l : list A) : list A :=
  foldr (sort_insert cmp) [] l.

(* --------------------------------------------------------------------- *)
(*  Records of the store                                                 *)
(* --------------------------------------------------------------------- *)

Module Deck.
Record t := mk {
  id : jsstring;
  name : jsstring;
  emoji : jsstring;
  color : jsstring;
  createdAt : jsstring
}.
End Deck.

Module Card.
(* difficulty: None when the property is absent, null or not a string;
   reviewCount: None when absent; lastReviewed: None for null. *)
Record t := mk {
  id : jsstring;
  deckId : jsstring;
  front : jsstring;
  back : jsstring;
  difficulty : option jsstring;
  reviewCount : option nat;
  lastReviewed : option jsstring;
  createdAt : jsstring
}.
End Card.

#[global] Instance Card_eq_dec : EqDecision Card.t.
Proof. solve_decision. Defined.

Inductive ToastType := success | error | info.

Module Toast.
Record t := mk {
  id : nat;
  message : jsstring;
  type : ToastType;
  icon : jsstring
}.
End Toast.

Record DeckForm := { df_name : jsstring; df_emoji : jsstring; df_color : jsstring }.
Record CardForm := { cf_front : jsstring; cf_back : jsstring }.

(* The closure stored in confirmCallback, by the function that made it
   and the id it captured. *)
Inductive Callback :=
  | DeleteDeckCallback (deckId : jsstring)
  | DeleteCardCallback (cardId : jsstring).

(* // Data: what saveData writes. *)
Record Data := {
  decks : list Deck.t;
  cards : list Card.t;
  totalSessions : nat
}.

(* // Modals, // Editing, // Forms *)
Record Dialogs := {
  showDeckModal : bool;
  showCardModal : bool;
  showConfirm : bool;
  confirmMessage : jsstring;
  confirmCallback : option Callback;
  editingDeck : option Deck.t;
  editingCard : option Card.t;
  deckForm : DeckForm;
  cardForm : CardForm
}.

(* // Study.  The entries of studyCards are the card objects of the
   store at the time the queue was built, not copies of them: spreading
   or filtering cards.value copies the array only.  The script reads
   nothing but the id of a queue entry (rateCard looks the card up in
   the store by it).  The queue is kept here as the records it was built
   from.  Such a record agrees with its object in id, deckId, front,
   back and createdAt, which no method assigns in place (saveCard puts a
   new object into the slot of the store).  The three fields rateCard
   assigns to the card found in the store (difficulty, reviewCount,
   lastReviewed) also show through a queue entry that is that same
   object; the records of the queue do not follow them, and give these
   three fields as they were when the session was started. *)
Record Study := {
  studyCards : list Card.t;
  studyIndex : nat;
  isFlipped : bool;
  studyCorrect : nat;
  studyWrong : nat
}.

(* The refs of setup(), and the persistence around them: whether the
   deep watcher on [decks, cards, totalSessions] has been triggered
   since it last ran, and the blobs handed to localStorage.setItem so
   far (newest first). *)
Record State := {
  view : jsstring;
  sidebarCollapsed : bool;
  searchQuery : jsstring;
  selectedDeck : option Deck.t;
  data : Data;
  dialogs : Dialogs;
  study : Study;
  toasts : list Toast.t;
  toastId : nat;
  watch_pending : bool;
  storage_writes : list Data
}.

Definition emptyDeckForm : DeckForm :=
  {| df_name := []; df_emoji := [55357; 56538]%N; df_color := str "#6c5ce7" |}.

Definition emptyCardForm : CardForm := {| cf_front := []; cf_back := [] |}.

Definition init : State :=
  {| view := str "decks";
     sidebarCollapsed := false;
     searchQuery := [];
     selectedDeck := None;
     data := {| decks := []; cards := []; totalSessions := 0 |};
     dialogs := {| showDeckModal := false; showCardModal := false;
                   showConfirm := false; confirmMessage := [];
                   confirmCallback := None;
                   editingDeck := None; editingCard := None;
                   deckForm := emptyDeckForm; cardForm := emptyCardForm |};
     study := {| studyCards := []; studyIndex := 0; isFlipped := false;
                 studyCorrect := 0; studyWrong := 0 |};
     toasts := [];
     toastId := 0;
     watch_pending := false;
     storage_writes := [] |}.

(* --------------------------------------------------------------------- *)
(*  Assignments to the refs                                              *)
(* --------------------------------------------------------------------- *)

Definition set_view (v : jsstring) (s : State) : State :=
  {| view := v; sidebarCollapsed := s.(sidebarCollapsed);
     searchQuery := s.(searchQuery); selectedDeck := s.(selectedDeck);
     data := s.(data); dialogs := s.(dialogs); study := s.(study);
     toasts := s.(toasts); toastId := s.(toastId);
     watch_pending := s.(watch_pending); storage_writes := s.(storage_writes) |}.

Definition set_selectedDeck (d : option Deck.t) (s : State) : State :=
  {| view := s.(view); sidebarCollapsed := s.(sidebarCollapsed);
     searchQuery := s.(searchQuery); selectedDeck := d;
     data := s.(data); dialogs := s.(dialogs); study := s.(study);
     toasts := s.(toasts); toastId := s.(toastId);
     watch_pending := s.(watch_pending); storage_writes := s.(storage_writes) |}.

(* Any assignment to decks, cards or totalSessions (or inside them: the
   watcher is deep) triggers the watcher. *)
Definition set_data (d : Data) (s : State) : State :=
  {| view := s.(view); sidebarCollapsed := s.(sidebarCollapsed);
     searchQuery := s.(searchQuery); selectedDeck := s.(selectedDeck);
     data := d; dialogs := s.(dialogs); study := s.(study);
     toasts := s.(toasts); toastId := s.(toastId);
     watch_pending := true; storage_writes := s.(storage_writes) |}.

Definition set_dialogs (d : Dialogs) (s : State) : State :=
  {| view := s.(view); sidebarCollapsed := s.(sidebarCollapsed);
     searchQuery := s.(searchQuery); selectedDeck := s.(selectedDeck);
     data := s.(data); dialogs := d; study := s.(study);
     toasts := s.(toasts); toastId := s.(toastId);
     watch_pending := s.(watch_pending); storage_writes := s.(storage_writes) |}.

Definition set_study (st : Study) (s : State) : State :=
  {| view := s.(view); sidebarCollapsed := s.(sidebarCollapsed);
     searchQuery := s.(searchQuery); selectedDeck := s.(selectedDeck);
     data := s.(data); dialogs := s.(dialogs); study := st;
     toasts := s.(toasts); toastId := s.(toastId);
     watch_pending := s.(watch_pending); storage_writes := s.(storage_writes) |}.

Definition set_decks (l : list Deck.t) (s : State) : State :=
  set_data {| decks := l; cards := s.(data).(cards);
              totalSessions := s.(data).(totalSessions) |} s.

Definition set_cards (l : list Card.t) (s : State) : State :=
  set_data {| decks := s.(data).(decks); cards := l;
              totalSessions := s.(data).(totalSessions) |} s.

Definition set_totalSessions (n : nat) (s : State) : State :=
  set_data {| decks := s.(data).(decks); cards := s.(data).(cards);
              totalSessions := n |} s.

(* --------------------------------------------------------------------- *)
(*  Persistence                                                          *)
(* --------------------------------------------------------------------- *)

Definition set_persistence (pending : bool) (writes : list Data) (s : State)
    : State :=
  {| view := s.(view); sidebarCollapsed := s.(sidebarCollapsed);
     searchQuery := s.(searchQuery); selectedDeck := s.(selectedDeck);
     data := s.(data); dialogs := s.(dialogs); study := s.(study);
     toasts := s.(toasts); toastId := s.(toastId);
     watch_pending := pending; storage_writes := writes |}.

(* saveData: one localStorage.setItem with the current decks, cards and
   totalSessions. *)
Definition saveData (s : State) : State :=
  set_persistence s.(watch_pending) (s.(data) :: s.(storage_writes)) s.

(* watch([decks, cards, totalSessions], saveData, { deep: true }): after
   an event handler has run, the watcher calls saveData if one of its
   sources was assigned to. *)
Definition flush (s : State) : State :=
  if s.(watch_pending)
  then saveData (set_persistence false s.(storage_writes) s)
  else s.

(* --------------------------------------------------------------------- *)
(*  Toast notifications                                                  *)
(* --------------------------------------------------------------------- *)

Definition iconMap (ty : ToastType) : jsstring :=
  match ty with
  | success => str "fas fa-check-circle"
  | error => str "fas fa-circle-exclamation"
  | info => str "fas fa-circle-info"
  end.

(* The timer that removes the toast three seconds later is [expireToast]. *)
Definition showToast (message : jsstring) (ty : ToastType) (s : State) : State :=
  let id := S s.(toastId) in
  {| view := s.(view); sidebarCollapsed := s.(sidebarCollapsed);
     searchQuery := s.(searchQuery); selectedDeck := s.(selectedDeck);
     data := s.(data); dialogs := s.(dialogs); study := s.(study);
     toasts := s.(toasts) ++ [Toast.mk id message ty (iconMap ty)];
     toastId := id;
     watch_pending := s.(watch_pending); storage_writes := s.(storage_writes) |}.

Definition expireToast (id : nat) (s : State) : State :=
  {| view := s.(view); sidebarCollapsed := s.(sidebarCollapsed);
     searchQuery := s.(searchQuery); selectedDeck := s.(selectedDeck);
     data := s.(data); dialogs := s.(dialogs); study := s.(study);
     toasts := filter (λ t, t.(Toast.id) ≠ id) s.(toasts);
     toastId := s.(toastId);
     watch_pending := s.(watch_pending); storage_writes := s.(storage_writes) |}.

(* --------------------------------------------------------------------- *)
(*  Deck methods                                                         *)
(* --------------------------------------------------------------------- *)

Definition set_showDeckModal (b : bool) (s : State) : State :=
  let d := s.(dialogs) in
  set_dialogs
    {| showDeckModal := b; showCardModal := d.(showCardModal);
       showConfirm := d.(showConfirm); confirmMessage := d.(confirmMessage);
       confirmCallback := d.(confirmCallback);
       editingDeck := d.(editingDeck); editingCard := d.(editingCard);
       deckForm := d.(deckForm); cardForm := d.(cardForm) |} s.

Definition set_showCardModal (b : bool) (s : State) : State :=
  let d := s.(dialogs) in
  set_dialogs
    {| showDeckModal := d.(showDeckModal); showCardModal := b;
       showConfirm := d.(showConfirm); confirmMessage := d.(confirmMessage);
       confirmCallback := d.(confirmCallback);
       editingDeck := d.(editingDeck); editingCard := d.(editingCard);
       deckForm := d.(deckForm); cardForm := d.(cardForm) |} s.

(* confirmMessage, confirmCallback and showConfirm, the three refs the
   confirmation dialog uses. *)
Definition set_confirm (msg : jsstring) (cb : option Callback) (shown : bool)
    (s : State) : State :=
  let d := s.(dialogs) in
  set_dialogs
    {| showDeckModal := d.(showDeckModal); showCardModal := d.(showCardModal);
       showConfirm := shown; confirmMessage := msg;
       confirmCallback := cb;
       editingDeck := d.(editingDeck); editingCard := d.(editingCard);
       deckForm := d.(deckForm); cardForm := d.(cardForm) |} s.

(* { ...deck, ...deckForm.value } *)
Definition merge_deck (f : DeckForm) (d : Deck.t) : Deck.t :=
  Deck.mk d.(Deck.id) f.(df_name) f.(df_emoji) f.(df_color) d.(Deck.createdAt).

(* saveDeck; [newId] is what generateId() returns and [now] what
   new Date().toISOString() returns.  animateNewItem only animates. *)
Definition saveDeck (newId now : jsstring) (s : State) : State :=
  let form := s.(dialogs).(deckForm) in
  if negb (truthy (trim form.(df_name))) then s
  else
    let s1 :=
      match s.(dialogs).(editingDeck) with
      | Some e =>
          match findIndex (λ d, bool_decide (d.(Deck.id) = e.(Deck.id)))
                          s.(data).(decks) with
          | Some idx =>
              showToast (str "Deck updated successfully!") success
                (set_decks (alter (merge_deck form) idx s.(data).(decks)) s)
          | None => s
          end
      | None =>
          showToast (str "Deck created!") success
            (set_decks
               (s.(data).(decks) ++
                  [Deck.mk newId (trim form.(df_name)) form.(df_emoji)
                           form.(df_color) now])
               s)
      end in
    set_showDeckModal false s1.

Definition deleteDeck (deckId : jsstring) (s : State) : State :=
  set_confirm
    (str "Are you sure you want to delete this deck and all its cards?")
    (Some (DeleteDeckCallback deckId)) true s.

Definition selectDeck (deck : Deck.t) (s : State) : State :=
  set_selectedDeck (Some deck) s.

(* --------------------------------------------------------------------- *)
(*  Card methods                                                         *)
(* --------------------------------------------------------------------- *)

Definition edit_card (f : CardForm) (c : Card.t) : Card.t :=
  Card.mk c.(Card.id) c.(Card.deckId) (trim f.(cf_front)) (trim f.(cf_back))
          c.(Card.difficulty) c.(Card.reviewCount) c.(Card.lastReviewed)
          c.(Card.createdAt).

(* saveCard; None is the TypeError of selectedDeck.value.id when no deck
   is selected, raised before anything has been assigned. *)
Definition saveCard (newId now : jsstring) (s : State) : option State :=
  let form := s.(dialogs).(cardForm) in
  if negb (truthy (trim form.(cf_front))) || negb (truthy (trim form.(cf_back)))
  then Some s
  else
    s1 ← match s.(dialogs).(editingCard) with
         | Some e =>
             match findIndex (λ c, bool_decide (c.(Card.id) = e.(Card.id)))
                             s.(data).(cards) with
             | Some idx =>
                 Some (showToast (str "Card updated!") success
                         (set_cards (alter (edit_card form) idx s.(data).(cards)) s))
             | None => Some s
             end
         | None =>
             sel ← s.(selectedDeck);
             Some (showToast (str "Card added!") success
                     (set_cards
                        (s.(data).(cards) ++
                           [Card.mk newId sel.(Deck.id)
                                    (trim form.(cf_front)) (trim form.(cf_back))
                                    (Some (str "new")) (Some 0) None now])
                        s))
         end;
    Some (set_showCardModal false s1).

Definition deleteCard (cardId : jsstring) (s : State) : State :=
  set_confirm (str "Are you sure you want to delete this card?")
    (Some (DeleteCardCallback cardId)) true s.

(* The body of the closure that deleteDeck or deleteCard stored. *)
Definition run_callback (cb : Callback) (s : State) : State :=
  match cb with
  | DeleteDeckCallback deckId =>
      let s1 := set_cards (filter (λ c, c.(Card.deckId) ≠ deckId) s.(data).(cards)) s in
      let s2 := set_decks (filter (λ d, d.(Deck.id) ≠ deckId) s1.(data).(decks)) s1 in
      let s3 :=
        match s2.(selectedDeck) with
        | Some sel =>
            if bool_decide (sel.(Deck.id) = deckId) then set_selectedDeck None s2
            else s2
        | None => s2
        end in
      showToast (str "Deck deleted.") info s3
  | DeleteCardCallback cardId =>
      showToast (str "Card deleted.") info
        (set_cards (filter (λ c, c.(Card.id) ≠ cardId) s.(data).(cards)) s)
  end.

Definition confirmAction (s : State) : State :=
  let s1 :=
    match s.(dialogs).(confirmCallback) with
    | Some cb => run_callback cb s
    | None => s
    end in
  set_confirm s1.(dialogs).(confirmMessage) None false s1.

(* --------------------------------------------------------------------- *)
(*  Numbers                                                              *)
(* --------------------------------------------------------------------- *)

(* A counter of the script as the double it is (exact below 2^53). *)
Definition Number (n : nat) : float :=
  PrimFloat.of_uint63 (Uint63.of_Z (Z.of_nat n)).

(* Math.round on a finite double: the integer nearest to it, a tie going
   up, computed exactly from mantissa and exponent.  The script only
   rounds finite values. *)
Definition Math_round (x : float) : Z :=
  match Prim2SF x with
  | S754_finite sign m e =>
      let z := if sign then Z.neg m else Z.pos m in
      if (0 <=? e)%Z then Z.shiftl z e
      else Z.shiftr (z + 2 ^ (- e - 1)) (- e)
  | _ => 0%Z
  end.

(* --------------------------------------------------------------------- *)
(*  Utilities                                                            *)
(* --------------------------------------------------------------------- *)

(* [a[i], a[j]] = [a[j], a[i]].  Both indices are inside the array
   whenever shuffleArray swaps ([swap_in_range]); outside, where the
   script would store undefined, the model leaves the array. *)
Definition swap {A} (i j : nat) (a : list A) : list A :=
  match a !! i, a !! j with
  | Some x, Some y => <[j := x]> (<[i := y]> a)
  | _, _ => a
  end.

(* The loop of shuffleArray from index i down to 1.  [rnd i] is the
   random draw of the iteration at index i: Math.floor(Math.random() *
   (i + 1)) is some index between 0 and i, here [rnd i mod (i + 1)]. *)
Fixpoint shuffle_loop {A} (rnd : nat → nat) (i : nat) (a : list A) : list A :=
  match i with
  | 0 => a
  | S i' => shuffle_loop rnd i' (swap i (rnd i mod (i + 1)) a)
  end.

Definition shuffleArray {A} (rnd : nat → nat) (arr : list A) : list A :=
  shuffle_loop rnd (length arr - 1) arr.

(* --------------------------------------------------------------------- *)
(*  Study mode                                                           *)
(* --------------------------------------------------------------------- *)

(* The names every object literal inherits from Object.prototype. *)
Definition Object_prototype_keys : list jsstring :=
  str <$> ["constructor"; "__defineGetter__"; "__defineSetter__";
           "hasOwnProperty"; "__lookupGetter__"; "__lookupSetter__";
           "isPrototypeOf"; "propertyIsEnumerable"; "toString"; "valueOf";
           "__proto__"; "toLocaleString"]%string.

(* (priority[d] ?? 1) as the number the subtraction sees, for
   priority = { hard: 0, new: 1, medium: 2, easy: 3 }.  An inherited
   member is neither null nor undefined and converts to NaN (None). *)
Definition priority (d : option jsstring) : option Z :=
  match d with
  | None => Some 1%Z
  | Some k =>
      if bool_decide (k = str "hard") then Some 0%Z
      else if bool_decide (k = str "new") then Some 1%Z
      else if bool_decide (k = str "medium") then Some 2%Z
      else if bool_decide (k = str "easy") then Some 3%Z
      else if bool_decide (k ∈ Object_prototype_keys) then None
      else Some 1%Z
  end.

(* The comparator of startStudyMode. *)
Definition compare_priority (a b : Card.t) : option Z :=
  pa ← priority a.(Card.difficulty);
  pb ← priority b.(Card.difficulty);
  Some (pa - pb)%Z.

Definition fresh_study (queue : list Card.t) : Study :=
  {| studyCards := queue; studyIndex := 0; isFlipped := false;
     studyCorrect := 0; studyWrong := 0 |}.

Definition startStudyMode (rnd : nat → nat) (s : State) : State :=
  if bool_decide (length s.(data).(cards) = 0) then
    showToast (str "No cards to study! Create some cards first.") error s
  else
    let sorted := sort compare_priority s.(data).(cards) in
    set_view (str "study") (set_study (fresh_study (shuffleArray rnd sorted)) s).

Definition studyDeck (rnd : nat → nat) (deck : Deck.t) (s : State) : State :=
  let deckCards :=
    filter (λ c, c.(Card.deckId) = deck.(Deck.id)) s.(data).(cards) in
  if bool_decide (length deckCards = 0) then
    showToast (str "No cards in this deck!") error s
  else
    set_view (str "study") (set_study (fresh_study (shuffleArray rnd deckCards)) s).

Definition flipCard (s : State) : State :=
  let st := s.(study) in
  set_study
    {| studyCards := st.(studyCards); studyIndex := st.(studyIndex);
       isFlipped := negb st.(isFlipped);
       studyCorrect := st.(studyCorrect); studyWrong := st.(studyWrong) |} s.

(* The three assignments of rateCard to the card found in the store. *)
Definition rate_fields (now rating : jsstring) (c : Card.t) : Card.t :=
  Card.mk c.(Card.id) c.(Card.deckId) c.(Card.front) c.(Card.back)
          (Some rating)
          (Some (default 0 c.(Card.reviewCount) + 1))
          (Some now)
          c.(Card.createdAt).

(* cards.value.findIndex(c => c.id === card.id) for the current queue
   entry [card]: with no current entry (index past the queue) card is
   undefined, and the first call of the predicate raises a TypeError
   (outer None); on an empty store the predicate is never called. *)
Definition find_rated (card : option Card.t) (l : list Card.t)
    : option (option nat) :=
  match card with
  | Some c => Some (findIndex (λ x, bool_decide (x.(Card.id) = c.(Card.id))) l)
  | None => match l with [] => Some None | _ => None end
  end.

(* rateCard; [now] is new Date().toISOString().  None: the TypeError
   above, raised before anything has been assigned. *)
Definition rateCard (now rating : jsstring) (s : State) : option State :=
  let card := s.(study).(studyCards) !! s.(study).(studyIndex) in
  idx ← find_rated card s.(data).(cards);
  let s1 :=
    match idx with
    | Some i => set_cards (alter (rate_fields now rating) i s.(data).(cards)) s
    | None => s
    end in
  let st := s1.(study) in
  let wrong := bool_decide (rating = str "hard") in
  let s2 :=
    set_study
      {| studyCards := st.(studyCards);
         studyIndex := st.(studyIndex) + 1;
         isFlipped := false;
         studyCorrect := if wrong then st.(studyCorrect) else st.(studyCorrect) + 1;
         studyWrong := if wrong then st.(studyWrong) + 1 else st.(studyWrong) |}
      s1 in
  Some (if bool_decide (length s2.(study).(studyCards) ≤ s2.(study).(studyIndex))
        then set_totalSessions (s2.(data).(totalSessions) + 1) s2
        else s2).

Definition restartStudy (rnd : nat → nat) (s : State) : State :=
  set_study (fresh_study (shuffleArray rnd s.(study).(studyCards))) s.

Definition exitStudy (s : State) : State := set_view (str "decks") s.

(* // Computed *)
Definition studyAccuracy (s : State) : Z :=
  let total := s.(study).(studyCorrect) + s.(study).(studyWrong) in
  if bool_decide (total = 0) then 0%Z
  else Math_round (Number s.(study).(studyCorrect) / Number total * 100)%float.

Definition studyProgressPercent (s : State) : Z :=
  if bool_decide (length s.(study).(studyCards) = 0) then 0%Z
  else Math_round (Number s.(study).(studyIndex)
                   / Number (length s.(study).(studyCards)) * 100)%float.

(* The states of the session as the page shows them: the study view
   with a card on display, the study view past the last card, any other
   view. *)
Inductive SessionState := Idle | InProgress | Complete.

Definition session_state (s : State) : SessionState :=
  if bool_decide (s.(view) = str "study") then
    if bool_decide (s.(study).(studyIndex) < length s.(study).(studyCards))
    then InProgress else Complete
  else Idle.

(* A sequence of ratings, each with the time it is given at. *)
Fixpoint rateAll (rs : list (jsstring * jsstring)) (s : State) : option State :=
  match rs with
  | [] => Some s
  | (now, rating) :: rs' => s' ← rateCard now rating s; rateAll rs' s'
  end.

(* --------------------------------------------------------------------- *)
(*  The vocabulary of the specification                                  *)
(* --------------------------------------------------------------------- *)

(* The two ways of starting a session, and the source set of each. *)
Inductive Mode :=
  | AllCards
  | OneDeck (deck : Deck.t).

Definition source (m : Mode) (s : State) : list Card.t :=
  match m with
  | AllCards => s.(data).(cards)
  | OneDeck deck => filter (λ c, c.(Card.deckId) = deck.(Deck.id)) s.(data).(cards)
  end.

Definition start (m : Mode) (rnd : nat → nat) (s : State) : State :=
  match m with
  | AllCards => startStudyMode rnd s
  | OneDeck deck => studyDeck rnd deck s
  end.

Definition no_cards_message (m : Mode) : jsstring :=
  match m with
  | AllCards => str "No cards to study! Create some cards first."
  | OneDeck _ => str "No cards in this deck!"
  end.

(* The priority order hard(0) < new(1) < medium(2) < easy(3), anything
   else counting as new. *)
Definition rank (d : option jsstring) : Z :=
  match d with
  | Some k =>
      if bool_decide (k = str "hard") then 0
      else if bool_decide (k = str "medium") then 2
      else if bool_decide (k = str "easy") then 3
      else 1
  | None => 1
  end%Z.

Definition card_rank (c : Card.t) : Z := rank c.(Card.difficulty).

(* The difficulty is absent or is not the name of a member that the
   priority table inherits. *)
Definition plain_difficulty (c : Card.t) : Prop :=
  match c.(Card.difficulty) with
  | Some k => k ∉ Object_prototype_keys
  | None => True
  end.

#[global] Instance plain_difficulty_dec c : Decision (plain_difficulty c).
Proof. unfold plain_difficulty. destruct c.(Card.difficulty); apply _. Defined.

(* Order by a numeric key, and a comparator that is the difference of
   the keys on the elements of l. *)
Definition key_le {A} (key : A → Z) (x y : A) : Prop := (key x ≤ key y)%Z.

Definition by_key {A} (cmp : A → A → option Z) (key : A → Z) (l : list A) : Prop :=
  ∀ x y, x ∈ l → y ∈ l → cmp x y = Some (key x - key y)%Z.

(* The invariant of the session refs. *)
Definition index_in_range (s : State) : Prop :=
  0 ≤ s.(study).(studyIndex) ∧
  s.(study).(studyIndex) ≤ length s.(study).(studyCards).

(* A study session: what a successful start leaves, and what becomes of
   it by flipping, by rating the card on display, by restarting, and by
   whatever else leaves the view and the study refs alone (the store
   methods, the dialogs, the toasts, the watcher). *)
Inductive Session : State → Prop :=
  | Session_start m rnd s :
      source m s ≠ [] → Session (start m rnd s)
  | Session_flipCard s :
      Session s → Session (flipCard s)
  | Session_rateCard now rating s s' :
      Session s →
      s.(study).(studyIndex) < length s.(study).(studyCards) →
      rateCard now rating s = Some s' →
      Session s'
  | Session_restartStudy rnd s :
      Session s → Session (restartStudy rnd s)
  | Session_other s s' :
      Session s →
      s'.(view) = s.(view) → s'.(study) = s.(study) →
      Session s'.

(* The study refs after a rating, as rateCard assigns them. *)
Definition rated (rating : jsstring) (st : Study) : Study :=
  {| studyCards := st.(studyCards);
     studyIndex := st.(studyIndex) + 1;
     isFlipped := false;
     studyCorrect := if bool_decide (rating = str "hard") then st.(studyCorrect)
                     else st.(studyCorrect) + 1;
     studyWrong := if bool_decide (rating = str "hard") then st.(studyWrong) + 1
                   else st.(studyWrong) |}.

(* Deleting a deck: the request and the confirmation of the dialog. *)
Definition deleteDeck_confirmed (deckId : jsstring) (s : State) : State :=
  confirmAction (deleteDeck deckId s).

(* The integer nearest to 100 * a / b (b > 0), a tie going up. *)
Definition round_percent (a b : nat) : Z :=
  ((200 * Z.of_nat a + Z.of_nat b) / (2 * Z.of_nat b))%Z.

(* --------------------------------------------------------------------- *)
(*  Sample data                                                          *)
(* --------------------------------------------------------------------- *)

Definition sample_deck (id : string) : Deck.t :=
  Deck.mk (str id) (str "Spanish") [55357; 56538]%N (str "#6c5ce7")
          (str "2024-01-01T00:00:00.000Z").

Definition sample_card (id deck difficulty : string) : Card.t :=
  Card.mk (str id) (str deck) (str "hola") (str "hello") (Some (str difficulty))
          (Some 0) None (str "2024-01-01T00:00:00.000Z").

(* Two decks; the first holds an easy card, then a hard one, then a new
   one, the second a medium card. *)
Definition sample_store : State :=
  set_selectedDeck (Some (sample_deck "d1"))
    (set_data
       {| decks := [sample_deck "d1"; sample_deck "d2"];
          cards := [sample_card "c1" "d1" "easy";
                    sample_card "c2" "d1" "hard";
                    sample_card "c3" "d2" "medium";
                    sample_card "c4" "d1" "new"];
          totalSessions := 4 |}
       init).

(* The draws that never swap (j = i at every index), and the draws that
   always pick index 0. *)
Definition keep_draws : nat → nat := λ i, i.
Definition zero_draws : nat → nat := λ _, 0.

Definition sample_time : jsstring := str "2024-02-02T00:00:00.000Z".

Definition sample_ratings : list (jsstring * jsstring) :=
  [(sample_time, str "hard"); (sample_time, str "medium");
   (sample_time, str "easy"); (sample_time, str "medium")].

(* A session over all the sample cards, queued hard, new, medium, easy;
   the same after its first card was rated easy; and the same after its
   first card was deleted from the store instead. *)
Definition sample_session : State := start AllCards keep_draws sample_store.

Definition sample_rated : State :=
  default sample_session (rateCard sample_time (str "easy") sample_session).

Definition sample_orphaned : State :=
  confirmAction (deleteCard (str "c2") sample_session).

(* --------------------------------------------------------------------- *)
(*  The other methods of the script                                      *)
(* --------------------------------------------------------------------- *)

(* loadData.  What localStorage.getItem and JSON.parse hand to it: no
   item (or the empty string), text that does not parse, the value null,
   or a value whose properties decks, cards and totalSessions are there
   or not.  On the first three nothing is assigned (the TypeError of
   null.decks and the SyntaxError are caught and logged). *)
Inductive Stored :=
  | NoItem
  | Unparsable
  | ParsedNull
  | Parsed (ds : option (list Deck.t)) (cs : option (list Card.t))
           (n : option nat).

Definition loadData (blob : Stored) (s : State) : State :=
  match blob with
  | Parsed ds cs n =>
      set_totalSessions (default 0 n)
        (set_cards (default [] cs) (set_decks (default [] ds) s))
  | _ => s
  end.

(* String.prototype.includes: q occurs in s as a run of code units. *)
Fixpoint starts_with (q s : jsstring) : bool :=
  match q, s with
  | [], _ => true
  | c :: q', d :: s' => bool_decide (c = d) && starts_with q' s'
  | _ :: _, [] => false
  end.

Fixpoint includes (s q : jsstring) : bool :=
  starts_with q s ||
  match s with
  | [] => false
  | _ :: s' => includes s' q
  end.

(* // Computed and the deck queries.  String.prototype.toLowerCase is the
   language's; the definitions take it as it is, whatever it maps. *)
Section Search.
Variable toLowerCase : jsstring → jsstring.

(* front or back contains q, both lowered. *)
Definition card_matches (q : jsstring) (c : Card.t) : bool :=
  includes (toLowerCase c.(Card.front)) q ||
  includes (toLowerCase c.(Card.back)) q.

Definition filteredDecks (s : State) : list Deck.t :=
  if negb (truthy (trim s.(searchQuery))) then s.(data).(decks)
  else
    let q := toLowerCase s.(searchQuery) in
    filter
      (λ deck,
         includes (toLowerCase deck.(Deck.name)) q ||
         existsb (λ card,
                    bool_decide (card.(Card.deckId) = deck.(Deck.id)) &&
                    card_matches q card)
                 s.(data).(cards))
      s.(data).(decks).

Definition getDeckCards (deckId : jsstring) (s : State) : list Card.t :=
  let q := toLowerCase s.(searchQuery) in
  let deckCards := filter (λ c, c.(Card.deckId) = deckId) s.(data).(cards) in
  if truthy q then filter (λ c, card_matches q c) deckCards else deckCards.
End Search.

Definition masteredCount (s : State) : nat :=
  length (filter (λ c, c.(Card.difficulty) = Some (str "easy")) s.(data).(cards)).

Definition getCardCount (deckId : jsstring) (s : State) : nat :=
  length (filter (λ c, c.(Card.deckId) = deckId) s.(data).(cards)).

Definition getDeckMastery (deckId : jsstring) (s : State) : Z :=
  let deckCards := filter (λ c, c.(Card.deckId) = deckId) s.(data).(cards) in
  if bool_decide (length deckCards = 0) then 0%Z
  else
    let mastered :=
      length (filter (λ c, c.(Card.difficulty) = Some (str "easy")) deckCards) in
    Math_round (Number mastered / Number (length deckCards) * 100)%float.

(* !c.difficulty: for a difficulty that is a string or absent, it is
   absent or the empty string. *)
Definition no_difficulty (c : Card.t) : bool :=
  match c.(Card.difficulty) with
  | Some k => negb (truthy k)
  | None => true
  end.

(* // Stats *)
Definition difficultyCount (diff : jsstring) (s : State) : nat :=
  if bool_decide (diff = str "new") then
    length (filter (λ c, no_difficulty c ||
                         bool_decide (c.(Card.difficulty) = Some (str "new")))
                   s.(data).(cards))
  else
    length (filter (λ c, c.(Card.difficulty) = Some diff) s.(data).(cards)).

Definition difficultyPercent (diff : jsstring) (s : State) : Z :=
  if bool_decide (length s.(data).(cards) = 0) then 0%Z
  else Math_round (Number (difficultyCount diff s)
                   / Number (length s.(data).(cards)) * 100)%float.

(* The dialogs.  editingDeck, deckForm and showDeckModal are assigned
   together by openNewDeckModal and editDeck, and likewise for cards. *)
Definition open_deck_modal (e : option Deck.t) (f : DeckForm) (s : State) : State :=
  let d := s.(dialogs) in
  set_dialogs
    {| showDeckModal := true; showCardModal := d.(showCardModal);
       showConfirm := d.(showConfirm); confirmMessage := d.(confirmMessage);
       confirmCallback := d.(confirmCallback);
       editingDeck := e; editingCard := d.(editingCard);
       deckForm := f; cardForm := d.(cardForm) |} s.

Definition open_card_modal (e : option Card.t) (f : CardForm) (s : State) : State :=
  let d := s.(dialogs) in
  set_dialogs
    {| showDeckModal := d.(showDeckModal); showCardModal := true;
       showConfirm := d.(showConfirm); confirmMessage := d.(confirmMessage);
       confirmCallback := d.(confirmCallback);
       editingDeck := d.(editingDeck); editingCard := e;
       deckForm := d.(deckForm); cardForm := f |} s.

Definition openNewDeckModal (s : State) : State :=
  open_deck_modal None emptyDeckForm s.

Definition editDeck (deck : Deck.t) (s : State) : State :=
  open_deck_modal (Some deck)
    {| df_name := deck.(Deck.name); df_emoji := deck.(Deck.emoji);
       df_color := deck.(Deck.color) |} s.

Definition openNewCardModal (s : State) : State :=
  open_card_modal None emptyCardForm s.

Definition editCard (card : Card.t) (s : State) : State :=
  open_card_modal (Some card)
    {| cf_front := card.(Card.front); cf_back := card.(Card.back) |} s.

(* Deleting a card: the request and the confirmation of the dialog. *)
Definition deleteCard_confirmed (cardId : jsstring) (s : State) : State :=
  confirmAction (deleteCard cardId s).

(* // Keyboard shortcuts.  The two properties of the event that
   handleKeydown reads. *)
Module KeyboardEvent.
Record t := mk {
  key : jsstring;
  code : jsstring
}.
End KeyboardEvent.

(* The three assignments of the Escape branch. *)
Definition close_dialogs (s : State) : State :=
  let d := s.(dialogs) in
  set_dialogs
    {| showDeckModal := false; showCardModal := false;
       showConfirm := false; confirmMessage := d.(confirmMessage);
       confirmCallback := d.(confirmCallback);
       editingDeck := d.(editingDeck); editingCard := d.(editingCard);
       deckForm := d.(deckForm); cardForm := d.(cardForm) |} s.

(* handleKeydown; [now] is the time a rating would be given at.  None is
   a TypeError out of rateCard. *)
Definition handleKeydown (now : jsstring) (e : KeyboardEvent.t) (s : State)
    : option State :=
  if s.(dialogs).(showDeckModal) || s.(dialogs).(showCardModal)
     || s.(dialogs).(showConfirm)
  then
    Some (if bool_decide (e.(KeyboardEvent.key) = str "Escape")
          then close_dialogs s else s)
  else if bool_decide (s.(view) = str "study")
          && bool_decide (0 < length s.(study).(studyCards))
          && bool_decide (s.(study).(studyIndex) < length s.(study).(studyCards))
  then
    let s1 := if bool_decide (e.(KeyboardEvent.code) = str "Space")
              then flipCard s else s in
    if s1.(study).(isFlipped) then
      s2 ← (if bool_decide (e.(KeyboardEvent.key) = str "1")
            then rateCard now (str "hard") s1 else Some s1);
      s3 ← (if bool_decide (e.(KeyboardEvent.key) = str "2")
            then rateCard now (str "medium") s2 else Some s2);
      if bool_decide (e.(KeyboardEvent.key) = str "3")
      then rateCard now (str "easy") s3 else Some s3
    else Some s1
  else Some s.

(* The methods the page can call, the key handler and the two things
   that run by themselves: the timer of a toast and the watcher. *)
Inductive Action :=
  | OpenNewDeckModal
  | EditDeck (deck : Deck.t)
  | SaveDeck (newId now : jsstring)
  | DeleteDeck (deckId : jsstring)
  | SelectDeck (deck : Deck.t)
  | OpenNewCardModal
  | EditCard (card : Card.t)
  | SaveCard (newId now : jsstring)
  | DeleteCard (cardId : jsstring)
  | ConfirmAction
  | StartStudyMode (rnd : nat → nat)
  | StudyDeck (rnd : nat → nat) (deck : Deck.t)
  | FlipCard
  | RateCard (now rating : jsstring)
  | RestartStudy (rnd : nat → nat)
  | ExitStudy
  | Keydown (now : jsstring) (e : KeyboardEvent.t)
  | ToastTimeout (id : nat)
  | Watcher.

Definition perform (a : Action) (s : State) : option State :=
  match a with
  | OpenNewDeckModal => Some (openNewDeckModal s)
  | EditDeck deck => Some (editDeck deck s)
  | SaveDeck newId now => Some (saveDeck newId now s)
  | DeleteDeck deckId => Some (deleteDeck deckId s)
  | SelectDeck deck => Some (selectDeck deck s)
  | OpenNewCardModal => Some (openNewCardModal s)
  | EditCard card => Some (editCard card s)
  | SaveCard newId now => saveCard newId now s
  | DeleteCard cardId => Some (deleteCard cardId s)
  | ConfirmAction => Some (confirmAction s)
  | StartStudyMode rnd => Some (startStudyMode rnd s)
  | StudyDeck rnd deck => Some (studyDeck rnd deck s)
  | FlipCard => Some (flipCard s)
  | RateCard now rating => rateCard now rating s
  | RestartStudy rnd => Some (restartStudy rnd s)
  | ExitStudy => Some (exitStudy s)
  | Keydown now e => handleKeydown now e s
  | ToastTimeout id => Some (expireToast id s)
  | Watcher => Some (flush s)
  end.

(* The ids of the store. *)
Definition deck_ids (s : State) : list jsstring := Deck.id <$> s.(data).(decks).
Definition card_ids (s : State) : list jsstring := Card.id <$> s.(data).(cards).

(* No orphans: every card belongs to a deck of the store, and so does
   the selection. *)
Definition no_orphans (s : State) : Prop :=
  (∀ c, c ∈ s.(data).(cards) → c.(Card.deckId) ∈ deck_ids s) ∧
  (∀ d, s.(selectedDeck) = Some d → d.(Deck.id) ∈ deck_ids s).

(* The page selects a deck of the store. *)
Definition selects_from_store (a : Action) (s : State) : Prop :=
  match a with
  | SelectDeck deck => deck.(Deck.id) ∈ deck_ids s
  | _ => True
  end.

(* generateId returned an id that the store does not hold yet. *)
Definition fresh_id (a : Action) (s : State) : Prop :=
  match a with
  | SaveDeck newId _ => newId ∉ deck_ids s
  | SaveCard newId _ => newId ∉ card_ids s
  | _ => True
  end.

Definition unique_ids (s : State) : Prop :=
  NoDup (deck_ids s) ∧ NoDup (card_ids s).

(* The actions that assign to a study ref. *)
Definition study_action (a : Action) : bool :=
  match a with
  | StartStudyMode _ | StudyDeck _ _ | FlipCard | RateCard _ _
  | RestartStudy _ | Keydown _ _ => true
  | _ => false
  end.

(* The ids of the toasts on display are distinct and were all handed
   out already. *)
Definition toasts_ok (s : State) : Prop :=
  NoDup (Toast.id <$> s.(toasts)) ∧
  Forall (λ t, t.(Toast.id) ≤ s.(toastId)) s.(toasts).

(* What a method can do to the toasts: nothing, or show one. *)
Definition toast_shown (s s' : State) : Prop :=
  (s'.(toasts) = s.(toasts) ∧ s'.(toastId) = s.(toastId)) ∨
  ∃ message ty,
    s'.(toasts) = s.(toasts) ++ [Toast.mk (S s.(toastId)) message ty (iconMap ty)] ∧
    s'.(toastId) = S s.(toastId).

(* q occurs in x as a run of code units. *)
Definition occurs_in (q x : jsstring) : Prop := ∃ l1 l2, x = l1 ++ q ++ l2.

(* The texts of the store as the forms leave them: a deck has a name
   that is not blank, a card a front and a back that are trimmed and
   not empty. *)
Definition texts_ok (s : State) : Prop :=
  (∀ d, d ∈ s.(data).(decks) → trim d.(Deck.name) ≠ []) ∧
  (∀ c, c ∈ s.(data).(cards) →
        trim c.(Card.front) = c.(Card.front) ∧ c.(Card.front) ≠ [] ∧
        trim c.(Card.back) = c.(Card.back) ∧ c.(Card.back) ≠ []).

(* The storage holds the current data and the watcher has nothing to
   write. *)
Definition in_sync (s : State) : Prop :=
  s.(watch_pending) = false ∧ head s.(storage_writes) = Some s.(data).

(* The difficulties that the statistics count. *)
Definition counted_difficulty (c : Card.t) : Prop :=
  match c.(Card.difficulty) with
  | None => True
  | Some k => k = [] ∨ k = str "new" ∨ k = str "hard" ∨ k = str "medium"
              ∨ k = str "easy"
  end.

#[global] Instance counted_difficulty_dec c : Decision (counted_difficulty c).
Proof. unfold counted_difficulty. destruct c.(Card.difficulty); apply _. Defined.

#[global] Instance SessionState_eq_dec : EqDecision SessionState.
Proof. solve_decision. Defined.

(* The rating that a key gives: 1, 2 and 3 are hard, medium and easy. *)
Definition key_rating (k : jsstring) : option jsstring :=
  if bool_decide (k = str "1") then Some (str "hard")
  else if bool_decide (k = str "2") then Some (str "medium")
  else if bool_decide (k = str "3") then Some (str "easy")
  else None.

(* The sample store with the card dialog open on a card (or on none)
   and the form filled in. *)
Definition sample_card_dialog (e : option Card.t) (front back : string)
    (s : State) : State :=
  set_dialogs
    {| showDeckModal := false; showCardModal := true; showConfirm := false;
       confirmMessage := []; confirmCallback := None;
       editingDeck := None; editingCard := e;
       deckForm := emptyDeckForm;
       cardForm := {| cf_front := str front; cf_back := str back |} |} s.

(* A lowering of the letters A to Z, for the examples. *)
Definition ascii_toLowerCase (s : jsstring) : jsstring :=
  (λ c, if bool_decide (65 ≤ c ≤ 90)%N then (c + 32)%N else c) <$> s.

Definition with_query (q : jsstring) (s : State) : State :=
  {| view := s.(view); sidebarCollapsed := s.(sidebarCollapsed);
     searchQuery := q; selectedDeck := s.(selectedDeck);
     data := s.(data); dialogs := s.(dialogs); study := s.(study);
     toasts := s.(toasts); toastId := s.(toastId);
     watch_pending := s.(watch_pending); storage_writes := s.(storage_writes) |}.

(* ===================================================================== *)
(*  Properties                                                           *)
(* ===================================================================== *)

(* --------------------------------------------------------------------- *)
(*  Swapping and shuffling                                               *)
(* --------------------------------------------------------------------- *)

Section Shuffle.
Context {A : Type}.
Implicit Types (a pre suf q : list A) (i j : nat).

Lemma swap_length i j a : length (swap i j a) = length a.
Proof.
  unfold swap. destruct (a !! i), (a !! j); trivial.
  by rewrite !length_insert.
Qed.

Lemma insert_Permutation_delete a i x :
  i < length a → <[i := x]> a ≡ₚ x :: delete i a.
Proof.
  revert i. induction a as [|y a IH]; intros [|i] Hi; simpl in *; try lia.
  - reflexivity.
  - rewrite IH by lia. apply perm_swap.
Qed.

Lemma swap_Permutation i j a : swap i j a ≡ₚ a.
Proof.
  unfold swap.
  destruct (a !! i) as [x|] eqn:Hi; [|reflexivity].
  destruct (a !! j) as [y|] eqn:Hj; [|reflexivity].
  destruct (decide (i = j)) as [->|Hne].
  - rewrite list_insert_insert_eq. rewrite list_insert_id; [reflexivity|].
    congruence.
  - pose proof (lookup_lt_Some _ _ _ Hi) as Hli.
    pose proof (lookup_lt_Some _ _ _ Hj) as Hlj.
    assert (Hbj : <[i := y]> a !! j = Some y)
      by (by rewrite list_lookup_insert_ne).
    rewrite insert_Permutation_delete by (by rewrite length_insert).
    assert (Hd : delete j (<[i := y]> a) ≡ₚ delete i a).
    { apply (Permutation_cons_inv (a := y)).
      rewrite <- (delete_Permutation _ _ _ Hbj).
      by apply insert_Permutation_delete. }
    rewrite Hd. symmetry. by apply delete_Permutation.
Qed.

Lemma shuffle_loop_Permutation rnd i a : shuffle_loop rnd i a ≡ₚ a.
Proof.
  revert a. induction i as [|i IH]; intros a; simpl; [reflexivity|].
  rewrite IH. apply swap_Permutation.
Qed.

Lemma shuffleArray_Permutation rnd a : shuffleArray rnd a ≡ₚ a.
Proof. apply shuffle_loop_Permutation. Qed.

Lemma shuffleArray_length rnd a : length (shuffleArray rnd a) = length a.
Proof. apply Permutation_length, shuffleArray_Permutation. Qed.

Lemma shuffleArray_nonempty rnd a : a ≠ [] → shuffleArray rnd a ≠ [].
Proof.
  intros Ha Hs. apply Ha, nil_length_inv.
  by rewrite <- (shuffleArray_length rnd), Hs.
Qed.

(* Inside the array a swap exchanges the two elements; the loop only
   swaps there, its index i being below the length and the drawn index
   at most i. *)
Lemma swap_in_range i j a :
  i < length a → j ≤ i →
  ∃ x y, a !! i = Some x ∧ a !! j = Some y ∧
         swap i j a = <[j := x]> (<[i := y]> a).
Proof.
  intros Hi Hj.
  destruct (lookup_lt_is_Some_2 a i Hi) as [x Hx].
  destruct (lookup_lt_is_Some_2 a j) as [y Hy]; [lia|].
  exists x, y. unfold swap. by rewrite Hx, Hy.
Qed.

Lemma shuffle_loop_S rnd i a :
  shuffle_loop rnd (S i) a
  = shuffle_loop rnd i (swap (S i) (rnd (S i) mod (S i + 1)) a).
Proof. reflexivity. Qed.

(* The loop reads the draws only through the indices they select. *)
Lemma shuffle_loop_ext rnd rnd' i a :
  (∀ k, 0 < k ≤ i → rnd k mod (k + 1) = rnd' k mod (k + 1)) →
  shuffle_loop rnd i a = shuffle_loop rnd' i a.
Proof.
  revert a. induction i as [|i IH]; intros a Hk; [done|].
  rewrite !shuffle_loop_S, (Hk (S i)) by lia. apply IH. intros k ?. apply Hk. lia.
Qed.

Lemma swap_app_l i j pre suf :
  i < length pre → j < length pre →
  swap i j (pre ++ suf) = swap i j pre ++ suf.
Proof.
  intros Hi Hj. unfold swap. rewrite !lookup_app_l by done.
  destruct (pre !! i), (pre !! j); try done.
  rewrite !insert_app_l; rewrite ?length_insert; done.
Qed.

(* From index i down the loop leaves everything behind index i alone. *)
Lemma shuffle_loop_app rnd i pre suf :
  i < length pre →
  shuffle_loop rnd i (pre ++ suf) = shuffle_loop rnd i pre ++ suf.
Proof.
  revert pre. induction i as [|i IH]; intros pre Hi; [done|].
  pose proof (Nat.mod_upper_bound (rnd (S i)) (S i + 1)).
  rewrite !shuffle_loop_S, swap_app_l by lia. apply IH. rewrite swap_length. lia.
Qed.

(* The swap at the last index puts the selected element there. *)
Lemma swap_last n j a z :
  length a = S n → a !! j = Some z →
  swap n j a = take n (swap n j a) ++ [z].
Proof.
  intros Hlen Hj.
  assert (Hz : swap n j a !! n = Some z).
  { unfold swap. destruct (lookup_lt_is_Some_2 a n) as [x Hx]; [lia|].
    rewrite Hx, Hj. destruct (decide (j = n)) as [->|Hne].
    - rewrite list_lookup_insert_eq by (rewrite length_insert; lia). congruence.
    - rewrite list_lookup_insert_ne by done.
      apply list_lookup_insert_eq. lia. }
  rewrite <- (take_S_r _ _ _ Hz). symmetry. apply take_ge.
  rewrite swap_length. lia.
Qed.

Lemma shuffle_loop_bijective m : ∀ a q,
  length a = S m → NoDup a → q ≡ₚ a →
  ∃ draws,
    shuffle_loop draws m a = q ∧
    ∀ draws', shuffle_loop draws' m a = q →
      ∀ i, 0 < i ≤ m → draws' i mod (i + 1) = draws i mod (i + 1).
Proof.
  induction m as [|m IH]; intros a q Hlen Hnd Hq.
  - exists (λ _, 0). split; [|intros; lia]. simpl.
    destruct a as [|x [|]]; try done. symmetry. by apply Permutation_singleton_r.
  - destruct (decide (q = [])) as [->|Hne].
    { apply Permutation_length in Hq. simpl in Hq. lia. }
    destruct (exists_last Hne) as (q0 & z & ->).
    assert (Hz : z ∈ a) by (rewrite <- Hq, elem_of_app; right; left).
    apply list_elem_of_lookup in Hz as [j Hj].
    pose proof (lookup_lt_Some _ _ _ Hj) as Hjlt.
    pose proof (swap_last (S m) j a z Hlen Hj) as Hsw.
    set (pre := take (S m) (swap (S m) j a)) in *.
    assert (Hpre_len : length pre = S m).
    { subst pre. rewrite length_take, swap_length. lia. }
    assert (Hpre : q0 ≡ₚ pre).
    { apply (Permutation_app_inv_r [z]). simpl.
      rewrite <- Hsw, swap_Permutation. done. }
    assert (Hpre_nd : NoDup pre).
    { assert (Hnd' : NoDup (pre ++ [z])).
      { rewrite <- Hsw. by rewrite (swap_Permutation (S m) j a). }
      by apply NoDup_app in Hnd' as (? & _). }
    destruct (IH pre q0 Hpre_len Hpre_nd Hpre) as (draws0 & Hd0 & Huniq).
    exists (λ k, if decide (k = S m) then j else draws0 k). split.
    + rewrite shuffle_loop_S, decide_True by done.
      rewrite Nat.mod_small by lia. rewrite Hsw.
      rewrite shuffle_loop_app by lia. f_equal.
      rewrite <- Hd0. apply shuffle_loop_ext. intros k Hk.
      by rewrite decide_False by lia.
    + intros draws' Hd' i Hi. rewrite shuffle_loop_S in Hd'.
      set (j' := draws' (S m) mod (S m + 1)) in *.
      assert (Hj'lt : j' < length a).
      { subst j'. pose proof (Nat.mod_upper_bound (draws' (S m)) (S m + 1)). lia. }
      destruct (lookup_lt_is_Some_2 a j' Hj'lt) as [z' Hj'].
      pose proof (swap_last (S m) j' a z' Hlen Hj') as Hsw'.
      rewrite Hsw' in Hd'.
      rewrite shuffle_loop_app in Hd'
        by (rewrite length_take, swap_length; lia).
      apply app_inj_tail in Hd' as [Hd' ->].
      assert (j' = j) as Hjj by exact (NoDup_lookup a j' j z Hnd Hj' Hj).
      destruct (decide (i = S m)) as [->|Hne'].
      * fold j'. rewrite Hjj. symmetry. apply Nat.mod_small. lia.
      * rewrite Hjj in Hd'. apply (Huniq draws' Hd' i). lia.
Qed.

(* shuffleArray is unbiased: on distinct elements every arrangement is
   the outcome of one and only one choice of indices, so draws that are
   uniform and independent make every arrangement equally likely. *)
Lemma shuffleArray_unbiased a q :
  NoDup a → q ≡ₚ a →
  ∃ draws,
    shuffleArray draws a = q ∧
    ∀ draws', shuffleArray draws' a = q →
      ∀ i, 0 < i < length a → draws' i mod (i + 1) = draws i mod (i + 1).
Proof.
  intros Hnd Hq. destruct a as [|x a].
  - exists (λ _, 0). split; [|simpl; intros; lia].
    by apply Permutation_nil_r in Hq as ->.
  - destruct (shuffle_loop_bijective (length a) (x :: a) q) as (draws & Hd & Hu);
      try done.
    exists draws. unfold shuffleArray. simpl. rewrite Nat.sub_0_r.
    split; [done|]. intros draws' Hd' i Hi. apply (Hu draws' Hd'). lia.
Qed.
End Shuffle.

(* --------------------------------------------------------------------- *)
(*  Sorting                                                              *)
(* --------------------------------------------------------------------- *)

Section Sort.
Context {A : Type} (cmp : A → A → option Z) (key : A → Z).
Local Abbreviation key_le := (key_le key).
Local Abbreviation by_key := (by_key cmp key).

Lemma sort_insert_Permutation x l : sort_insert cmp x l ≡ₚ x :: l.
Proof.
  induction l as [|y l IH]; simpl; [reflexivity|].
  destruct (positive_result (cmp x y)); [|reflexivity].
  rewrite IH. apply perm_swap.
Qed.

Lemma sort_Permutation l : sort cmp l ≡ₚ l.
Proof.
  induction l as [|x l IH]; simpl; [reflexivity|].
  fold (sort cmp l). by rewrite sort_insert_Permutation, IH.
Qed.

Lemma by_key_cons x l : by_key (x :: l) → by_key l.
Proof. intros H a b Ha Hb. apply H; by right. Qed.

Lemma sort_insert_sorted x l :
  (∀ y, y ∈ l → cmp x y = Some (key x - key y)%Z) →
  Sorted key_le l → Sorted key_le (sort_insert cmp x l).
Proof.
  intros Hcmp Hs. induction Hs as [|y l Hs IH Hhd]; simpl.
  - repeat constructor.
  - rewrite (Hcmp y) by left. simpl.
    destruct (Z.ltb_spec 0 (key x - key y)) as [Hlt|Hge].
    + constructor.
      * apply IH. intros z Hz. apply Hcmp. by right.
      * destruct l as [|z l]; simpl.
        { constructor. unfold key_le. lia. }
        rewrite (Hcmp z) by (right; left). simpl.
        destruct (Z.ltb_spec 0 (key x - key z)).
        -- constructor. by inversion Hhd.
        -- constructor. unfold key_le. lia.
    + constructor; [by constructor|]. constructor. unfold key_le. lia.
Qed.

Lemma sort_sorted l : by_key l → Sorted key_le (sort cmp l).
Proof.
  induction l as [|x l IH]; intros Hk; simpl; [constructor|].
  fold (sort cmp l). apply sort_insert_sorted.
  - intros y Hy. apply Hk; [left|right].
    by rewrite <- (sort_Permutation l).
  - apply IH. by eapply by_key_cons.
Qed.

(* Stability: the elements of one key keep their order. *)
Lemma sort_insert_stable k x l :
  (∀ y, y ∈ l → cmp x y = Some (key x - key y)%Z) →
  filter (λ y, key y = k) (sort_insert cmp x l)
  = filter (λ y, key y = k) (x :: l).
Proof.
  intros Hcmp. induction l as [|y l IH]; simpl; [done|].
  rewrite (Hcmp y) by left. simpl.
  destruct (Z.ltb_spec 0 (key x - key y)) as [Hlt|Hge]; [|done].
  assert (IH' := IH (λ z Hz, Hcmp z (list_elem_of_further _ _ _ Hz))).
  rewrite (filter_cons _ y), IH', !(filter_cons _ x), !(filter_cons _ y).
  repeat case_decide; try done; lia.
Qed.

Lemma sort_stable k l :
  by_key l →
  filter (λ y, key y = k) (sort cmp l) = filter (λ y, key y = k) l.
Proof.
  induction l as [|x l IH]; intros Hk; simpl; [done|].
  fold (sort cmp l). rewrite sort_insert_stable.
  - rewrite !(filter_cons _ x), IH; [done|]. by eapply by_key_cons.
  - intros y Hy. apply Hk; [left|right].
    by rewrite <- (sort_Permutation l).
Qed.

(* A sorted list is fixed by the order inside each key: whatever stable
   sort the engine runs, it returns the list that [sort] returns. *)
Lemma sorted_stable_unique l1 l2 :
  Sorted key_le l1 → Sorted key_le l2 →
  (∀ k, filter (λ y, key y = k) l1 = filter (λ y, key y = k) l2) →
  l1 = l2.
Proof.
  intros H1 H2. apply Sorted_StronglySorted in H1, H2;
    try (intros x y z; unfold key_le; lia).
  revert l2 H2. induction H1 as [|x l1 Hs1 IH Hx]; intros l2 H2 Hf.
  - destruct l2 as [|y l2]; [done|].
    specialize (Hf (key y)). rewrite filter_cons in Hf.
    by case_decide.
  - destruct H2 as [|y l2 Hs2 Hy].
    { specialize (Hf (key x)). rewrite filter_cons in Hf. by case_decide. }
    assert (Hxy : key x = key y).
    { destruct (Z.lt_total (key x) (key y)) as [Hlt|[Heq|Hgt]]; [|done|].
      - specialize (Hf (key x)). rewrite !filter_cons in Hf.
        rewrite decide_True in Hf by done.
        rewrite decide_False in Hf by lia.
        assert (Hin : x ∈ filter (λ z, key z = key x) l2)
          by (rewrite <- Hf; left).
        apply list_elem_of_filter in Hin as [_ Hin].
        rewrite Forall_forall in Hy. apply Hy in Hin.
        unfold key_le in Hin. lia.
      - specialize (Hf (key y)). rewrite !filter_cons in Hf.
        rewrite (decide_True (P := key y = key y)) in Hf by done.
        rewrite decide_False in Hf by lia.
        assert (Hin : y ∈ filter (λ z, key z = key y) l1)
          by (rewrite Hf; left).
        apply list_elem_of_filter in Hin as [_ Hin].
        rewrite Forall_forall in Hx. apply Hx in Hin.
        unfold key_le in Hin. lia. }
    assert (x = y ∧ ∀ k, filter (λ z, key z = k) l1 = filter (λ z, key z = k) l2)
      as [-> Hf'].
    { split.
      - specialize (Hf (key x)). rewrite !filter_cons in Hf.
        rewrite decide_True in Hf by done.
        rewrite decide_True in Hf by done. congruence.
      - intros k. specialize (Hf k). rewrite !filter_cons in Hf.
        rewrite <- Hxy in Hf. case_decide; congruence. }
    f_equal. by apply IH.
Qed.
End Sort.

(* --------------------------------------------------------------------- *)
(*  Starting a session                                                   *)
(* --------------------------------------------------------------------- *)

Lemma length_zero_iff {A} (l : list A) : length l = 0 ↔ l = [].
Proof. destruct l; naive_solver. Qed.

(* The list that start hands to shuffleArray. *)
Lemma start_queue m rnd s :
  source m s ≠ [] →
  ∃ arranged,
    arranged ≡ₚ source m s ∧
    start m rnd s
    = set_view (str "study")
        (set_study (fresh_study (shuffleArray rnd arranged)) s).
Proof.
  intros Hne. destruct m as [|deck]; simpl in *.
  - exists (sort compare_priority s.(data).(cards)). split.
    + apply sort_Permutation.
    + unfold startStudyMode. rewrite bool_decide_eq_false_2; [done|].
      by rewrite length_zero_iff.
  - eexists. split; [reflexivity|].
    unfold studyDeck. rewrite bool_decide_eq_false_2; [done|].
    by rewrite length_zero_iff.
Qed.

Lemma start_empty m rnd s :
  source m s = [] → start m rnd s = showToast (no_cards_message m) error s.
Proof.
  intros He. destruct m as [|deck]; simpl in *.
  - unfold startStudyMode. by rewrite He.
  - unfold studyDeck. by rewrite He.
Qed.

(* --------------------------------------------------------------------- *)
(*  Rating                                                               *)
(* --------------------------------------------------------------------- *)

Lemma find_rated_current (q l : list Card.t) i :
  i < length q → is_Some (find_rated (q !! i) l).
Proof.
  intros Hi. destruct (lookup_lt_is_Some_2 q i Hi) as [c ->]. by eexists.
Qed.

(* What one rating of the card on display does. *)
Lemma rateCard_current now rating s :
  s.(study).(studyIndex) < length s.(study).(studyCards) →
  ∃ s',
    rateCard now rating s = Some s' ∧
    s'.(view) = s.(view) ∧
    s'.(study).(studyCards) = s.(study).(studyCards) ∧
    s'.(study).(studyIndex) = s.(study).(studyIndex) + 1 ∧
    s'.(study).(isFlipped) = false ∧
    s'.(study).(studyCorrect)
      = (if bool_decide (rating = str "hard") then s.(study).(studyCorrect)
         else s.(study).(studyCorrect) + 1) ∧
    s'.(study).(studyWrong)
      = (if bool_decide (rating = str "hard") then s.(study).(studyWrong) + 1
         else s.(study).(studyWrong)) ∧
    s'.(data).(totalSessions)
      = (if bool_decide (length s.(study).(studyCards) ≤ s.(study).(studyIndex) + 1)
         then s.(data).(totalSessions) + 1 else s.(data).(totalSessions)).
Proof.
  intros Hi. unfold rateCard.
  destruct (find_rated_current _ s.(data).(cards) _ Hi) as [idx ->]. simpl.
  eexists. split; [reflexivity|].
  destruct idx as [i|]; simpl; case_bool_decide; simpl; done.
Qed.

(* Ratings that stop short of the end of the queue. *)
Lemma rateAll_short rs s :
  s.(study).(studyIndex) + length rs < length s.(study).(studyCards) →
  ∃ s',
    rateAll rs s = Some s' ∧
    s'.(view) = s.(view) ∧
    s'.(study).(studyCards) = s.(study).(studyCards) ∧
    s'.(study).(studyIndex) = s.(study).(studyIndex) + length rs ∧
    s'.(data).(totalSessions) = s.(data).(totalSessions).
Proof.
  revert s. induction rs as [|[now rating] rs IH]; intros s Hlen; simpl in *.
  - exists s. repeat split; lia.
  - destruct (rateCard_current now rating s) as
      (s1 & -> & Hv & Hq & Hi & _ & _ & _ & Ht); [lia|]. simpl.
    rewrite bool_decide_eq_false_2 in Ht by lia.
    destruct (IH s1) as (s' & -> & Hv' & Hq' & Hi' & Ht').
    { rewrite Hq, Hi. lia. }
    exists s'. repeat split; try congruence. lia.
Qed.

(* Ratings that reach the end of the queue. *)
Lemma rateAll_to_end rs s :
  rs ≠ [] →
  s.(study).(studyIndex) + length rs = length s.(study).(studyCards) →
  ∃ s',
    rateAll rs s = Some s' ∧
    s'.(view) = s.(view) ∧
    s'.(study).(studyCards) = s.(study).(studyCards) ∧
    s'.(study).(studyIndex) = length s.(study).(studyCards) ∧
    s'.(data).(totalSessions) = s.(data).(totalSessions) + 1.
Proof.
  revert s. induction rs as [|[now rating] rs IH]; intros s Hne Hlen; [done|].
  simpl in *.
  destruct (rateCard_current now rating s) as
    (s1 & -> & Hv & Hq & Hi & _ & _ & _ & Ht); [lia|]. simpl.
  destruct rs as [|r rs].
  - simpl in *. rewrite bool_decide_eq_true_2 in Ht by lia.
    exists s1. repeat split; congruence || lia.
  - rewrite bool_decide_eq_false_2 in Ht by (simpl in *; lia).
    destruct (IH s1) as (s' & -> & Hv' & Hq' & Hi' & Ht'); [done| |].
    { rewrite Hq, Hi. simpl in *. lia. }
    exists s'. repeat split; congruence.
Qed.

(* --------------------------------------------------------------------- *)
(*  Sessions                                                             *)
(* --------------------------------------------------------------------- *)

Lemma Session_inv s :
  Session s →
  s.(view) = str "study" ∧ s.(study).(studyCards) ≠ [] ∧
  s.(study).(studyIndex) ≤ length s.(study).(studyCards).
Proof.
  induction 1 as [m rnd s Hne|s _ IH|now rating s s' _ IH Hi Hr|rnd s _ IH
                 |s s' _ IH Hv Hs].
  - destruct (start_queue m rnd s Hne) as (arr & Hp & ->). simpl.
    split; [done|]. split; [|lia].
    apply shuffleArray_nonempty. intros ->.
    symmetry in Hp. by apply Hne, Permutation_nil_r.
  - simpl. apply IH.
  - destruct IH as (Hv & Hq & _).
    destruct (rateCard_current now rating s Hi) as
      (s1 & Hr1 & Hv1 & Hq1 & Hi1 & _).
    rewrite Hr in Hr1. injection Hr1 as <-.
    rewrite Hv1, Hq1, Hi1. repeat split; try done. lia.
  - destruct IH as (Hv & Hq & _). simpl.
    split; [done|]. split; [|lia]. by apply shuffleArray_nonempty.
  - by rewrite Hv, Hs.
Qed.

Lemma session_state_InProgress s :
  s.(view) = str "study" →
  s.(study).(studyIndex) < length s.(study).(studyCards) →
  session_state s = InProgress.
Proof.
  intros Hv Hi. unfold session_state.
  by rewrite (bool_decide_eq_true_2 _ Hv), (bool_decide_eq_true_2 _ Hi).
Qed.

Lemma session_state_Complete s :
  s.(view) = str "study" →
  length s.(study).(studyCards) ≤ s.(study).(studyIndex) →
  session_state s = Complete.
Proof.
  intros Hv Hi. unfold session_state.
  rewrite (bool_decide_eq_true_2 _ Hv).
  rewrite bool_decide_eq_false_2; [done|lia].
Qed.

(* A study session is in progress or complete, never idle. *)
Lemma Session_state s :
  Session s → session_state s = InProgress ∨ session_state s = Complete.
Proof.
  intros Hs. destruct (Session_inv s Hs) as (Hv & _ & _).
  unfold session_state. rewrite (bool_decide_eq_true_2 _ Hv).
  case_bool_decide; auto.
Qed.

(* --------------------------------------------------------------------- *)
(*  C1: a session of N cards and N ratings                               *)
(* --------------------------------------------------------------------- *)

(** C1.  In a study session at its first card whose queue has N cards, N
    ratings all succeed and leave the session Complete with index N and
    totalSessions one higher; after any fewer ratings k the session is
    still InProgress at index k with totalSessions as it was, so every
    rating is given with a card on display and only the last one counts
    the session. *)
Theorem rate_N_times_completes_once (s : State) (rs : list (jsstring * jsstring)) :
  Session s →
  s.(study).(studyIndex) = 0 →
  length rs = length s.(study).(studyCards) →
  (∃ s',
     rateAll rs s = Some s' ∧
     session_state s' = Complete ∧
     s'.(study).(studyIndex) = length rs ∧
     length s'.(study).(studyCards) = length rs ∧
     s'.(data).(totalSessions) = s.(data).(totalSessions) + 1) ∧
  (∀ k, k < length rs →
     ∃ sk,
       rateAll (take k rs) s = Some sk ∧
       session_state sk = InProgress ∧
       sk.(study).(studyIndex) = k ∧
       sk.(data).(totalSessions) = s.(data).(totalSessions)).
Proof.
  intros Hs H0 Hlen. destruct (Session_inv s Hs) as (Hv & Hq & _). split.
  - destruct (rateAll_to_end rs s) as (s' & Hr & Hv' & Hq' & Hi' & Ht').
    { intros ->. by destruct s.(study).(studyCards). }
    { by rewrite H0. }
    exists s'. split; [done|]. split.
    + apply session_state_Complete; [congruence|]. rewrite Hq', Hi'. lia.
    + repeat split; congruence.
  - intros k Hk.
    destruct (rateAll_short (take k rs) s) as (sk & Hr & Hv' & Hq' & Hi' & Ht').
    { rewrite length_take, H0. lia. }
    rewrite length_take, H0 in Hi'.
    exists sk. split; [done|]. split.
    + apply session_state_InProgress; [congruence|]. rewrite Hq', Hi'. lia.
    + split; [lia|done].
Qed.

Lemma rate_N_times_completes_once_witness :
  (∃ s',
     rateAll sample_ratings (start AllCards keep_draws sample_store) = Some s' ∧
     session_state s' = Complete ∧
     s'.(study).(studyIndex) = 4 ∧
     length s'.(study).(studyCards) = 4 ∧
     s'.(data).(totalSessions) = 5) ∧
  (∀ k, k < 4 →
     ∃ sk,
       rateAll (take k sample_ratings) (start AllCards keep_draws sample_store)
         = Some sk ∧
       session_state sk = InProgress ∧
       sk.(study).(studyIndex) = k ∧
       sk.(data).(totalSessions) = 4).
Proof.
  apply (rate_N_times_completes_once
           (start AllCards keep_draws sample_store) sample_ratings).
  - apply Session_start. vm_compute. discriminate.
  - reflexivity.
  - reflexivity.
Defined.

(* --------------------------------------------------------------------- *)
(*  C2: the queue is a permutation of the source                         *)
(* --------------------------------------------------------------------- *)

(** C2.  For a non-empty source set, in either start mode and whatever
    the random draws, the queue of the started session is a permutation
    of the source: the same cards, hence the same multiset of ids, and
    the same length. *)
Theorem start_queue_permutation (m : Mode) (rnd : nat → nat) (s : State) :
  source m s ≠ [] →
  (start m rnd s).(study).(studyCards) ≡ₚ source m s ∧
  Card.id <$> (start m rnd s).(study).(studyCards) ≡ₚ Card.id <$> source m s ∧
  length (start m rnd s).(study).(studyCards) = length (source m s).
Proof.
  intros Hne. destruct (start_queue m rnd s Hne) as (arr & Hp & ->). simpl.
  assert (Hq : shuffleArray rnd arr ≡ₚ source m s)
    by (by rewrite shuffleArray_Permutation).
  split; [done|]. split; [by rewrite Hq|by rewrite Hq].
Qed.

Lemma start_queue_permutation_witness :
  let q := (start (OneDeck (sample_deck "d1")) zero_draws sample_store)
             .(study).(studyCards) in
  let src := source (OneDeck (sample_deck "d1")) sample_store in
  q ≡ₚ src ∧ Card.id <$> q ≡ₚ Card.id <$> src ∧ length q = length src.
Proof.
  apply (start_queue_permutation (OneDeck (sample_deck "d1")) zero_draws
           sample_store).
  vm_compute. discriminate.
Defined.

(* --------------------------------------------------------------------- *)
(*  C3: how the queue is built                                           *)
(* --------------------------------------------------------------------- *)

Lemma priority_rank c :
  plain_difficulty c → priority c.(Card.difficulty) = Some (card_rank c).
Proof.
  unfold plain_difficulty, card_rank.
  destruct c.(Card.difficulty) as [k|]; [|done]. simpl. intros Hplain.
  repeat (case_bool_decide; subst; try done).
Qed.

Lemma compare_priority_by_key (l : list Card.t) :
  Forall plain_difficulty l → by_key compare_priority card_rank l.
Proof.
  rewrite Forall_forall. intros Hl x y Hx Hy. unfold compare_priority.
  by rewrite (priority_rank _ (Hl x Hx)), (priority_rank _ (Hl y Hy)).
Qed.

(** C3 (as the code has it).  Studying all cards, the queue is the
    shuffle of the store's cards sorted by priority hard(0) < new(1) <
    medium(2) < easy(3): that list is a permutation of the store's
    cards, ascending in priority, keeps the store's order among cards
    of one priority, and is the only list that does so, where a
    difficulty that is absent, or that
    names nothing in the priority table or above it, counts as new.
    Studying one deck, the queue is the shuffle of the deck's cards in
    the order of the store: nothing is sorted.  The shuffle is uniform:
    every arrangement of distinct cards comes from one and only one
    choice of the indices drawn. *)
Theorem start_queue_construction (rnd : nat → nat) (s : State) :
  (s.(data).(cards) ≠ [] →
   Forall plain_difficulty s.(data).(cards) →
   let sorted := sort compare_priority s.(data).(cards) in
   (start AllCards rnd s).(study).(studyCards) = shuffleArray rnd sorted ∧
   sorted ≡ₚ s.(data).(cards) ∧
   Sorted (key_le card_rank) sorted ∧
   (∀ k, filter (λ c, card_rank c = k) sorted
         = filter (λ c, card_rank c = k) s.(data).(cards)) ∧
   (∀ l, Sorted (key_le card_rank) l →
         (∀ k, filter (λ c, card_rank c = k) l
               = filter (λ c, card_rank c = k) s.(data).(cards)) →
         l = sorted)) ∧
  (∀ deck,
     source (OneDeck deck) s ≠ [] →
     (start (OneDeck deck) rnd s).(study).(studyCards)
     = shuffleArray rnd
         (filter (λ c, c.(Card.deckId) = deck.(Deck.id)) s.(data).(cards))) ∧
  (∀ arranged q : list Card.t,
     NoDup arranged → q ≡ₚ arranged →
     ∃ draws,
       shuffleArray draws arranged = q ∧
       ∀ draws', shuffleArray draws' arranged = q →
         ∀ i, 0 < i < length arranged →
           draws' i mod (i + 1) = draws i mod (i + 1)).
Proof.
  split; [|split; [|apply @shuffleArray_unbiased]].
  - intros Hne Hplain sorted.
    pose proof (compare_priority_by_key _ Hplain) as Hkey.
    assert (Hsorted : Sorted (key_le card_rank) sorted) by by apply sort_sorted.
    assert (Hstable : ∀ k, filter (λ c, card_rank c = k) sorted
                           = filter (λ c, card_rank c = k) s.(data).(cards))
      by (intros k; by apply (sort_stable compare_priority card_rank)).
    split; [|split; [|split; [|split]]]; try done.
    + simpl. unfold startStudyMode.
      rewrite bool_decide_eq_false_2; [done|]. by rewrite length_zero_iff.
    + apply sort_Permutation.
    + intros l Hl Hfl. apply (sorted_stable_unique card_rank); try done.
      intros k. by rewrite Hfl, Hstable.
  - intros deck Hne. simpl in *. unfold studyDeck.
    rewrite bool_decide_eq_false_2; [done|]. by rewrite length_zero_iff.
Qed.

Lemma start_queue_construction_witness :
  (let sorted := sort compare_priority sample_store.(data).(cards) in
   (start AllCards keep_draws sample_store).(study).(studyCards)
   = shuffleArray keep_draws sorted ∧
   sorted ≡ₚ sample_store.(data).(cards) ∧
   Sorted (key_le card_rank) sorted ∧
   (∀ k, filter (λ c, card_rank c = k) sorted
         = filter (λ c, card_rank c = k) sample_store.(data).(cards)) ∧
   (∀ l, Sorted (key_le card_rank) l →
         (∀ k, filter (λ c, card_rank c = k) l
               = filter (λ c, card_rank c = k) sample_store.(data).(cards)) →
         l = sorted)) ∧
  (start (OneDeck (sample_deck "d1")) keep_draws sample_store).(study).(studyCards)
  = shuffleArray keep_draws
      (filter (λ c, c.(Card.deckId) = (sample_deck "d1").(Deck.id))
              sample_store.(data).(cards)) ∧
  (∃ draws,
     shuffleArray draws sample_store.(data).(cards)
     = reverse sample_store.(data).(cards) ∧
     ∀ draws',
       shuffleArray draws' sample_store.(data).(cards)
       = reverse sample_store.(data).(cards) →
       ∀ i, 0 < i < length sample_store.(data).(cards) →
         draws' i mod (i + 1) = draws i mod (i + 1)).
Proof.
  destruct (start_queue_construction keep_draws sample_store)
    as (Hall & Hdeck & Hshuffle).
  split; [|split].
  - apply Hall; [vm_compute; discriminate|].
    apply (bool_decide_unpack _). vm_compute. exact I.
  - apply Hdeck. vm_compute. discriminate.
  - apply Hshuffle.
    + apply (bool_decide_unpack _). vm_compute. exact I.
    + apply reverse_Permutation.
Defined.

(* Studying one deck does not sort: with draws that leave the array as it
   is, the deck d1 of the sample store (easy, hard, new in the store) is
   queued in that order, not hard first. *)
Lemma studyDeck_queue_not_sorted :
  ¬ (∀ (m : Mode) (rnd : nat → nat) (s : State),
       source m s ≠ [] →
       (start m rnd s).(study).(studyCards)
       = shuffleArray rnd (sort compare_priority (source m s))).
Proof.
  intros H.
  specialize (H (OneDeck (sample_deck "d1")) keep_draws sample_store).
  assert (Hne : source (OneDeck (sample_deck "d1")) sample_store ≠ [])
    by (vm_compute; discriminate).
  apply H in Hne. vm_compute in Hne. discriminate Hne.
Qed.

(* --------------------------------------------------------------------- *)
(*  C4: counters and accuracy                                            *)
(* --------------------------------------------------------------------- *)

(** C4.  A rating of the card on display adds one to the wrong counter
    when it is hard and one to the correct counter when it is anything
    else; so from counters at zero the ratings hard, medium, easy leave
    correct = 2 and wrong = 1 and an accuracy of 67, and with no rating
    given the accuracy is 0. *)
Theorem rating_counters_and_accuracy :
  (∀ now rating s,
     s.(study).(studyIndex) < length s.(study).(studyCards) →
     ∃ s',
       rateCard now rating s = Some s' ∧
       (rating = str "hard" →
        s'.(study).(studyWrong) = s.(study).(studyWrong) + 1 ∧
        s'.(study).(studyCorrect) = s.(study).(studyCorrect)) ∧
       (rating ≠ str "hard" →
        s'.(study).(studyCorrect) = s.(study).(studyCorrect) + 1 ∧
        s'.(study).(studyWrong) = s.(study).(studyWrong))) ∧
  (∀ t1 t2 t3 s,
     s.(study).(studyCorrect) = 0 → s.(study).(studyWrong) = 0 →
     s.(study).(studyIndex) + 3 ≤ length s.(study).(studyCards) →
     ∃ s',
       rateAll [(t1, str "hard"); (t2, str "medium"); (t3, str "easy")] s
         = Some s' ∧
       s'.(study).(studyCorrect) = 2 ∧
       s'.(study).(studyWrong) = 1 ∧
       studyAccuracy s' = 67%Z) ∧
  (∀ s,
     s.(study).(studyCorrect) = 0 → s.(study).(studyWrong) = 0 →
     studyAccuracy s = 0%Z).
Proof.
  split; [|split].
  - intros now rating s Hi.
    destruct (rateCard_current now rating s Hi) as
      (s' & Hr & _ & _ & _ & _ & Hc & Hw & _).
    exists s'. split; [done|]. split; intros Hh.
    + rewrite bool_decide_eq_true_2 in Hc, Hw by done. done.
    + rewrite bool_decide_eq_false_2 in Hc, Hw by done. done.
  - intros t1 t2 t3 s Hc Hw Hi. simpl.
    destruct (rateCard_current t1 (str "hard") s) as
      (s1 & -> & _ & Hq1 & Hi1 & _ & Hc1 & Hw1 & _); [lia|]. simpl.
    destruct (rateCard_current t2 (str "medium") s1) as
      (s2 & -> & _ & Hq2 & Hi2 & _ & Hc2 & Hw2 & _); [rewrite Hq1; lia|]. simpl.
    destruct (rateCard_current t3 (str "easy") s2) as
      (s3 & -> & _ & Hq3 & Hi3 & _ & Hc3 & Hw3 & _);
      [rewrite Hq2, Hq1; lia|]. simpl.
    change (bool_decide (str "hard" = str "hard")) with true in *.
    change (bool_decide (str "medium" = str "hard")) with false in *.
    change (bool_decide (str "easy" = str "hard")) with false in *.
    simpl in *.
    assert (Hc' : s3.(study).(studyCorrect) = 2) by lia.
    assert (Hw' : s3.(study).(studyWrong) = 1) by lia.
    exists s3. repeat split; try done.
    unfold studyAccuracy. rewrite Hc', Hw'. reflexivity.
  - intros s Hc Hw. unfold studyAccuracy. by rewrite Hc, Hw.
Qed.

Lemma rating_counters_and_accuracy_witness :
  (∃ s',
     rateCard sample_time (str "easy") sample_session = Some s' ∧
     (str "easy" = str "hard" →
      s'.(study).(studyWrong) = sample_session.(study).(studyWrong) + 1 ∧
      s'.(study).(studyCorrect) = sample_session.(study).(studyCorrect)) ∧
     (str "easy" ≠ str "hard" →
      s'.(study).(studyCorrect) = sample_session.(study).(studyCorrect) + 1 ∧
      s'.(study).(studyWrong) = sample_session.(study).(studyWrong))) ∧
  (∃ s',
     rateAll [(sample_time, str "hard"); (sample_time, str "medium");
              (sample_time, str "easy")] sample_session = Some s' ∧
     s'.(study).(studyCorrect) = 2 ∧
     s'.(study).(studyWrong) = 1 ∧
     studyAccuracy s' = 67%Z) ∧
  studyAccuracy sample_session = 0%Z.
Proof.
  destruct rating_counters_and_accuracy as (Hrate & Hthree & Hnone).
  split; [|split].
  - apply (Hrate sample_time (str "easy") sample_session). vm_compute. lia.
  - apply (Hthree sample_time sample_time sample_time sample_session);
      vm_compute; try done. lia.
  - apply (Hnone sample_session); reflexivity.
Defined.

(* The accuracy is rounded from doubles: 29 correct out of 200 is
   0.145 * 100 = 14.499999999999998 and shows as 14, where the exact
   quotient 14.5 would round to 15. *)
Lemma studyAccuracy_of_doubles :
  let st := {| studyCards := []; studyIndex := 0; isFlipped := false;
               studyCorrect := 29; studyWrong := 171 |} in
  studyAccuracy (set_study st init) = 14%Z ∧ round_percent 29 200 = 15%Z.
Proof. split; reflexivity. Qed.

(* --------------------------------------------------------------------- *)
(*  C5: deleting a deck                                                  *)
(* --------------------------------------------------------------------- *)

Lemma filter_idemp {A} (P : A → Prop) `{∀ x, Decision (P x)} (l : list A) :
  filter P (filter P l) = filter P l.
Proof.
  induction l as [|x l IH]; [done|].
  rewrite (filter_cons _ x). case_decide; [|done].
  rewrite filter_cons. rewrite decide_True by done. by rewrite IH.
Qed.

(** C5.  Deleting a deck D of the store (request and confirmation)
    removes D from the decks, removes every card whose deckId is D's id,
    keeps the other cards as they were and in their order, and clears
    the selected deck exactly when it had D's id. *)
Theorem deleteDeck_cascade (D : Deck.t) (s : State) :
  D ∈ s.(data).(decks) →
  let s' := deleteDeck_confirmed D.(Deck.id) s in
  (D ∉ s'.(data).(decks)) ∧
  s'.(data).(decks) = filter (λ d, d.(Deck.id) ≠ D.(Deck.id)) s.(data).(decks) ∧
  (∀ c, c.(Card.deckId) = D.(Deck.id) → c ∉ s'.(data).(cards)) ∧
  s'.(data).(cards)
  = filter (λ c, c.(Card.deckId) ≠ D.(Deck.id)) s.(data).(cards) ∧
  filter (λ c, c.(Card.deckId) ≠ D.(Deck.id)) s'.(data).(cards)
  = filter (λ c, c.(Card.deckId) ≠ D.(Deck.id)) s.(data).(cards) ∧
  s'.(data).(totalSessions) = s.(data).(totalSessions) ∧
  s'.(selectedDeck)
  = match s.(selectedDeck) with
    | Some sel =>
        if bool_decide (sel.(Deck.id) = D.(Deck.id)) then None else Some sel
    | None => None
    end.
Proof.
  intros HD s'.
  assert (Hdecks : s'.(data).(decks)
                   = filter (λ d, d.(Deck.id) ≠ D.(Deck.id)) s.(data).(decks)).
  { subst s'. unfold deleteDeck_confirmed, confirmAction. simpl.
    destruct s.(selectedDeck) as [sel|]; [case_bool_decide|]; done. }
  assert (Hcards : s'.(data).(cards)
                   = filter (λ c, c.(Card.deckId) ≠ D.(Deck.id)) s.(data).(cards)).
  { subst s'. unfold deleteDeck_confirmed, confirmAction. simpl.
    destruct s.(selectedDeck) as [sel|]; [case_bool_decide|]; done. }
  split; [|split; [|split; [|split; [|split; [|split]]]]].
  - rewrite Hdecks, list_elem_of_filter. intros [Hne _]. by apply Hne.
  - done.
  - intros c Hc. rewrite Hcards, list_elem_of_filter. intros [Hne _].
    by apply Hne.
  - done.
  - rewrite Hcards. apply filter_idemp.
  - subst s'. unfold deleteDeck_confirmed, confirmAction. simpl.
    destruct s.(selectedDeck) as [sel|]; [case_bool_decide|]; done.
  - subst s'. unfold deleteDeck_confirmed, confirmAction. simpl.
    destruct s.(selectedDeck) as [sel|] eqn:Hsel; [case_bool_decide|]; done.
Qed.

Lemma deleteDeck_cascade_witness :
  let D := sample_deck "d1" in
  let s' := deleteDeck_confirmed D.(Deck.id) sample_store in
  (D ∉ s'.(data).(decks)) ∧
  s'.(data).(decks)
  = filter (λ d, d.(Deck.id) ≠ D.(Deck.id)) sample_store.(data).(decks) ∧
  (∀ c, c.(Card.deckId) = D.(Deck.id) → c ∉ s'.(data).(cards)) ∧
  s'.(data).(cards)
  = filter (λ c, c.(Card.deckId) ≠ D.(Deck.id)) sample_store.(data).(cards) ∧
  filter (λ c, c.(Card.deckId) ≠ D.(Deck.id)) s'.(data).(cards)
  = filter (λ c, c.(Card.deckId) ≠ D.(Deck.id)) sample_store.(data).(cards) ∧
  s'.(data).(totalSessions) = sample_store.(data).(totalSessions) ∧
  s'.(selectedDeck)
  = match sample_store.(selectedDeck) with
    | Some sel =>
        if bool_decide (sel.(Deck.id) = D.(Deck.id)) then None else Some sel
    | None => None
    end.
Proof.
  apply (deleteDeck_cascade (sample_deck "d1") sample_store).
  vm_compute. left.
Defined.

(* --------------------------------------------------------------------- *)
(*  C6: the index stays inside the queue                                 *)
(* --------------------------------------------------------------------- *)

(** C6.  0 <= index <= length(queue) holds after a start, and flipping,
    rating the card on display (which succeeds), restarting and exiting
    keep it; under it the session in the study view is Complete exactly
    when index = length(queue), and a rating counts the session exactly
    when it brings the index there. *)
Theorem index_in_range_invariant :
  (∀ m rnd s, source m s ≠ [] → index_in_range (start m rnd s)) ∧
  (∀ m rnd s, index_in_range s → index_in_range (start m rnd s)) ∧
  (∀ s, index_in_range s → index_in_range (flipCard s)) ∧
  (∀ now rating s,
     index_in_range s →
     s.(study).(studyIndex) < length s.(study).(studyCards) →
     ∃ s',
       rateCard now rating s = Some s' ∧ index_in_range s' ∧
       (s'.(data).(totalSessions) = s.(data).(totalSessions) + 1 ↔
        s'.(study).(studyIndex) = length s'.(study).(studyCards))) ∧
  (∀ rnd s, index_in_range s → index_in_range (restartStudy rnd s)) ∧
  (∀ s, index_in_range s → index_in_range (exitStudy s)) ∧
  (∀ s,
     index_in_range s → s.(view) = str "study" →
     (session_state s = Complete ↔
      s.(study).(studyIndex) = length s.(study).(studyCards))).
Proof.
  unfold index_in_range.
  split; [|split; [|split; [|split; [|split; [|split]]]]].
  - intros m rnd s Hne.
    destruct (start_queue m rnd s) as (arr & _ & ->); [done|]. simpl. lia.
  - intros m rnd s Hin. destruct (decide (source m s = [])) as [He|Hne].
    + by rewrite start_empty.
    + destruct (start_queue m rnd s) as (arr & _ & ->); [done|]. simpl. lia.
  - intros s Hin. apply Hin.
  - intros now rating s [_ Hle] Hi.
    destruct (rateCard_current now rating s Hi) as
      (s' & Hr & _ & Hq & Hi' & _ & _ & _ & Ht).
    exists s'. split; [done|]. rewrite Hq, Hi', Ht.
    case_bool_decide; repeat split; lia.
  - intros rnd s _. simpl. lia.
  - intros s Hin. apply Hin.
  - intros s [_ Hle] Hv. split.
    + intros Hc. unfold session_state in Hc.
      rewrite bool_decide_eq_true_2 in Hc by done.
      case_bool_decide; [done|lia].
    + intros He. apply session_state_Complete; [done|lia].
Qed.

Lemma index_in_range_invariant_witness :
  index_in_range sample_session ∧
  index_in_range (start (OneDeck (sample_deck "d3")) keep_draws sample_session) ∧
  index_in_range (flipCard sample_session) ∧
  (∃ s',
     rateCard sample_time (str "easy") sample_session = Some s' ∧
     index_in_range s' ∧
     (s'.(data).(totalSessions) = sample_session.(data).(totalSessions) + 1 ↔
      s'.(study).(studyIndex) = length s'.(study).(studyCards))) ∧
  index_in_range (restartStudy zero_draws sample_rated) ∧
  index_in_range (exitStudy sample_rated) ∧
  (session_state sample_rated = Complete ↔
   sample_rated.(study).(studyIndex) = length sample_rated.(study).(studyCards)).
Proof.
  destruct index_in_range_invariant as
    (Hstart & Hstart' & Hflip & Hrate & Hrestart & Hexit & Hcomplete).
  assert (Hin : index_in_range sample_session).
  { apply (Hstart AllCards keep_draws sample_store). vm_compute. discriminate. }
  assert (Hin' : index_in_range sample_rated) by (vm_compute; lia).
  split; [done|]. split; [by apply Hstart'|]. split; [by apply Hflip|].
  split; [apply (Hrate sample_time (str "easy") _ Hin); vm_compute; lia|].
  split; [by apply Hrestart|]. split; [by apply Hexit|].
  by apply Hcomplete.
Defined.

(* --------------------------------------------------------------------- *)
(*  C7: starting with no cards                                           *)
(* --------------------------------------------------------------------- *)

(** C7.  With an empty source set (no card in the store when studying
    all cards, no card of the deck when studying one deck), a start only
    shows an error toast with the no-cards message: the store, the
    session refs, totalSessions, the view and so the state of the
    session, the selection, the dialogs and the persisted data all stay
    as they were. *)
Theorem start_without_cards (m : Mode) (rnd : nat → nat) (s : State) :
  source m s = [] →
  let s' := start m rnd s in
  s' = showToast (no_cards_message m) error s ∧
  s'.(toasts)
  = s.(toasts) ++ [Toast.mk (S s.(toastId)) (no_cards_message m) error
                            (str "fas fa-circle-exclamation")] ∧
  s'.(data) = s.(data) ∧
  s'.(study) = s.(study) ∧
  s'.(view) = s.(view) ∧
  session_state s' = session_state s ∧
  s'.(selectedDeck) = s.(selectedDeck) ∧
  s'.(dialogs) = s.(dialogs) ∧
  s'.(watch_pending) = s.(watch_pending) ∧
  s'.(storage_writes) = s.(storage_writes) ∧
  (flush s').(storage_writes) = (flush s).(storage_writes).
Proof.
  intros He s'. subst s'. rewrite start_empty by done.
  unfold session_state, flush. simpl. repeat split.
  by destruct s.(watch_pending).
Qed.

Lemma start_without_cards_witness :
  let s' := start (OneDeck (sample_deck "d3")) keep_draws sample_store in
  s' = showToast (no_cards_message (OneDeck (sample_deck "d3"))) error
         sample_store ∧
  s'.(toasts)
  = sample_store.(toasts)
    ++ [Toast.mk (S sample_store.(toastId))
                 (no_cards_message (OneDeck (sample_deck "d3"))) error
                 (str "fas fa-circle-exclamation")] ∧
  s'.(data) = sample_store.(data) ∧
  s'.(study) = sample_store.(study) ∧
  s'.(view) = sample_store.(view) ∧
  session_state s' = session_state sample_store ∧
  s'.(selectedDeck) = sample_store.(selectedDeck) ∧
  s'.(dialogs) = sample_store.(dialogs) ∧
  s'.(watch_pending) = sample_store.(watch_pending) ∧
  s'.(storage_writes) = sample_store.(storage_writes) ∧
  (flush s').(storage_writes) = (flush sample_store).(storage_writes).
Proof.
  apply (start_without_cards (OneDeck (sample_deck "d3")) keep_draws sample_store).
  reflexivity.
Defined.

(* --------------------------------------------------------------------- *)
(*  C8: validation of the forms                                          *)
(* --------------------------------------------------------------------- *)

(** C8.  saveDeck with a name that trims to the empty string, and
    saveCard with a front or a back that does, return with the whole
    state as it was, whether a deck or card is being created or edited:
    no collection changes, no toast is shown, the watcher is not
    triggered and nothing is written to the storage.  A saveCard that
    creates a card appends it with difficulty new, reviewCount 0 and no
    lastReviewed. *)
Theorem save_validation :
  (∀ newId now s,
     trim s.(dialogs).(deckForm).(df_name) = [] →
     saveDeck newId now s = s ∧
     (flush (saveDeck newId now s)).(storage_writes)
     = (flush s).(storage_writes)) ∧
  (∀ newId now s,
     trim s.(dialogs).(cardForm).(cf_front) = [] ∨
     trim s.(dialogs).(cardForm).(cf_back) = [] →
     saveCard newId now s = Some s ∧
     (flush <$> saveCard newId now s) = Some (flush s)) ∧
  (∀ newId now s sel,
     s.(dialogs).(editingCard) = None →
     s.(selectedDeck) = Some sel →
     trim s.(dialogs).(cardForm).(cf_front) ≠ [] →
     trim s.(dialogs).(cardForm).(cf_back) ≠ [] →
     ∃ s' c,
       saveCard newId now s = Some s' ∧
       s'.(data).(cards) = s.(data).(cards) ++ [c] ∧
       c.(Card.id) = newId ∧
       c.(Card.deckId) = sel.(Deck.id) ∧
       c.(Card.front) = trim s.(dialogs).(cardForm).(cf_front) ∧
       c.(Card.back) = trim s.(dialogs).(cardForm).(cf_back) ∧
       c.(Card.difficulty) = Some (str "new") ∧
       c.(Card.reviewCount) = Some 0 ∧
       c.(Card.lastReviewed) = None).
Proof.
  split; [|split].
  - intros newId now s He.
    assert (Hs : saveDeck newId now s = s)
      by (unfold saveDeck; by rewrite He).
    by rewrite Hs.
  - intros newId now s He.
    assert (Hs : saveCard newId now s = Some s).
    { unfold saveCard. cbv zeta. destruct He as [He|He]; rewrite He; simpl.
      - done.
      - by rewrite orb_true_r. }
    by rewrite Hs.
  - intros newId now s sel Hed Hsel Hf Hb.
    unfold saveCard. cbv zeta. rewrite Hed, Hsel.
    destruct (trim s.(dialogs).(cardForm).(cf_front)) eqn:Ef; [done|].
    destruct (trim s.(dialogs).(cardForm).(cf_back)) eqn:Eb; [done|].
    simpl. eexists _, _. split; [reflexivity|]. simpl.
    split; [reflexivity|]. done.
Qed.

(* The card form filled in with a blank front, with a proper front and
   back, and the deck form with a blank name. *)
Lemma save_validation_witness :
  let blank := {| cf_front := str "   "; cf_back := str "hello" |} in
  let filled := {| cf_front := str " hola "; cf_back := str "hello" |} in
  let with_card f s :=
    set_dialogs
      {| showDeckModal := false; showCardModal := true; showConfirm := false;
         confirmMessage := []; confirmCallback := None;
         editingDeck := None; editingCard := None;
         deckForm := emptyDeckForm; cardForm := f |} s in
  saveDeck (str "id9") sample_time sample_store = sample_store ∧
  saveCard (str "id9") sample_time (with_card blank sample_store)
  = Some (with_card blank sample_store) ∧
  ∃ s' c,
    saveCard (str "id9") sample_time (with_card filled sample_store) = Some s' ∧
    s'.(data).(cards) = sample_store.(data).(cards) ++ [c] ∧
    c.(Card.id) = str "id9" ∧
    c.(Card.deckId) = str "d1" ∧
    c.(Card.front) = str "hola" ∧
    c.(Card.back) = str "hello" ∧
    c.(Card.difficulty) = Some (str "new") ∧
    c.(Card.reviewCount) = Some 0 ∧
    c.(Card.lastReviewed) = None.
Proof.
  intros blank filled with_card.
  destruct save_validation as (Hdeck & Hcard & Hnew).
  split; [|split].
  - apply (Hdeck (str "id9") sample_time sample_store). reflexivity.
  - apply (Hcard (str "id9") sample_time (with_card blank sample_store)).
    left. reflexivity.
  - apply (Hnew (str "id9") sample_time (with_card filled sample_store)
             (sample_deck "d1")); vm_compute; congruence.
Defined.

(* --------------------------------------------------------------------- *)
(*  C9: restarting                                                       *)
(* --------------------------------------------------------------------- *)

(** C9.  Restarting a study session (which is InProgress or Complete,
    [Session_state]) shuffles
    the queue it has: the new queue is shuffleArray of the current one,
    a permutation of it in which the store has no part, so nothing is
    sorted again by the difficulties rated meanwhile; index, flip flag
    and both counters are reset, the store is untouched, and the
    session is InProgress. *)
Theorem restart_reshuffles_queue (rnd : nat → nat) (s : State) :
  Session s →
  let s' := restartStudy rnd s in
  s'.(study).(studyCards) = shuffleArray rnd s.(study).(studyCards) ∧
  s'.(study).(studyCards) ≡ₚ s.(study).(studyCards) ∧
  s'.(study).(studyIndex) = 0 ∧
  s'.(study).(isFlipped) = false ∧
  s'.(study).(studyCorrect) = 0 ∧
  s'.(study).(studyWrong) = 0 ∧
  s'.(data) = s.(data) ∧
  session_state s' = InProgress.
Proof.
  intros Hs s'. destruct (Session_inv s Hs) as (Hv & Hq & _).
  subst s'. simpl. repeat split.
  - apply shuffleArray_Permutation.
  - apply session_state_InProgress; [done|]. simpl.
    rewrite shuffleArray_length. destruct s.(study).(studyCards); [done|].
    simpl. lia.
Qed.

Lemma restart_reshuffles_queue_witness :
  let s' := restartStudy zero_draws sample_rated in
  s'.(study).(studyCards)
  = shuffleArray zero_draws sample_rated.(study).(studyCards) ∧
  s'.(study).(studyCards) ≡ₚ sample_rated.(study).(studyCards) ∧
  s'.(study).(studyIndex) = 0 ∧
  s'.(study).(isFlipped) = false ∧
  s'.(study).(studyCorrect) = 0 ∧
  s'.(study).(studyWrong) = 0 ∧
  s'.(data) = sample_rated.(data) ∧
  session_state s' = InProgress.
Proof.
  apply (restart_reshuffles_queue zero_draws sample_rated).
  - apply (Session_rateCard sample_time (str "easy") sample_session).
    + apply Session_start. vm_compute. discriminate.
    + vm_compute. lia.
    + reflexivity.
Defined.

(* --------------------------------------------------------------------- *)
(*  C10: rating a card that is no longer in the store                    *)
(* --------------------------------------------------------------------- *)

Lemma findIndex_None {A} (p : A → bool) (l : list A) :
  (∀ x, x ∈ l → p x = false) → findIndex p l = None.
Proof.
  induction l as [|x l IH]; intros Hp; simpl; [done|].
  rewrite (Hp x) by left. rewrite IH; [done|].
  intros y Hy. apply Hp. by right.
Qed.

(* The study refs after a rating depend on the study refs and on the
   rating alone. *)
Lemma rateCard_study now rating s s' :
  rateCard now rating s = Some s' → s'.(study) = rated rating s.(study).
Proof.
  unfold rateCard. destruct (find_rated _ _) as [idx|]; [|done]. simpl.
  intros [= <-]. destruct idx; simpl; case_bool_decide; done.
Qed.

(** C10.  When the card on display has an id that no card of the store
    has, a rating succeeds and leaves decks and cards exactly as they
    were, and the queue too, while the session moves on as for a found
    card: the wrong counter (rating hard) or the correct counter (any
    other rating) goes up by one, the index by one, the flip flag is
    reset, and the session is counted if that was the last card.  As for
    a found card: from any state whose queue has the same ids, and whose
    index and counters are the same, whatever its store holds, the same
    rating succeeds too and ends with the same index, flip flag,
    counters and queue ids. *)
Theorem rate_card_missing_from_store (now rating : jsstring) (s : State)
    (card : Card.t) :
  s.(study).(studyCards) !! s.(study).(studyIndex) = Some card →
  (∀ c, c ∈ s.(data).(cards) → c.(Card.id) ≠ card.(Card.id)) →
  ∃ s',
    rateCard now rating s = Some s' ∧
    s'.(data).(cards) = s.(data).(cards) ∧
    s'.(data).(decks) = s.(data).(decks) ∧
    s'.(study).(studyCards) = s.(study).(studyCards) ∧
    s'.(study).(studyIndex) = s.(study).(studyIndex) + 1 ∧
    s'.(study).(isFlipped) = false ∧
    s'.(study).(studyCorrect)
      = (if bool_decide (rating = str "hard") then s.(study).(studyCorrect)
         else s.(study).(studyCorrect) + 1) ∧
    s'.(study).(studyWrong)
      = (if bool_decide (rating = str "hard") then s.(study).(studyWrong) + 1
         else s.(study).(studyWrong)) ∧
    s'.(data).(totalSessions)
      = (if bool_decide (length s.(study).(studyCards) ≤ s.(study).(studyIndex) + 1)
         then s.(data).(totalSessions) + 1 else s.(data).(totalSessions)) ∧
    (∀ t,
       Card.id <$> t.(study).(studyCards) = Card.id <$> s.(study).(studyCards) →
       t.(study).(studyIndex) = s.(study).(studyIndex) →
       t.(study).(studyCorrect) = s.(study).(studyCorrect) →
       t.(study).(studyWrong) = s.(study).(studyWrong) →
       ∃ t',
         rateCard now rating t = Some t' ∧
         Card.id <$> t'.(study).(studyCards)
           = Card.id <$> s'.(study).(studyCards) ∧
         t'.(study).(studyIndex) = s'.(study).(studyIndex) ∧
         t'.(study).(isFlipped) = s'.(study).(isFlipped) ∧
         t'.(study).(studyCorrect) = s'.(study).(studyCorrect) ∧
         t'.(study).(studyWrong) = s'.(study).(studyWrong)).
Proof.
  intros Hcard Hmiss.
  assert (Hfind : find_rated (Some card) s.(data).(cards) = Some None).
  { simpl. rewrite findIndex_None; [done|].
    intros c Hc. apply bool_decide_eq_false_2. by apply Hmiss. }
  assert (Hr : ∃ s', rateCard now rating s = Some s' ∧
                     s'.(data).(cards) = s.(data).(cards) ∧
                     s'.(data).(decks) = s.(data).(decks) ∧
                     s'.(data).(totalSessions)
                     = (if bool_decide (length s.(study).(studyCards)
                                        ≤ s.(study).(studyIndex) + 1)
                        then s.(data).(totalSessions) + 1
                        else s.(data).(totalSessions))).
  { unfold rateCard. rewrite Hcard, Hfind. simpl.
    eexists. split; [reflexivity|]. case_bool_decide; done. }
  destruct Hr as (s' & Hr & Hc & Hd & Ht).
  pose proof (rateCard_study _ _ _ _ Hr) as Hst.
  exists s'. rewrite Hst. simpl. repeat split; try done.
  intros t Hids Hi Hco Hwr.
  assert (Hshown : is_Some (t.(study).(studyCards) !! t.(study).(studyIndex))).
  { apply lookup_lt_is_Some.
    rewrite <- (length_fmap Card.id), Hids, length_fmap, Hi.
    by eapply lookup_lt_Some. }
  destruct Hshown as [c Hshown].
  assert (Hrt : ∃ t', rateCard now rating t = Some t').
  { unfold rateCard. rewrite Hshown. simpl. by eexists. }
  destruct Hrt as [t' Hrt]. exists t'.
  rewrite (rateCard_study _ _ _ _ Hrt). simpl.
  rewrite Hids, Hi, Hco, Hwr. done.
Qed.

Lemma rate_card_missing_from_store_witness :
  ∃ s',
    rateCard sample_time (str "hard") sample_orphaned = Some s' ∧
    s'.(data).(cards) = sample_orphaned.(data).(cards) ∧
    s'.(data).(decks) = sample_orphaned.(data).(decks) ∧
    s'.(study).(studyCards) = sample_orphaned.(study).(studyCards) ∧
    s'.(study).(studyIndex) = 1 ∧
    s'.(study).(isFlipped) = false ∧
    s'.(study).(studyCorrect) = 0 ∧
    s'.(study).(studyWrong) = 1 ∧
    s'.(data).(totalSessions) = 4 ∧
    (∀ t,
       Card.id <$> t.(study).(studyCards)
         = Card.id <$> sample_orphaned.(study).(studyCards) →
       t.(study).(studyIndex) = 0 →
       t.(study).(studyCorrect) = 0 →
       t.(study).(studyWrong) = 0 →
       ∃ t',
         rateCard sample_time (str "hard") t = Some t' ∧
         Card.id <$> t'.(study).(studyCards)
           = Card.id <$> s'.(study).(studyCards) ∧
         t'.(study).(studyIndex) = s'.(study).(studyIndex) ∧
         t'.(study).(isFlipped) = s'.(study).(isFlipped) ∧
         t'.(study).(studyCorrect) = s'.(study).(studyCorrect) ∧
         t'.(study).(studyWrong) = s'.(study).(studyWrong)).
Proof.
  apply (rate_card_missing_from_store sample_time (str "hard") sample_orphaned
           (sample_card "c2" "d1" "hard")).
  - reflexivity.
  - intros c Hc. apply (bool_decide_unpack _).
    revert c Hc. apply Forall_forall. apply (bool_decide_unpack _).
    vm_compute. exact I.
Defined.

(* ===================================================================== *)
(*  Further properties of the script                                     *)
(* ===================================================================== *)

(* --------------------------------------------------------------------- *)
(*  findIndex and the element it selects                                 *)
(* --------------------------------------------------------------------- *)

Lemma findIndex_Some {A} (p : A → bool) (l : list A) i :
  findIndex p l = Some i →
  ∃ x, l !! i = Some x ∧ p x = true ∧
       ∀ j y, j < i → l !! j = Some y → p y = false.
Proof.
  revert i. induction l as [|x l IH]; intros i; simpl; [done|].
  destruct (p x) eqn:Hp.
  - intros [= <-]. exists x. repeat split; [done|]. intros; lia.
  - destruct (findIndex p l) as [k|]; [|done]. simpl. intros [= <-].
    destruct (IH k eq_refl) as (y & Hy & Hpy & Hfirst).
    exists y. repeat split; try done.
    intros [|j] z Hj; simpl; [by intros [= <-]|].
    apply Hfirst. lia.
Qed.

Lemma findIndex_is_Some {A} (p : A → bool) (l : list A) x :
  x ∈ l → p x = true → is_Some (findIndex p l).
Proof.
  induction 1 as [x l|x y l _ IH]; intros Hp; simpl.
  - rewrite Hp. by eexists.
  - destruct (p y); [by eexists|]. destruct (IH Hp) as [k ->]. by eexists.
Qed.

(* --------------------------------------------------------------------- *)
(*  Deleting a card                                                      *)
(* --------------------------------------------------------------------- *)

Lemma filter_all {A} (P : A → Prop) `{∀ x, Decision (P x)} (l : list A) :
  (∀ x, x ∈ l → P x) → filter P l = l.
Proof.
  induction l as [|x l IH]; intros Hl; [done|].
  rewrite filter_cons, decide_True by (apply Hl; left).
  f_equal. apply IH. intros y Hy. apply Hl. by right.
Qed.

(** X1.  Deleting a card (request and confirmation) removes every card
    with that id and nothing else: the other cards stay in their order,
    the decks, the selection, totalSessions and the running session are
    untouched; for an id that no card has the cards stay as they are,
    and the toast "Card deleted." is shown all the same. *)
Theorem deleteCard_confirmed_effect (cardId : jsstring) (s : State) :
  let s' := deleteCard_confirmed cardId s in
  s'.(data).(cards) = filter (λ c, c.(Card.id) ≠ cardId) s.(data).(cards) ∧
  (cardId ∉ card_ids s') ∧
  (cardId ∉ card_ids s → s'.(data).(cards) = s.(data).(cards)) ∧
  s'.(data).(decks) = s.(data).(decks) ∧
  s'.(data).(totalSessions) = s.(data).(totalSessions) ∧
  s'.(selectedDeck) = s.(selectedDeck) ∧
  s'.(study) = s.(study) ∧
  s'.(view) = s.(view) ∧
  s'.(dialogs).(showConfirm) = false ∧
  s'.(toasts)
  = s.(toasts) ++ [Toast.mk (S s.(toastId)) (str "Card deleted.") info
                            (str "fas fa-circle-info")].
Proof.
  intros s'. subst s'. unfold deleteCard_confirmed, confirmAction, card_ids.
  simpl. repeat split.
  - rewrite list_elem_of_fmap. intros (c & -> & Hc).
    apply list_elem_of_filter in Hc as [Hne _]. by apply Hne.
  - intros Hno. apply filter_all. intros c Hc Heq. apply Hno.
    apply list_elem_of_fmap. by exists c.
Qed.

(* --------------------------------------------------------------------- *)
(*  Saving a deck or a card                                              *)
(* --------------------------------------------------------------------- *)

(* findIndex by id: the first element with the id, or no element has it. *)
Lemma findIndex_by_id {A} (id : A → jsstring) (l : list A) (k : jsstring) :
  match findIndex (λ x, bool_decide (id x = k)) l with
  | Some i =>
      ∃ x, l !! i = Some x ∧ id x = k ∧
           ∀ j y, j < i → l !! j = Some y → id y ≠ k
  | None => k ∉ id <$> l
  end.
Proof.
  destruct (findIndex _ l) as [i|] eqn:Hf.
  - destruct (findIndex_Some _ _ _ Hf) as (x & Hx & Hp & Hfirst).
    exists x. split; [done|]. split; [by apply bool_decide_eq_true in Hp|].
    intros j y Hj Hy. specialize (Hfirst j y Hj Hy).
    by apply bool_decide_eq_false in Hfirst.
  - intros Hin. apply list_elem_of_fmap in Hin as (x & -> & Hx).
    destruct (findIndex_is_Some (λ y, bool_decide (id y = id x)) l x Hx) as [i Hi].
    + by apply bool_decide_eq_true_2.
    + congruence.
Qed.

Lemma fmap_alter_same {A B} (f : A → B) (g : A → A) (l : list A) i :
  (∀ x, f (g x) = f x) → f <$> alter g i l = f <$> l.
Proof.
  intros Hg. rewrite (list_fmap_alter f g (λ y, y)).
  - by apply list_alter_id.
  - apply Forall_forall. intros x _. apply Hg.
Qed.

Lemma trim_truthy (x : jsstring) : trim x ≠ [] → negb (truthy (trim x)) = false.
Proof. by destruct (trim x). Qed.

(** X2.  saveDeck with no deck being edited and a name that does not
    trim to the empty string appends one deck, with the given id and
    time, the trimmed name and the emoji and colour of the form; the
    cards and the session are untouched, the dialog is closed, the toast
    "Deck created!" is shown, and the watcher then writes the new data
    to the storage. *)
Theorem saveDeck_creates (newId now : jsstring) (s : State) :
  s.(dialogs).(editingDeck) = None →
  trim s.(dialogs).(deckForm).(df_name) ≠ [] →
  let s' := saveDeck newId now s in
  let form := s.(dialogs).(deckForm) in
  s'.(data).(decks)
  = s.(data).(decks)
    ++ [Deck.mk newId (trim form.(df_name)) form.(df_emoji) form.(df_color) now] ∧
  s'.(data).(cards) = s.(data).(cards) ∧
  s'.(data).(totalSessions) = s.(data).(totalSessions) ∧
  s'.(study) = s.(study) ∧
  s'.(selectedDeck) = s.(selectedDeck) ∧
  s'.(dialogs).(showDeckModal) = false ∧
  s'.(toasts)
  = s.(toasts) ++ [Toast.mk (S s.(toastId)) (str "Deck created!") success
                            (str "fas fa-check-circle")] ∧
  (flush s').(storage_writes) = s'.(data) :: s.(storage_writes).
Proof.
  intros Hed Hname s' form. subst s' form. unfold saveDeck.
  rewrite Hed, (trim_truthy _ Hname). simpl. repeat split.
Qed.

Lemma saveDeck_creates_witness :
  let s := openNewDeckModal sample_store in
  let s0 := set_dialogs
              {| showDeckModal := true; showCardModal := false;
                 showConfirm := false; confirmMessage := [];
                 confirmCallback := None; editingDeck := None;
                 editingCard := None;
                 deckForm := {| df_name := str " French "; df_emoji := str "F";
                                df_color := str "#00b894" |};
                 cardForm := emptyCardForm |} s in
  let s' := saveDeck (str "d9") sample_time s0 in
  s'.(data).(decks)
  = sample_store.(data).(decks)
    ++ [Deck.mk (str "d9") (str "French") (str "F") (str "#00b894") sample_time] ∧
  s'.(data).(cards) = sample_store.(data).(cards) ∧
  s'.(dialogs).(showDeckModal) = false.
Proof.
  intros s s0 s'.
  destruct (saveDeck_creates (str "d9") sample_time s0) as
    (Hd & Hc & _ & _ & _ & Hm & _); [reflexivity|vm_compute; discriminate|].
  split; [exact Hd|]. split; [exact Hc|exact Hm].
Defined.

(** X3.  saveDeck while a deck e is being edited (name not blank) keeps
    the ids and the number of the decks and leaves the cards alone.  If
    no deck has e's id, nothing of the store changes and no toast is
    shown; otherwise the first deck with that id gets the name, emoji
    and colour of the form (the name as typed, not trimmed) and keeps
    its id and creation time, and every other deck stays as it is. *)
Theorem saveDeck_updates (newId now : jsstring) (s : State) (e : Deck.t) :
  s.(dialogs).(editingDeck) = Some e →
  trim s.(dialogs).(deckForm).(df_name) ≠ [] →
  let s' := saveDeck newId now s in
  let form := s.(dialogs).(deckForm) in
  deck_ids s' = deck_ids s ∧
  length s'.(data).(decks) = length s.(data).(decks) ∧
  s'.(data).(cards) = s.(data).(cards) ∧
  s'.(dialogs).(showDeckModal) = false ∧
  (e.(Deck.id) ∉ deck_ids s →
   s'.(data) = s.(data) ∧ s'.(toasts) = s.(toasts) ∧
   s'.(watch_pending) = s.(watch_pending)) ∧
  (e.(Deck.id) ∈ deck_ids s →
   ∃ i d,
     s.(data).(decks) !! i = Some d ∧
     d.(Deck.id) = e.(Deck.id) ∧
     (∀ j d', j < i → s.(data).(decks) !! j = Some d' →
              d'.(Deck.id) ≠ e.(Deck.id)) ∧
     s'.(data).(decks) !! i
     = Some (Deck.mk d.(Deck.id) form.(df_name) form.(df_emoji)
                     form.(df_color) d.(Deck.createdAt)) ∧
     ∀ j, j ≠ i → s'.(data).(decks) !! j = s.(data).(decks) !! j).
Proof.
  intros Hed Hname s' form. subst s' form. unfold saveDeck, deck_ids.
  rewrite Hed, (trim_truthy _ Hname).
  pose proof (findIndex_by_id Deck.id s.(data).(decks) e.(Deck.id)) as Hf.
  destruct (findIndex _ _) as [i|]; simpl.
  - destruct Hf as (d & Hd & Hid & Hfirst).
    split; [by apply fmap_alter_same|]. split; [apply length_alter|].
    split; [done|]. split; [done|]. split.
    + intros Hno. exfalso. apply Hno, list_elem_of_fmap. exists d.
      split; [done|]. by eapply list_elem_of_lookup_2.
    + intros _. exists i, d. repeat split; try done.
      * by rewrite list_lookup_alter_eq, Hd.
      * intros j Hj. by apply list_lookup_alter_ne.
  - repeat split; done.
Qed.

Lemma saveDeck_updates_witness :
  let e := sample_deck "d2" in
  let s0 := set_dialogs
              {| showDeckModal := true; showCardModal := false;
                 showConfirm := false; confirmMessage := [];
                 confirmCallback := None; editingDeck := Some e;
                 editingCard := None;
                 deckForm := {| df_name := str " Italian"; df_emoji := str "I";
                                df_color := str "#e17055" |};
                 cardForm := emptyCardForm |} sample_store in
  let s' := saveDeck (str "d9") sample_time s0 in
  deck_ids s' = deck_ids s0 ∧
  s'.(data).(decks)
  = [sample_deck "d1";
     Deck.mk (str "d2") (str " Italian") (str "I") (str "#e17055")
             (str "2024-01-01T00:00:00.000Z")].
Proof.
  intros e s0 s'.
  destruct (saveDeck_updates (str "d9") sample_time s0 e) as (Hids & _);
    [reflexivity|vm_compute; discriminate|].
  split; [exact Hids|reflexivity].
Defined.

(** X4.  saveCard while a card e is being edited (front and back not
    blank) returns, keeps the ids and the number of the cards and leaves
    the decks alone.  If no card has e's id, nothing of the store
    changes and no toast is shown; otherwise the first card with that
    id gets the trimmed front and back of the form and keeps its id,
    deck, difficulty, review count, review time and creation time, and
    every other card stays as it is. *)
Theorem saveCard_updates (newId now : jsstring) (s : State) (e : Card.t) :
  s.(dialogs).(editingCard) = Some e →
  trim s.(dialogs).(cardForm).(cf_front) ≠ [] →
  trim s.(dialogs).(cardForm).(cf_back) ≠ [] →
  ∃ s',
    saveCard newId now s = Some s' ∧
    card_ids s' = card_ids s ∧
    length s'.(data).(cards) = length s.(data).(cards) ∧
    s'.(data).(decks) = s.(data).(decks) ∧
    s'.(dialogs).(showCardModal) = false ∧
    (e.(Card.id) ∉ card_ids s →
     s'.(data) = s.(data) ∧ s'.(toasts) = s.(toasts) ∧
     s'.(watch_pending) = s.(watch_pending)) ∧
    (e.(Card.id) ∈ card_ids s →
     ∃ i c,
       s.(data).(cards) !! i = Some c ∧
       c.(Card.id) = e.(Card.id) ∧
       (∀ j c', j < i → s.(data).(cards) !! j = Some c' →
                c'.(Card.id) ≠ e.(Card.id)) ∧
       s'.(data).(cards) !! i
       = Some (Card.mk c.(Card.id) c.(Card.deckId)
                       (trim s.(dialogs).(cardForm).(cf_front))
                       (trim s.(dialogs).(cardForm).(cf_back))
                       c.(Card.difficulty) c.(Card.reviewCount)
                       c.(Card.lastReviewed) c.(Card.createdAt)) ∧
       ∀ j, j ≠ i → s'.(data).(cards) !! j = s.(data).(cards) !! j).
Proof.
  intros Hed Hfront Hback. unfold saveCard, card_ids. cbv zeta.
  rewrite Hed, (trim_truthy _ Hfront), (trim_truthy _ Hback).
  pose proof (findIndex_by_id Card.id s.(data).(cards) e.(Card.id)) as Hf.
  destruct (findIndex _ _) as [i|]; simpl.
  - destruct Hf as (c & Hc & Hid & Hfirst).
    eexists. split; [reflexivity|]. simpl.
    split; [by apply fmap_alter_same|]. split; [apply length_alter|].
    split; [done|]. split; [done|]. split.
    + intros Hno. exfalso. apply Hno, list_elem_of_fmap. exists c.
      split; [done|]. by eapply list_elem_of_lookup_2.
    + intros _. exists i, c. repeat split; try done.
      * by rewrite list_lookup_alter_eq, Hc.
      * intros j Hj. by apply list_lookup_alter_ne.
  - eexists. split; [reflexivity|]. repeat split; done.
Qed.

Lemma saveCard_updates_witness :
  ∃ s',
    saveCard (str "c9") sample_time
      (sample_card_dialog (Some (sample_card "c3" "d2" "medium"))
                          " adios " "bye" sample_store) = Some s' ∧
    card_ids s' = card_ids sample_store ∧
    s'.(data).(cards) !! 2
    = Some (Card.mk (str "c3") (str "d2") (str "adios") (str "bye")
                    (Some (str "medium")) (Some 0) None
                    (str "2024-01-01T00:00:00.000Z")).
Proof.
  destruct (saveCard_updates (str "c9") sample_time
              (sample_card_dialog (Some (sample_card "c3" "d2" "medium"))
                                  " adios " "bye" sample_store)
              (sample_card "c3" "d2" "medium"))
    as (s' & Hs & Hids & _); [reflexivity|vm_compute; discriminate..|].
  exists s'. split; [exact Hs|]. split; [exact Hids|].
  vm_compute in Hs. injection Hs as <-. reflexivity.
Defined.

(** X5.  saveCard that is to create a card (no card being edited, front
    and back not blank) while no deck is selected raises the TypeError
    of selectedDeck.value.id: it does not return, and it has assigned
    nothing by then. *)
Theorem saveCard_without_selection (newId now : jsstring) (s : State) :
  s.(dialogs).(editingCard) = None →
  s.(selectedDeck) = None →
  trim s.(dialogs).(cardForm).(cf_front) ≠ [] →
  trim s.(dialogs).(cardForm).(cf_back) ≠ [] →
  saveCard newId now s = None.
Proof.
  intros Hed Hsel Hfront Hback. unfold saveCard. cbv zeta.
  by rewrite Hed, Hsel, (trim_truthy _ Hfront), (trim_truthy _ Hback).
Qed.

Lemma saveCard_without_selection_witness :
  saveCard (str "c9") sample_time
    (sample_card_dialog None "hola" "hello" init) = None.
Proof.
  apply saveCard_without_selection;
    [reflexivity|reflexivity|vm_compute; discriminate..].
Defined.

(* --------------------------------------------------------------------- *)
(*  What a rating writes to the store                                    *)
(* --------------------------------------------------------------------- *)

(** X6.  When a card of the store has the id of the card on display, a
    rating succeeds and updates the first such card: its difficulty
    becomes the rating, its review count goes up by one (from 0 when it
    had none), its review time becomes the time of the rating, and its
    id, deck, front, back and creation time stay; every other card and
    all the decks stay as they are. *)
Theorem rateCard_updates_store (now rating : jsstring) (s : State)
    (card : Card.t) :
  s.(study).(studyCards) !! s.(study).(studyIndex) = Some card →
  card.(Card.id) ∈ card_ids s →
  ∃ s' i c,
    rateCard now rating s = Some s' ∧
    s.(data).(cards) !! i = Some c ∧
    c.(Card.id) = card.(Card.id) ∧
    (∀ j c', j < i → s.(data).(cards) !! j = Some c' →
             c'.(Card.id) ≠ card.(Card.id)) ∧
    s'.(data).(cards) !! i
    = Some (Card.mk c.(Card.id) c.(Card.deckId) c.(Card.front) c.(Card.back)
                    (Some rating) (Some (default 0 c.(Card.reviewCount) + 1))
                    (Some now) c.(Card.createdAt)) ∧
    (∀ j, j ≠ i → s'.(data).(cards) !! j = s.(data).(cards) !! j) ∧
    length s'.(data).(cards) = length s.(data).(cards) ∧
    card_ids s' = card_ids s ∧
    s'.(data).(decks) = s.(data).(decks).
Proof.
  intros Hcard Hin. unfold rateCard, card_ids in *. rewrite Hcard. simpl.
  pose proof (findIndex_by_id Card.id s.(data).(cards) card.(Card.id)) as Hf.
  destruct (findIndex _ _) as [i|]; [|done]. simpl.
  destruct Hf as (c & Hc & Hid & Hfirst).
  eexists _, i, c. split; [reflexivity|].
  split; [done|]. split; [done|]. split; [done|].
  case_bool_decide; simpl.
  all: split; [by rewrite list_lookup_alter_eq, Hc|].
  all: split; [intros j Hj; by apply list_lookup_alter_ne|].
  all: split; [apply length_alter|].
  all: split; [by apply fmap_alter_same|done].
Qed.

Lemma rateCard_updates_store_witness :
  ∃ s' i c,
    rateCard sample_time (str "easy") sample_session = Some s' ∧
    sample_session.(data).(cards) !! i = Some c ∧
    c.(Card.id) = str "c2" ∧
    (∀ j c', j < i → sample_session.(data).(cards) !! j = Some c' →
             c'.(Card.id) ≠ str "c2") ∧
    s'.(data).(cards) !! i
    = Some (Card.mk c.(Card.id) c.(Card.deckId) c.(Card.front) c.(Card.back)
                    (Some (str "easy")) (Some (default 0 c.(Card.reviewCount) + 1))
                    (Some sample_time) c.(Card.createdAt)) ∧
    (∀ j, j ≠ i → s'.(data).(cards) !! j = sample_session.(data).(cards) !! j) ∧
    length s'.(data).(cards) = length sample_session.(data).(cards) ∧
    card_ids s' = card_ids sample_session ∧
    s'.(data).(decks) = sample_session.(data).(decks).
Proof.
  apply (rateCard_updates_store sample_time (str "easy") sample_session
           (sample_card "c2" "d1" "hard")).
  - reflexivity.
  - apply (bool_decide_unpack _). vm_compute. exact I.
Defined.

(* --------------------------------------------------------------------- *)
(*  What each method can do to the store                                 *)
(* --------------------------------------------------------------------- *)

Lemma saveDeck_store newId now s :
  let s' := saveDeck newId now s in
  s'.(data).(cards) = s.(data).(cards) ∧
  s'.(data).(totalSessions) = s.(data).(totalSessions) ∧
  s'.(selectedDeck) = s.(selectedDeck) ∧
  s'.(study) = s.(study) ∧ s'.(view) = s.(view) ∧
  (s'.(data).(decks) = s.(data).(decks) ∨
   (∃ i, s'.(data).(decks)
         = alter (merge_deck s.(dialogs).(deckForm)) i s.(data).(decks)) ∨
   (∃ d, d.(Deck.id) = newId ∧ s'.(data).(decks) = s.(data).(decks) ++ [d])).
Proof.
  unfold saveDeck. cbv zeta.
  destruct (negb _); [by repeat split; try left|].
  destruct s.(dialogs).(editingDeck) as [e|];
    [destruct (findIndex _ _) as [i|]|]; simpl; repeat split.
  - right; left. by exists i.
  - by left.
  - right; right. eexists (Deck.mk newId _ _ _ _). split; reflexivity.
Qed.

Lemma saveCard_store newId now s s' :
  saveCard newId now s = Some s' →
  s'.(data).(decks) = s.(data).(decks) ∧
  s'.(data).(totalSessions) = s.(data).(totalSessions) ∧
  s'.(selectedDeck) = s.(selectedDeck) ∧
  s'.(study) = s.(study) ∧ s'.(view) = s.(view) ∧
  (s'.(data).(cards) = s.(data).(cards) ∨
   (∃ i, s'.(data).(cards)
         = alter (edit_card s.(dialogs).(cardForm)) i s.(data).(cards)) ∨
   (∃ sel c, s.(selectedDeck) = Some sel ∧ c.(Card.id) = newId ∧
             c.(Card.deckId) = sel.(Deck.id) ∧
             s'.(data).(cards) = s.(data).(cards) ++ [c])).
Proof.
  unfold saveCard. cbv zeta.
  destruct (_ || _); [intros [= <-]; by repeat split; try left|].
  destruct s.(dialogs).(editingCard) as [e|].
  - destruct (findIndex _ _) as [i|]; simpl; intros [= <-]; simpl;
      repeat split.
    + right; left. by exists i.
    + by left.
  - destruct s.(selectedDeck) as [sel|] eqn:Hsel; [|done]. simpl.
    intros [= <-]. simpl. repeat split; [done|].
    right; right. eexists sel, (Card.mk newId _ _ _ _ _ _ _).
    repeat split; reflexivity.
Qed.

Lemma confirmAction_store s :
  let s' := confirmAction s in
  s'.(data).(totalSessions) = s.(data).(totalSessions) ∧
  s'.(study) = s.(study) ∧ s'.(view) = s.(view) ∧
  ((s'.(data).(decks) = s.(data).(decks) ∧
    s'.(data).(cards) = s.(data).(cards) ∧
    s'.(selectedDeck) = s.(selectedDeck)) ∨
   (∃ k,
      s'.(data).(decks) = filter (λ d, d.(Deck.id) ≠ k) s.(data).(decks) ∧
      s'.(data).(cards) = filter (λ c, c.(Card.deckId) ≠ k) s.(data).(cards) ∧
      (s'.(selectedDeck) = s.(selectedDeck) ∨ s'.(selectedDeck) = None) ∧
      ∀ d, s'.(selectedDeck) = Some d → d.(Deck.id) ≠ k) ∨
   (∃ k,
      s'.(data).(decks) = s.(data).(decks) ∧
      s'.(data).(cards) = filter (λ c, c.(Card.id) ≠ k) s.(data).(cards) ∧
      s'.(selectedDeck) = s.(selectedDeck))).
Proof.
  unfold confirmAction. cbv zeta.
  destruct s.(dialogs).(confirmCallback) as [[k|k]|]; simpl.
  - destruct s.(selectedDeck) as [sel|] eqn:Hsel; simpl.
    + case_bool_decide; simpl; repeat split; right; left; exists k;
        repeat split; try done; rewrite ?Hsel; auto;
        try (intros d [= <-]; done).
    + repeat split. right; left. exists k. repeat split; rewrite ?Hsel; auto.
  - repeat split. right; right. by exists k.
  - repeat split. by left.
Qed.

Lemma rateCard_store now rating s s' :
  rateCard now rating s = Some s' →
  s'.(data).(decks) = s.(data).(decks) ∧
  s'.(selectedDeck) = s.(selectedDeck) ∧
  s'.(view) = s.(view) ∧
  (s'.(data).(cards) = s.(data).(cards) ∨
   ∃ i, s'.(data).(cards) = alter (rate_fields now rating) i s.(data).(cards)) ∧
  (s'.(data).(totalSessions) = s.(data).(totalSessions) ∨
   s'.(data).(totalSessions) = s.(data).(totalSessions) + 1).
Proof.
  unfold rateCard. destruct (find_rated _ _) as [idx|]; [|done]. simpl.
  intros [= <-]. destruct idx as [i|]; simpl; case_bool_decide; simpl;
    repeat split; eauto.
Qed.

(* The three tests of the key in a row give the one rating of the key,
   if it has one. *)
Lemma rating_keys now k s1 :
  (s2 ← (if bool_decide (k = str "1")
         then rateCard now (str "hard") s1 else Some s1);
   s3 ← (if bool_decide (k = str "2")
         then rateCard now (str "medium") s2 else Some s2);
   if bool_decide (k = str "3") then rateCard now (str "easy") s3 else Some s3)
  = match key_rating k with
    | Some rating => rateCard now rating s1
    | None => Some s1
    end.
Proof.
  unfold key_rating.
  destruct (decide (k = str "1")) as [->|H1].
  { change (bool_decide (str "1" = str "1")) with true.
    change (bool_decide (str "1" = str "2")) with false.
    change (bool_decide (str "1" = str "3")) with false.
    simpl. by destruct (rateCard _ _ _). }
  rewrite (bool_decide_eq_false_2 _ H1). simpl.
  destruct (decide (k = str "2")) as [->|H2].
  { change (bool_decide (str "2" = str "2")) with true.
    change (bool_decide (str "2" = str "3")) with false.
    simpl. by destruct (rateCard _ _ _). }
  rewrite (bool_decide_eq_false_2 _ H2). simpl.
  by case_bool_decide.
Qed.

(* handleKeydown, with the rating of the key worked out. *)
Lemma handleKeydown_unfold now e s :
  handleKeydown now e s =
  if s.(dialogs).(showDeckModal) || s.(dialogs).(showCardModal)
     || s.(dialogs).(showConfirm)
  then Some (if bool_decide (e.(KeyboardEvent.key) = str "Escape")
             then close_dialogs s else s)
  else if bool_decide (s.(view) = str "study")
          && bool_decide (0 < length s.(study).(studyCards))
          && bool_decide (s.(study).(studyIndex) < length s.(study).(studyCards))
  then
    let s1 := if bool_decide (e.(KeyboardEvent.code) = str "Space")
              then flipCard s else s in
    if s1.(study).(isFlipped) then
      match key_rating e.(KeyboardEvent.key) with
      | Some rating => rateCard now rating s1
      | None => Some s1
      end
    else Some s1
  else Some s.
Proof.
  unfold handleKeydown. cbv zeta.
  destruct (_ || _ || _); [done|]. destruct (_ && _ && _); [|done].
  destruct (isFlipped _); [|done]. apply rating_keys.
Qed.

Lemma handleKeydown_cases now e s s' :
  handleKeydown now e s = Some s' →
  s' = s ∨ s' = close_dialogs s ∨ s' = flipCard s ∨
  (∃ rating, rateCard now rating s = Some s') ∨
  (∃ rating, rateCard now rating (flipCard s) = Some s').
Proof.
  rewrite handleKeydown_unfold. cbv zeta.
  destruct (_ || _ || _); [intros [= <-]; case_bool_decide; auto|].
  destruct (_ && _ && _); [|intros [= <-]; auto].
  case_bool_decide.
  - destruct (isFlipped _); [|intros [= <-]; auto].
    destruct (key_rating _) as [rating|]; [eauto 10|intros [= <-]; auto].
  - destruct (isFlipped _); [|intros [= <-]; auto].
    destruct (key_rating _) as [rating|]; [eauto 10|intros [= <-]; auto].
Qed.

(* --------------------------------------------------------------------- *)
(*  No orphans                                                           *)
(* --------------------------------------------------------------------- *)

Lemma elem_of_alter {A} (f : A → A) i (l : list A) x :
  x ∈ alter f i l → x ∈ l ∨ ∃ y, y ∈ l ∧ x = f y.
Proof.
  revert i. induction l as [|y l IH]; intros i Hx.
  - destruct i; simpl in Hx; by apply elem_of_nil in Hx.
  - destruct i as [|i]; simpl in Hx; apply elem_of_cons in Hx as [->|Hx].
    + right. exists y. split; [left|done].
    + left. by right.
    + left; left.
    + destruct (IH i Hx) as [?|(z & ? & ->)]; [left; by right|].
      right. exists z. split; [by right|done].
Qed.

(* Decks are kept or gained, every card keeps its deck or is a new card
   of the selected deck, and the selection is kept or cleared. *)
Lemma no_orphans_grow s s' :
  (∀ k, k ∈ deck_ids s → k ∈ deck_ids s') →
  (∀ c, c ∈ s'.(data).(cards) →
        (∃ c0, c0 ∈ s.(data).(cards) ∧ c0.(Card.deckId) = c.(Card.deckId)) ∨
        (∃ sel, s.(selectedDeck) = Some sel ∧ c.(Card.deckId) = sel.(Deck.id))) →
  s'.(selectedDeck) = s.(selectedDeck) ∨ s'.(selectedDeck) = None →
  no_orphans s → no_orphans s'.
Proof.
  intros Hids Hcards Hsel [Hc Hs]. split.
  - intros c Hin. apply Hids.
    destruct (Hcards c Hin) as [(c0 & H0 & <-)|(sel & Hsel' & ->)]; eauto.
  - intros d Hd. apply Hids. destruct Hsel as [Heq|Heq]; rewrite Heq in Hd;
      [eauto|done].
Qed.

Lemma no_orphans_same s s' :
  s'.(data).(decks) = s.(data).(decks) →
  s'.(data).(cards) = s.(data).(cards) →
  s'.(selectedDeck) = s.(selectedDeck) →
  no_orphans s → no_orphans s'.
Proof.
  intros Hd Hc Hs. apply no_orphans_grow; [| |by left].
  - unfold deck_ids. by rewrite Hd.
  - rewrite Hc. eauto.
Qed.

Lemma no_orphans_rateCard now rating s s' :
  rateCard now rating s = Some s' → no_orphans s → no_orphans s'.
Proof.
  intros (Hd & Hs & _ & Hc & _)%rateCard_store.
  apply no_orphans_grow; [| |by left].
  - unfold deck_ids. by rewrite Hd.
  - intros c Hin. left. destruct Hc as [Hc|[i Hc]]; rewrite Hc in Hin; [eauto|].
    apply elem_of_alter in Hin as [?|(c0 & ? & ->)]; eauto.
Qed.

Lemma no_orphans_confirmAction s : no_orphans s → no_orphans (confirmAction s).
Proof.
  destruct (confirmAction_store s) as (_ & _ & _ & Hcases). intros Hno.
  pose proof Hno as [Hc Hs].
  destruct Hcases as [(Hd & Hcs & Hsel)|[(k & Hd & Hcs & Hsel & Hne)|(k & Hd & Hcs & Hsel)]].
  - by apply (no_orphans_same s).
  - assert (Hkeep : ∀ x, x ≠ k → x ∈ deck_ids s → x ∈ deck_ids (confirmAction s)).
    { unfold deck_ids. rewrite Hd. intros x Hx (d & -> & Hin)%list_elem_of_fmap.
      apply list_elem_of_fmap. exists d. split; [done|].
      by apply list_elem_of_filter. }
    split.
    + intros c Hin. rewrite Hcs in Hin.
      apply list_elem_of_filter in Hin as [Hck Hin]. by apply Hkeep, Hc.
    + intros d Hd'. apply Hkeep; [by apply Hne|].
      destruct Hsel as [Heq|Heq]; rewrite Heq in Hd'; [by apply Hs|done].
  - apply (no_orphans_grow s); [| |by left|done].
    + unfold deck_ids. by rewrite Hd.
    + intros c Hin. rewrite Hcs in Hin.
      apply list_elem_of_filter in Hin as [_ Hin]. eauto.
Qed.

(** X7.  No method of the page creates an orphan: if every card belongs
    to a deck of the store and the selected deck is one of the store,
    then after any method, key press, toast timeout or run of the
    watcher that returns, it is still so, a deck that the page selects
    being one of the store.  (Deleting a deck takes its cards and the
    selection with it; a new card goes to the selected deck.) *)
Theorem no_orphans_preserved (a : Action) (s s' : State) :
  no_orphans s →
  selects_from_store a s →
  perform a s = Some s' →
  no_orphans s'.
Proof.
  intros Hno Hsel Hp. destruct a; simpl in Hp, Hsel;
    try (injection Hp as <-);
    try (by apply (no_orphans_same s)).
  - (* saveDeck *)
    destruct (saveDeck_store newId now s) as (Hc & _ & Hs & _ & _ & Hd).
    revert Hno. apply no_orphans_grow; [|rewrite Hc; eauto|by left].
    unfold deck_ids. destruct Hd as [->|[[i ->]|(d & _ & ->)]]; [done| |].
    + by rewrite fmap_alter_same.
    + intros k Hk. rewrite fmap_app, elem_of_app. by left.
  - (* selectDeck *)
    destruct Hno as [Hc _]. split; [done|]. by intros d [= <-].
  - (* saveCard *)
    destruct (saveCard_store _ _ _ _ Hp) as (Hd & _ & Hs & _ & _ & Hc).
    revert Hno. apply no_orphans_grow; [unfold deck_ids; by rewrite Hd| |by left].
    intros c Hin. destruct Hc as [Hc|[[i Hc]|(sel & c1 & Hsel' & _ & Hdk & Hc)]];
      rewrite Hc in Hin.
    + eauto.
    + apply elem_of_alter in Hin as [?|(c0 & ? & ->)]; eauto.
    + apply elem_of_app in Hin as [?|Hin]; [eauto|].
      apply list_elem_of_singleton in Hin as ->. right. eauto.
  - (* confirmAction *)
    by apply no_orphans_confirmAction.
  - (* startStudyMode *)
    apply (no_orphans_same s); try done; unfold startStudyMode;
      by case_bool_decide.
  - (* studyDeck *)
    apply (no_orphans_same s); try done; unfold studyDeck;
      by case_bool_decide.
  - (* rateCard *)
    by eapply no_orphans_rateCard.
  - (* keydown *)
    destruct (handleKeydown_cases _ _ _ _ Hp)
      as [->|[->|[->|[[r Hr]|[r Hr]]]]]; try done.
    + by eapply no_orphans_rateCard.
    + eapply no_orphans_rateCard; [exact Hr|done].
  - (* watcher *)
    apply (no_orphans_same s); try done; unfold flush;
      by destruct s.(watch_pending).
Qed.

Lemma no_orphans_preserved_witness :
  no_orphans (deleteDeck_confirmed (str "d1") sample_store).
Proof.
  apply (no_orphans_preserved ConfirmAction
           (deleteDeck (str "d1") sample_store)).
  - split.
    + apply Forall_forall. apply (bool_decide_unpack _). vm_compute. exact I.
    + intros d [= <-]. apply (bool_decide_unpack _). vm_compute. exact I.
  - exact I.
  - reflexivity.
Defined.

(* --------------------------------------------------------------------- *)
(*  Unique ids                                                           *)
(* --------------------------------------------------------------------- *)

Lemma NoDup_fmap_filter {A B} (f : A → B) (P : A → Prop)
    `{∀ x, Decision (P x)} (l : list A) :
  NoDup (f <$> l) → NoDup (f <$> filter P l).
Proof.
  induction l as [|x l IH]; [done|]. rewrite fmap_cons, NoDup_cons.
  intros [Hx Hl]. rewrite filter_cons. case_decide; [|by apply IH].
  rewrite fmap_cons, NoDup_cons. split; [|by apply IH].
  intros (y & Hy & Hin)%list_elem_of_fmap. apply Hx, list_elem_of_fmap.
  exists y. split; [done|]. by apply list_elem_of_filter in Hin as [_ ?].
Qed.

Lemma NoDup_snoc {A} (l : list A) x : NoDup l → x ∉ l → NoDup (l ++ [x]).
Proof.
  intros Hl Hx. apply NoDup_app. split; [done|]. split.
  - intros y Hy ->%list_elem_of_singleton. done.
  - apply NoDup_singleton.
Qed.

Lemma unique_ids_rateCard now rating s s' :
  rateCard now rating s = Some s' → unique_ids s → unique_ids s'.
Proof.
  intros (Hd & _ & _ & Hc & _)%rateCard_store. unfold unique_ids, deck_ids, card_ids.
  rewrite Hd. intros [? ?]. split; [done|].
  destruct Hc as [->|[i ->]]; [done|]. by rewrite fmap_alter_same.
Qed.

(** X8.  The ids stay unique: if no two decks and no two cards of the
    store share an id, then after any method, key press, toast timeout
    or run of the watcher that returns it is still so, provided the id
    that generateId hands to saveDeck or saveCard is not yet the id of
    a deck or card of the store. *)
Theorem unique_ids_preserved (a : Action) (s s' : State) :
  unique_ids s →
  fresh_id a s →
  perform a s = Some s' →
  unique_ids s'.
Proof.
  intros Hu Hfresh Hp. pose proof Hu as [Hdk Hcd].
  destruct a; simpl in Hp, Hfresh;
    try (injection Hp as <-); try done.
  - (* saveDeck *)
    destruct (saveDeck_store newId now s) as (Hc & _ & _ & _ & _ & Hd).
    unfold unique_ids, deck_ids, card_ids in *. rewrite Hc. split; [|done].
    destruct Hd as [->|[[i ->]|(d & Hid & ->)]]; [done| |].
    + by rewrite fmap_alter_same.
    + rewrite fmap_app. simpl. rewrite Hid. by apply NoDup_snoc.
  - (* saveCard *)
    destruct (saveCard_store _ _ _ _ Hp) as (Hd & _ & _ & _ & _ & Hc).
    unfold unique_ids, deck_ids, card_ids in *. rewrite Hd. split; [done|].
    destruct Hc as [->|[[i ->]|(sel & c & _ & Hid & _ & ->)]]; [done| |].
    + by rewrite fmap_alter_same.
    + rewrite fmap_app. simpl. rewrite Hid. by apply NoDup_snoc.
  - (* confirmAction *)
    destruct (confirmAction_store s) as (_ & _ & _ & Hcases).
    unfold unique_ids, deck_ids, card_ids in *.
    destruct Hcases as [(-> & -> & _)|[(k & -> & -> & _)|(k & -> & -> & _)]];
      [done| |]; split; try done; by apply NoDup_fmap_filter.
  - (* startStudyMode *)
    unfold startStudyMode. by case_bool_decide.
  - (* studyDeck *)
    unfold studyDeck. by case_bool_decide.
  - (* rateCard *)
    by eapply unique_ids_rateCard.
  - (* keydown *)
    destruct (handleKeydown_cases _ _ _ _ Hp)
      as [->|[->|[->|[[r Hr]|[r Hr]]]]]; try done.
    + by eapply unique_ids_rateCard.
    + eapply unique_ids_rateCard; [exact Hr|done].
  - (* watcher *)
    unfold flush. by destruct s.(watch_pending).
Qed.

Lemma unique_ids_preserved_witness :
  ∃ s',
    saveCard (str "c9") sample_time
      (sample_card_dialog None "uno" "one" sample_store) = Some s' ∧
    unique_ids s'.
Proof.
  eexists. split; [reflexivity|].
  apply (unique_ids_preserved (SaveCard (str "c9") sample_time)
           (sample_card_dialog None "uno" "one" sample_store)).
  - split; apply (bool_decide_unpack _); vm_compute; exact I.
  - apply (bool_decide_unpack _). vm_compute. exact I.
  - reflexivity.
Defined.

(* --------------------------------------------------------------------- *)
(*  The session counter and the study refs                               *)
(* --------------------------------------------------------------------- *)

Lemma rateCard_totalSessions now rating s s' :
  rateCard now rating s = Some s' →
  s'.(study) = rated rating s.(study) ∧
  ((s'.(data).(totalSessions) = s.(data).(totalSessions) ∧
    s'.(study).(studyIndex) < length s'.(study).(studyCards)) ∨
   (s'.(data).(totalSessions) = s.(data).(totalSessions) + 1 ∧
    length s'.(study).(studyCards) ≤ s'.(study).(studyIndex))).
Proof.
  intros Hr. split; [by eapply rateCard_study|]. revert Hr.
  unfold rateCard. destruct (find_rated _ _) as [idx|]; [|done]. simpl.
  intros [= <-]. destruct idx as [i|]; simpl; case_bool_decide; simpl;
    (left; split; [done|lia]) || (right; split; [done|lia]).
Qed.

(** X9.  totalSessions never goes down: any method, key press, toast
    timeout or run of the watcher that returns leaves it as it was or
    adds one, and it adds one only when it is a rating (by button or by
    key) that has taken the index to the end of the queue or past it. *)
Theorem totalSessions_step (a : Action) (s s' : State) :
  perform a s = Some s' →
  (s'.(data).(totalSessions) = s.(data).(totalSessions) ∨
   s'.(data).(totalSessions) = s.(data).(totalSessions) + 1) ∧
  (s'.(data).(totalSessions) ≠ s.(data).(totalSessions) →
   (∃ now rating, a = RateCard now rating ∨ ∃ e, a = Keydown now e) ∧
   length s'.(study).(studyCards) ≤ s'.(study).(studyIndex)).
Proof.
  intros Hp. destruct a; simpl in Hp; try (injection Hp as <-);
    try (split; [by left|done]).
  - destruct (saveDeck_store newId now s) as (_ & -> & _). split; [by left|done].
  - destruct (saveCard_store _ _ _ _ Hp) as (_ & -> & _). split; [by left|done].
  - destruct (confirmAction_store s) as (-> & _). split; [by left|done].
  - unfold startStudyMode. case_bool_decide; (split; [by left|done]).
  - unfold studyDeck. case_bool_decide; (split; [by left|done]).
  - destruct (rateCard_totalSessions _ _ _ _ Hp) as (_ & [[-> ?]|[-> ?]]).
    + split; [by left|done].
    + split; [by right|]. intros _. split; [|done]. exists now, rating. by left.
  - destruct (handleKeydown_cases _ _ _ _ Hp)
      as [->|[->|[->|[[r Hr]|[r Hr]]]]]; try (split; [by left|done]).
    + destruct (rateCard_totalSessions _ _ _ _ Hr) as (_ & [[-> ?]|[-> ?]]).
      * split; [by left|done].
      * split; [by right|]. intros _. split; [|done]. exists now, r. right. eauto.
    + destruct (rateCard_totalSessions _ _ _ _ Hr) as (_ & [[-> ?]|[-> ?]]).
      * split; [by left|done].
      * split; [by right|]. intros _. split; [|done]. exists now, r. right. eauto.
  - unfold flush. destruct s.(watch_pending); (split; [by left|done]).
Qed.

Lemma totalSessions_step_witness :
  ∃ s',
    perform (Keydown sample_time (KeyboardEvent.mk (str "3") (str "Digit3")))
            (flipCard sample_session) = Some s' ∧
    (s'.(data).(totalSessions) = 4 ∨ s'.(data).(totalSessions) = 4 + 1).
Proof.
  eexists. split; [reflexivity|].
  apply (totalSessions_step
           (Keydown sample_time (KeyboardEvent.mk (str "3") (str "Digit3")))
           (flipCard sample_session)).
  reflexivity.
Defined.

(** X10.  Only starting, flipping, rating, restarting and the key
    handler assign to the study refs: any other method, a toast timeout
    or the watcher leaves queue, index, flip flag and counters as they
    are (so a card deleted from the store stays in the queue of the
    running session), and apart from exitStudy leaves the view too. *)
Theorem study_untouched (a : Action) (s s' : State) :
  study_action a = false →
  perform a s = Some s' →
  s'.(study) = s.(study) ∧ (a ≠ ExitStudy → s'.(view) = s.(view)).
Proof.
  intros Ha Hp. destruct a; simpl in Hp, Ha; try done;
    try (injection Hp as <-); try (split; [done|]; done).
  - by destruct (saveDeck_store newId now s) as (_ & _ & _ & -> & -> & _).
  - by destruct (saveCard_store _ _ _ _ Hp) as (_ & _ & _ & -> & -> & _).
  - by destruct (confirmAction_store s) as (_ & -> & -> & _).
  - unfold flush. by destruct s.(watch_pending).
Qed.

Lemma study_untouched_witness :
  (deleteCard_confirmed (str "c2") sample_session).(study)
  = sample_session.(study).
Proof.
  apply (study_untouched ConfirmAction (deleteCard (str "c2") sample_session));
    reflexivity.
Defined.

(** X11.  In a study session the two counters add up to the index: the
    number of cards rated so far is correct + wrong, at every state of
    the session. *)
Theorem Session_counters (s : State) :
  Session s →
  s.(study).(studyCorrect) + s.(study).(studyWrong) = s.(study).(studyIndex).
Proof.
  induction 1 as [m rnd s Hne|s _ IH|now rating s s' _ IH Hi Hr|rnd s _ IH
                 |s s' _ IH Hv Hs].
  - by destruct (start_queue m rnd s Hne) as (arr & _ & ->).
  - done.
  - rewrite (rateCard_study _ _ _ _ Hr). simpl. case_bool_decide; lia.
  - done.
  - by rewrite Hs.
Qed.

Lemma Session_counters_witness :
  sample_rated.(study).(studyCorrect) + sample_rated.(study).(studyWrong)
  = sample_rated.(study).(studyIndex).
Proof.
  apply (Session_counters sample_rated).
  apply (Session_rateCard sample_time (str "easy") sample_session).
  - apply Session_start. vm_compute. discriminate.
  - vm_compute. lia.
  - reflexivity.
Defined.

(* --------------------------------------------------------------------- *)
(*  The key handler                                                      *)
(* --------------------------------------------------------------------- *)

Lemma in_progress_guard s :
  bool_decide (s.(view) = str "study")
  && bool_decide (0 < length s.(study).(studyCards))
  && bool_decide (s.(study).(studyIndex) < length s.(study).(studyCards))
  = bool_decide (session_state s = InProgress).
Proof.
  unfold session_state. repeat case_bool_decide; simpl; try done; lia.
Qed.

Lemma Session_close_dialogs s : Session s → Session (close_dialogs s).
Proof. intros Hs. by apply (Session_other s). Qed.

(** X12.  handleKeydown never raises: for every key event in every state
    it returns, because it rates only when a card is on display.  It
    keeps 0 <= index <= length(queue), and it takes a study session to a
    study session. *)
Theorem handleKeydown_safe (now : jsstring) (e : KeyboardEvent.t) (s : State) :
  ∃ s',
    handleKeydown now e s = Some s' ∧
    (index_in_range s → index_in_range s') ∧
    (Session s → Session s').
Proof.
  rewrite handleKeydown_unfold. cbv zeta.
  destruct (_ || _ || _).
  { eexists. split; [reflexivity|]. case_bool_decide; [|done].
    split; [done|apply Session_close_dialogs]. }
  rewrite in_progress_guard. case_bool_decide as Hin; [|by eexists].
  assert (Hi : s.(study).(studyIndex) < length s.(study).(studyCards)).
  { unfold session_state in Hin. repeat case_bool_decide; done. }
  assert (Hrate : ∀ rating t,
            t.(study).(studyCards) = s.(study).(studyCards) →
            t.(study).(studyIndex) = s.(study).(studyIndex) →
            ∃ s', rateCard now rating t = Some s' ∧
                  (index_in_range s → index_in_range s') ∧
                  (Session t → Session s')).
  { intros rating t Hq Hx.
    destruct (rateCard_current now rating t) as (s' & Hr & _ & Hq' & Hx' & _);
      [by rewrite Hq, Hx|].
    exists s'. split; [done|]. split.
    - unfold index_in_range. rewrite Hq', Hx', Hq, Hx. lia.
    - intros Ht. apply (Session_rateCard now rating t); try done.
      by rewrite Hq, Hx. }
  case_bool_decide.
  - destruct (isFlipped (study (flipCard s))) eqn:Hfl.
    + destruct (key_rating _) as [rating|].
      * destruct (Hrate rating (flipCard s)) as (s' & Hr & Hidx & Hses); try done.
        exists s'. split; [done|]. split; [done|].
        intros Hs. by apply Hses, Session_flipCard.
      * eexists. split; [reflexivity|]. split; [done|apply Session_flipCard].
    + eexists. split; [reflexivity|]. split; [done|apply Session_flipCard].
  - destruct (isFlipped (study s)) eqn:Hfl; [|by eexists].
    destruct (key_rating _) as [rating|]; [|by eexists].
    by apply Hrate.
Qed.

Lemma handleKeydown_safe_witness :
  ∃ s',
    handleKeydown sample_time (KeyboardEvent.mk (str "1") (str "Digit1"))
                  (flipCard sample_session) = Some s' ∧
    index_in_range s' ∧ Session s'.
Proof.
  destruct (handleKeydown_safe sample_time
              (KeyboardEvent.mk (str "1") (str "Digit1"))
              (flipCard sample_session)) as (s' & Hk & Hidx & Hses).
  exists s'. split; [exact Hk|]. split.
  - apply Hidx. vm_compute. lia.
  - apply Hses, Session_flipCard, Session_start. vm_compute. discriminate.
Defined.

(** X13.  While a dialog is open the keys reach nothing else: the key
    handler returns with the store, the session, the view, the
    selection, the forms and the pending confirmation untouched; Escape
    closes the three dialogs (without running or dropping the pending
    confirmation), any other key changes nothing at all. *)
Theorem handleKeydown_dialog_open (now : jsstring) (e : KeyboardEvent.t)
    (s : State) :
  s.(dialogs).(showDeckModal) = true ∨ s.(dialogs).(showCardModal) = true ∨
  s.(dialogs).(showConfirm) = true →
  ∃ s',
    handleKeydown now e s = Some s' ∧
    s'.(data) = s.(data) ∧ s'.(study) = s.(study) ∧ s'.(view) = s.(view) ∧
    s'.(selectedDeck) = s.(selectedDeck) ∧ s'.(toasts) = s.(toasts) ∧
    s'.(dialogs).(confirmCallback) = s.(dialogs).(confirmCallback) ∧
    s'.(dialogs).(deckForm) = s.(dialogs).(deckForm) ∧
    s'.(dialogs).(cardForm) = s.(dialogs).(cardForm) ∧
    (e.(KeyboardEvent.key) = str "Escape" →
     s'.(dialogs).(showDeckModal) = false ∧
     s'.(dialogs).(showCardModal) = false ∧
     s'.(dialogs).(showConfirm) = false) ∧
    (e.(KeyboardEvent.key) ≠ str "Escape" → s' = s).
Proof.
  intros Hopen. rewrite handleKeydown_unfold.
  assert (s.(dialogs).(showDeckModal) || s.(dialogs).(showCardModal)
          || s.(dialogs).(showConfirm) = true) as ->.
  { destruct Hopen as [-> | [-> | ->]]; by rewrite ?orb_true_r. }
  eexists. split; [reflexivity|]. case_bool_decide; simpl; repeat split; done.
Qed.

Lemma handleKeydown_dialog_open_witness :
  ∃ s',
    handleKeydown sample_time (KeyboardEvent.mk (str "Escape") (str "Escape"))
                  (deleteDeck (str "d1") sample_session) = Some s' ∧
    s'.(data) = sample_session.(data) ∧
    s'.(dialogs).(showConfirm) = false ∧
    s'.(dialogs).(confirmCallback) = Some (DeleteDeckCallback (str "d1")).
Proof.
  destruct (handleKeydown_dialog_open sample_time
              (KeyboardEvent.mk (str "Escape") (str "Escape"))
              (deleteDeck (str "d1") sample_session))
    as (s' & Hk & Hd & _ & _ & _ & _ & Hcb & _ & _ & Hesc & _).
  { right; right. reflexivity. }
  exists s'. split; [exact Hk|]. split; [exact Hd|].
  split; [by apply Hesc|exact Hcb].
Defined.

(** X14.  With no dialog open the keys act on a card on display only:
    outside a session in progress a key does nothing; in progress a key
    other than Space does nothing while the card is not flipped, and on
    a flipped card 1, 2 and 3 rate it hard, medium and easy exactly as
    rateCard does while any other key does nothing; Space flips the
    card. *)
Theorem handleKeydown_shortcuts (now : jsstring) (e : KeyboardEvent.t)
    (s : State) :
  s.(dialogs).(showDeckModal) = false →
  s.(dialogs).(showCardModal) = false →
  s.(dialogs).(showConfirm) = false →
  (session_state s ≠ InProgress → handleKeydown now e s = Some s) ∧
  (session_state s = InProgress →
   e.(KeyboardEvent.code) ≠ str "Space" →
   handleKeydown now e s
   = if s.(study).(isFlipped) then
       match key_rating e.(KeyboardEvent.key) with
       | Some rating => rateCard now rating s
       | None => Some s
       end
     else Some s) ∧
  (session_state s = InProgress →
   e.(KeyboardEvent.code) = str "Space" →
   key_rating e.(KeyboardEvent.key) = None →
   handleKeydown now e s = Some (flipCard s)).
Proof.
  intros H1 H2 H3. rewrite handleKeydown_unfold, H1, H2, H3, in_progress_guard.
  simpl. split; [|split].
  - intros Hno. by rewrite bool_decide_eq_false_2.
  - intros Hin Hsp. by rewrite bool_decide_eq_true_2, bool_decide_eq_false_2.
  - intros Hin Hsp Hk. rewrite !bool_decide_eq_true_2 by done. rewrite Hk.
    by destruct (isFlipped _).
Qed.

Lemma handleKeydown_shortcuts_witness :
  handleKeydown sample_time (KeyboardEvent.mk (str "2") (str "Digit2"))
                sample_session = Some sample_session ∧
  handleKeydown sample_time (KeyboardEvent.mk (str "2") (str "Digit2"))
                (flipCard sample_session)
  = rateCard sample_time (str "medium") (flipCard sample_session) ∧
  handleKeydown sample_time (KeyboardEvent.mk (str " ") (str "Space"))
                sample_session = Some (flipCard sample_session).
Proof.
  destruct (handleKeydown_shortcuts sample_time
              (KeyboardEvent.mk (str "2") (str "Digit2")) sample_session)
    as (_ & Hkey & _); try reflexivity.
  destruct (handleKeydown_shortcuts sample_time
              (KeyboardEvent.mk (str "2") (str "Digit2"))
              (flipCard sample_session))
    as (_ & Hkey' & _); try reflexivity.
  destruct (handleKeydown_shortcuts sample_time
              (KeyboardEvent.mk (str " ") (str "Space")) sample_session)
    as (_ & _ & Hspace); try reflexivity.
  split; [|split].
  - apply Hkey; [reflexivity|vm_compute; discriminate].
  - apply Hkey'; [reflexivity|vm_compute; discriminate].
  - apply Hspace; reflexivity.
Defined.

(* --------------------------------------------------------------------- *)
(*  Toasts                                                               *)
(* --------------------------------------------------------------------- *)

Lemma toasts_ok_shown s s' : toast_shown s s' → toasts_ok s → toasts_ok s'.
Proof.
  intros [[Ht Hi]|(m & ty & Ht & Hi)] [Hnd Hle]; unfold toasts_ok;
    rewrite Ht, Hi; [done|].
  split.
  - rewrite fmap_app. apply NoDup_snoc; [done|]. simpl.
    intros (t & Heq & Hin)%list_elem_of_fmap.
    rewrite Forall_forall in Hle. specialize (Hle t Hin). lia.
  - apply Forall_app. split.
    + eapply Forall_impl; [exact Hle|]. simpl. intros; lia.
    + repeat constructor.
Qed.

Lemma toast_shown_rateCard now rating s s' :
  rateCard now rating s = Some s' → toast_shown s s'.
Proof.
  unfold rateCard. destruct (find_rated _ _) as [idx|]; [|done]. simpl.
  intros [= <-]. left. destruct idx; simpl; by case_bool_decide.
Qed.

(** X15.  The toasts on display always have distinct ids, none above
    the last id handed out: every method, key press, toast timeout and
    run of the watcher that returns keeps it so. *)
Theorem toasts_ok_preserved (a : Action) (s s' : State) :
  toasts_ok s →
  perform a s = Some s' →
  toasts_ok s'.
Proof.
  intros Hok Hp. revert Hok. destruct a; simpl in Hp; try (injection Hp as <-);
    try (apply toasts_ok_shown; by left).
  - (* saveDeck *)
    apply toasts_ok_shown. unfold saveDeck. cbv zeta.
    destruct (negb _); [by left|].
    destruct s.(dialogs).(editingDeck) as [e|];
      [destruct (findIndex _ _)|]; simpl; (by left) || (right; eauto).
  - (* saveCard *)
    apply toasts_ok_shown. revert Hp. unfold saveCard. cbv zeta.
    destruct (_ || _); [intros [= <-]; by left|].
    destruct s.(dialogs).(editingCard) as [e|].
    + destruct (findIndex _ _); simpl; intros [= <-]; simpl;
        (by left) || (right; eauto).
    + destruct s.(selectedDeck); [|done]. simpl. intros [= <-]. right. eauto.
  - (* confirmAction *)
    apply toasts_ok_shown. unfold confirmAction. cbv zeta.
    destruct s.(dialogs).(confirmCallback) as [[k|k]|]; simpl;
      [|right; eauto|by left].
    destruct s.(selectedDeck) as [sel|]; [case_bool_decide|]; simpl;
      right; eauto.
  - (* startStudyMode *)
    apply toasts_ok_shown. unfold startStudyMode.
    case_bool_decide; [right; eauto|by left].
  - (* studyDeck *)
    apply toasts_ok_shown. unfold studyDeck.
    case_bool_decide; [right; eauto|by left].
  - (* rateCard *)
    by eapply toasts_ok_shown, toast_shown_rateCard.
  - (* keydown *)
    destruct (handleKeydown_cases _ _ _ _ Hp)
      as [->|[->|[->|[[r Hr]|[r Hr]]]]]; try done.
    + by eapply toasts_ok_shown, toast_shown_rateCard.
    + eapply toasts_ok_shown. apply (toast_shown_rateCard _ _ _ _ Hr).
  - (* toast timeout *)
    intros [Hnd Hle]. split; simpl.
    + by apply NoDup_fmap_filter.
    + apply Forall_forall. intros t [_ Hin]%list_elem_of_filter.
      rewrite Forall_forall in Hle. by apply Hle.
  - (* watcher *)
    apply toasts_ok_shown. left. unfold flush.
    by destruct s.(watch_pending).
Qed.

Lemma toasts_ok_preserved_witness :
  toasts_ok (deleteCard_confirmed (str "c1")
               (start (OneDeck (sample_deck "d3")) keep_draws sample_store)).
Proof.
  apply (toasts_ok_preserved ConfirmAction
           (deleteCard (str "c1")
              (start (OneDeck (sample_deck "d3")) keep_draws sample_store))).
  - split; [apply (bool_decide_unpack _); vm_compute; exact I|].
    repeat constructor.
  - reflexivity.
Defined.

(** X16.  The timer of a toast removes that toast and no other: when
    the toasts on display have distinct ids, none above the last id
    handed out, showing a toast and letting its timer fire leaves the
    toasts exactly as they were, and the timer of an older toast leaves
    the new toast on display. *)
Theorem toast_timer (message : jsstring) (ty : ToastType) (s : State) :
  toasts_ok s →
  let s1 := showToast message ty s in
  (expireToast s1.(toastId) s1).(toasts) = s.(toasts) ∧
  ∀ t, t ∈ s.(toasts) →
       (expireToast t.(Toast.id) s1).(toasts)
       = filter (λ t', t'.(Toast.id) ≠ t.(Toast.id)) s.(toasts)
         ++ [Toast.mk s1.(toastId) message ty (iconMap ty)].
Proof.
  intros [_ Hle] s1. subst s1. simpl. rewrite Forall_forall in Hle. split.
  - rewrite filter_app, filter_cons, decide_False by (intros H; by apply H).
    rewrite filter_nil, app_nil_r. apply filter_all.
    intros t Hin Heq. specialize (Hle t Hin). lia.
  - intros t Hin. specialize (Hle t Hin).
    rewrite filter_app, filter_cons, decide_True by (simpl; lia). done.
Qed.

Lemma toast_timer_witness :
  let s := start (OneDeck (sample_deck "d3")) keep_draws sample_store in
  let s1 := showToast (str "Card deleted.") info s in
  (expireToast s1.(toastId) s1).(toasts) = s.(toasts) ∧
  ∀ t, t ∈ s.(toasts) →
       (expireToast t.(Toast.id) s1).(toasts)
       = filter (λ t', t'.(Toast.id) ≠ t.(Toast.id)) s.(toasts)
         ++ [Toast.mk s1.(toastId) (str "Card deleted.") info (iconMap info)].
Proof.
  apply (toast_timer (str "Card deleted.") info
           (start (OneDeck (sample_deck "d3")) keep_draws sample_store)).
  split; [apply (bool_decide_unpack _); vm_compute; exact I|].
  repeat constructor.
Defined.

(* --------------------------------------------------------------------- *)
(*  Searching                                                            *)
(* --------------------------------------------------------------------- *)

Lemma starts_with_spec q s : starts_with q s = true ↔ ∃ l, s = q ++ l.
Proof.
  revert s. induction q as [|c q IH]; intros s; simpl.
  - split; [by exists s|done].
  - destruct s as [|d s]; [split; [done|by intros [? ?]]|].
    case_bool_decide as Hcd; simpl.
    + subst d. rewrite IH. split; intros [l Hl]; exists l; congruence.
    + split; [done|]. intros [l Hl]. congruence.
Qed.

Lemma includes_nil q : includes [] q = starts_with q [] || false.
Proof. reflexivity. Qed.

Lemma includes_cons d s q :
  includes (d :: s) q = starts_with q (d :: s) || includes s q.
Proof. reflexivity. Qed.

Lemma includes_spec s q : includes s q = true ↔ occurs_in q s.
Proof.
  unfold occurs_in. induction s as [|d s IH].
  - rewrite includes_nil, orb_false_r, starts_with_spec. split.
    + intros [l Hl]. by exists [], l.
    + intros (l1 & l2 & Hl). destruct l1; [by exists l2|done].
  - rewrite includes_cons, orb_true_iff, starts_with_spec, IH. split.
    + intros [[l Hl]|(l1 & l2 & ->)]; [by exists [], l|by exists (d :: l1), l2].
    + intros ([|d' l1] & l2 & Hl); [left; by exists l2|].
      right. injection Hl as <- ->. by exists l1, l2.
Qed.

Section SearchProperties.
Variable toLowerCase : jsstring → jsstring.

Lemma card_matches_spec q c :
  card_matches toLowerCase q c = true ↔
  occurs_in q (toLowerCase c.(Card.front)) ∨
  occurs_in q (toLowerCase c.(Card.back)).
Proof. unfold card_matches. by rewrite orb_true_iff, !includes_spec. Qed.

Lemma filteredDecks_blank (s : State) :
  trim s.(searchQuery) = [] → filteredDecks toLowerCase s = s.(data).(decks).
Proof. unfold filteredDecks. cbv zeta. by intros ->. Qed.

Lemma filteredDecks_listed (s : State) (d : Deck.t) :
  trim s.(searchQuery) ≠ [] →
  d ∈ filteredDecks toLowerCase s ↔
  d ∈ s.(data).(decks) ∧
  (occurs_in (toLowerCase s.(searchQuery)) (toLowerCase d.(Deck.name)) ∨
   ∃ c, c ∈ s.(data).(cards) ∧ c.(Card.deckId) = d.(Deck.id) ∧
        (occurs_in (toLowerCase s.(searchQuery)) (toLowerCase c.(Card.front)) ∨
         occurs_in (toLowerCase s.(searchQuery)) (toLowerCase c.(Card.back)))).
Proof.
  intros Hq. unfold filteredDecks. cbv zeta. rewrite (trim_truthy _ Hq).
  rewrite list_elem_of_filter, orb_True, !Is_true_true, includes_spec.
  rewrite existsb_exists.
  split.
  - intros [[Hn|(c & Hc & Hm)] Hd]; (split; [done|]); [by left|].
    right. exists c. apply andb_true_iff in Hm as [Hid Hm].
    apply bool_decide_eq_true in Hid. apply card_matches_spec in Hm.
    by rewrite <- list_elem_of_In in Hc.
  - intros [Hd [Hn|(c & Hc & Hid & Hm)]]; (split; [|done]); [by left|].
    right. exists c. rewrite <- list_elem_of_In.
    split; [done|]. apply andb_true_iff. split.
    + by apply bool_decide_eq_true.
    + by apply card_matches_spec.
Qed.

(** X17.  The deck list under a search: with a query that is blank after
    trimming every deck is listed; otherwise (the query lowered, not
    trimmed) a deck is listed exactly when it is a deck of the store
    and the query occurs in its lowered name or in the lowered front or
    back of one of its cards, so that a query occurring nowhere lists
    no deck.  The decks listed keep the order of the store. *)
Theorem filteredDecks_spec (s : State) :
  (trim s.(searchQuery) = [] → filteredDecks toLowerCase s = s.(data).(decks)) ∧
  (trim s.(searchQuery) ≠ [] →
   ∀ d, d ∈ filteredDecks toLowerCase s ↔
        d ∈ s.(data).(decks) ∧
        (occurs_in (toLowerCase s.(searchQuery)) (toLowerCase d.(Deck.name)) ∨
         ∃ c, c ∈ s.(data).(cards) ∧ c.(Card.deckId) = d.(Deck.id) ∧
              (occurs_in (toLowerCase s.(searchQuery)) (toLowerCase c.(Card.front)) ∨
               occurs_in (toLowerCase s.(searchQuery)) (toLowerCase c.(Card.back))))) ∧
  filteredDecks toLowerCase s `sublist_of` s.(data).(decks).
Proof.
  split; [apply filteredDecks_blank|]. split.
  - intros Hq d. by apply filteredDecks_listed.
  - unfold filteredDecks. cbv zeta. destruct (negb _); [done|].
    apply sublist_filter.
Qed.

(** X18.  The cards shown for a deck under a search: a card is shown
    exactly when it is a card of the store with that deckId and the
    lowered query is empty or occurs in its lowered front or back; the
    cards shown keep the order of the store; with an empty query they
    are as many as getCardCount counts; and a deck of the store with a
    card shown is itself in the deck list of the search. *)
Theorem getDeckCards_spec (deckId : jsstring) (s : State) :
  (∀ c, c ∈ getDeckCards toLowerCase deckId s ↔
        c ∈ s.(data).(cards) ∧ c.(Card.deckId) = deckId ∧
        (toLowerCase s.(searchQuery) = [] ∨
         occurs_in (toLowerCase s.(searchQuery)) (toLowerCase c.(Card.front)) ∨
         occurs_in (toLowerCase s.(searchQuery)) (toLowerCase c.(Card.back)))) ∧
  getDeckCards toLowerCase deckId s `sublist_of` s.(data).(cards) ∧
  (toLowerCase s.(searchQuery) = [] →
   length (getDeckCards toLowerCase deckId s) = getCardCount deckId s) ∧
  (∀ d, d ∈ s.(data).(decks) → d.(Deck.id) = deckId →
        getDeckCards toLowerCase deckId s ≠ [] →
        d ∈ filteredDecks toLowerCase s).
Proof.
  assert (Hmem : ∀ c, c ∈ getDeckCards toLowerCase deckId s ↔
            c ∈ s.(data).(cards) ∧ c.(Card.deckId) = deckId ∧
            (toLowerCase s.(searchQuery) = [] ∨
             occurs_in (toLowerCase s.(searchQuery)) (toLowerCase c.(Card.front)) ∨
             occurs_in (toLowerCase s.(searchQuery)) (toLowerCase c.(Card.back)))).
  { intros c. unfold getDeckCards. cbv zeta.
    destruct (toLowerCase s.(searchQuery)) as [|x q] eqn:Hq; simpl.
    - rewrite list_elem_of_filter. intuition auto.
    - rewrite !list_elem_of_filter, Is_true_true, card_matches_spec.
      intuition (auto; discriminate). }
  split; [done|]. split; [|split].
  - unfold getDeckCards. cbv zeta. destruct (truthy _).
    + etrans; apply sublist_filter.
    + apply sublist_filter.
  - intros Hq. unfold getDeckCards, getCardCount. by rewrite Hq.
  - intros d Hd Hid Hne.
    assert (∃ c, c ∈ getDeckCards toLowerCase deckId s) as [c Hc].
    { destruct (getDeckCards toLowerCase deckId s) as [|c l]; [done|].
      exists c. left. }
    apply Hmem in Hc as (Hc & Hck & Hm).
    destruct (decide (trim s.(searchQuery) = [])) as [Hb|Hb].
    { by rewrite filteredDecks_blank. }
    apply filteredDecks_listed; [done|]. split; [done|].
    destruct Hm as [Hq|Hm].
    + left. rewrite Hq. by exists [], (toLowerCase d.(Deck.name)).
    + right. exists c. split; [done|]. split; [congruence|done].
Qed.
End SearchProperties.

Lemma filteredDecks_spec_witness :
  filteredDecks ascii_toLowerCase (with_query (str "   ") sample_store)
  = sample_store.(data).(decks) ∧
  (sample_deck "d1" ∈ filteredDecks ascii_toLowerCase
                        (with_query (str "SPAN") sample_store)) ∧
  filteredDecks ascii_toLowerCase (with_query (str "xyz") sample_store) = [].
Proof.
  split; [|split].
  - apply (filteredDecks_spec ascii_toLowerCase
             (with_query (str "   ") sample_store)). reflexivity.
  - apply (filteredDecks_spec ascii_toLowerCase
             (with_query (str "SPAN") sample_store));
      [vm_compute; discriminate|].
    split; [left|]. left. by exists [], (str "ish").
  - reflexivity.
Defined.

Lemma getDeckCards_spec_witness :
  length (getDeckCards ascii_toLowerCase (str "d1") sample_store)
  = getCardCount (str "d1") sample_store ∧
  (sample_deck "d1" ∈ filteredDecks ascii_toLowerCase
                        (with_query (str "hol") sample_store)).
Proof.
  split.
  - apply (getDeckCards_spec ascii_toLowerCase (str "d1") sample_store).
    reflexivity.
  - apply (getDeckCards_spec ascii_toLowerCase (str "d1")
             (with_query (str "hol") sample_store));
      [left|reflexivity|vm_compute; discriminate].
Defined.

(* --------------------------------------------------------------------- *)
(*  Statistics                                                           *)
(* --------------------------------------------------------------------- *)

Lemma length_filter_cons {A} (P : A → Prop) `{∀ x, Decision (P x)} x (l : list A) :
  length (filter P (x :: l))
  = (if decide (P x) then 1 else 0) + length (filter P l).
Proof. rewrite filter_cons. by case_decide. Qed.

Lemma length_filter_all {A} (P : A → Prop) `{∀ x, Decision (P x)} (l : list A) :
  length (filter P l) = length l ↔ Forall P l.
Proof.
  induction l as [|x l IH]; [by split|].
  rewrite length_filter_cons, Forall_cons. pose proof (length_filter P l).
  case_decide; simpl.
  - rewrite <- IH. split; [intros; split; [done|lia]|intros [_ ?]; lia].
  - split; [lia|tauto].
Qed.

(* A card is counted once, under new, hard, medium or easy, when its
   difficulty is one that the statistics count, and not at all
   otherwise. *)
Lemma counted_once (c : Card.t) :
  (if decide (no_difficulty c
              || bool_decide (c.(Card.difficulty) = Some (str "new")))
   then 1 else 0)
  + (if decide (c.(Card.difficulty) = Some (str "hard")) then 1 else 0)
  + (if decide (c.(Card.difficulty) = Some (str "medium")) then 1 else 0)
  + (if decide (c.(Card.difficulty) = Some (str "easy")) then 1 else 0)
  = (if decide (counted_difficulty c) then 1 else 0).
Proof.
  destruct c as [id dk fr bk d rc lr ca].
  unfold no_difficulty, counted_difficulty. simpl.
  assert (Hclosed : ∀ k : jsstring,
            k = [] ∨ k = str "new" ∨ k = str "hard" ∨ k = str "medium"
            ∨ k = str "easy" →
            (if decide (negb (truthy k) || bool_decide (Some k = Some (str "new")))
             then 1 else 0)
            + (if decide (Some k = Some (str "hard")) then 1 else 0)
            + (if decide (Some k = Some (str "medium")) then 1 else 0)
            + (if decide (Some k = Some (str "easy")) then 1 else 0) = 1).
  { intros k [->|[->|[->|[->| ->]]]]; reflexivity. }
  destruct d as [k|]; [|by repeat case_decide].
  match goal with |- _ = (if ?dec then _ else _) => destruct dec as [Hk|Hk] end;
    [by apply Hclosed|].
  assert (negb (truthy k) = false) as -> by (destruct k; [tauto|done]).
  rewrite (bool_decide_eq_false_2 (Some k = Some (str "new")))
    by (intros [= ->]; tauto).
  rewrite !decide_False;
    [done|intros [= ->]; tauto..|simpl; tauto].
Qed.

(** X19.  The four statistics count every card at most once: the counts
    for new, hard, medium and easy add up to the number of cards whose
    difficulty is absent, empty or one of the four names, so they add
    up to the number of cards exactly when every card has such a
    difficulty; a card with any other difficulty is in none of the four
    counts (though a study start ranks it as new).  masteredCount is
    the count for easy. *)
Theorem difficultyCount_partition (s : State) :
  let total :=
    difficultyCount (str "new") s + difficultyCount (str "hard") s
    + difficultyCount (str "medium") s + difficultyCount (str "easy") s in
  total = length (filter counted_difficulty s.(data).(cards)) ∧
  total ≤ length s.(data).(cards) ∧
  (total = length s.(data).(cards) ↔ Forall counted_difficulty s.(data).(cards)) ∧
  masteredCount s = difficultyCount (str "easy") s.
Proof.
  intros total.
  assert (Ht : total = length (filter counted_difficulty s.(data).(cards))).
  { subst total. unfold difficultyCount.
    change (bool_decide (str "new" = str "new")) with true.
    change (bool_decide (str "hard" = str "new")) with false.
    change (bool_decide (str "medium" = str "new")) with false.
    change (bool_decide (str "easy" = str "new")) with false.
    cbv iota. induction s.(data).(cards) as [|c l IH]; [done|].
    rewrite !length_filter_cons, <- IH, <- (counted_once c). lia. }
  split; [done|]. rewrite Ht. split; [apply length_filter|].
  split; [apply length_filter_all|done].
Qed.

(* --------------------------------------------------------------------- *)
(*  Deleting a deck and the counts                                       *)
(* --------------------------------------------------------------------- *)

Lemma deleteDeck_confirmed_cards k s :
  (deleteDeck_confirmed k s).(data).(cards)
  = filter (λ c, c.(Card.deckId) ≠ k) s.(data).(cards).
Proof.
  unfold deleteDeck_confirmed, confirmAction. simpl.
  destruct s.(selectedDeck); [case_bool_decide|]; done.
Qed.

Lemma filter_deck_deleted k (l : list Card.t) :
  filter (λ c, c.(Card.deckId) = k) (filter (λ c, c.(Card.deckId) ≠ k) l) = [].
Proof.
  induction l as [|c l IH]; [done|].
  rewrite (filter_cons _ c). destruct (decide (c.(Card.deckId) = k)) as [Hc|Hc].
  - by rewrite decide_False by tauto.
  - rewrite decide_True by done. by rewrite filter_cons, decide_False.
Qed.

Lemma filter_deck_other k k' (l : list Card.t) :
  k' ≠ k →
  filter (λ c, c.(Card.deckId) = k') (filter (λ c, c.(Card.deckId) ≠ k) l)
  = filter (λ c, c.(Card.deckId) = k') l.
Proof.
  intros Hne. induction l as [|c l IH]; [done|].
  rewrite (filter_cons _ c). destruct (decide (c.(Card.deckId) = k)) as [Hc|Hc].
  - rewrite decide_False by tauto.
    rewrite IH, (filter_cons _ c), decide_False; [done|congruence].
  - rewrite decide_True by done. by rewrite !filter_cons, IH.
Qed.

(** X20.  After a deck is deleted (request and confirmation) its id
    counts no card and has mastery 0, and for every other id the number
    of cards and the mastery are what they were. *)
Theorem deleteDeck_counts (deckId : jsstring) (s : State) :
  let s' := deleteDeck_confirmed deckId s in
  getCardCount deckId s' = 0 ∧
  getDeckMastery deckId s' = 0%Z ∧
  ∀ other, other ≠ deckId →
    getCardCount other s' = getCardCount other s ∧
    getDeckMastery other s' = getDeckMastery other s.
Proof.
  intros s'. subst s'. unfold getCardCount, getDeckMastery. cbv zeta.
  rewrite deleteDeck_confirmed_cards, filter_deck_deleted.
  split; [done|]. split; [done|]. intros other Hne.
  by rewrite filter_deck_other.
Qed.

(* --------------------------------------------------------------------- *)
(*  Ratings and the mastered count                                       *)
(* --------------------------------------------------------------------- *)

Lemma length_filter_alter {A} (P : A → Prop) `{∀ x, Decision (P x)}
    (f : A → A) i (l : list A) x :
  l !! i = Some x →
  length (filter P (alter f i l)) + (if decide (P x) then 1 else 0)
  = length (filter P l) + (if decide (P (f x)) then 1 else 0).
Proof.
  revert i. induction l as [|y l IH]; intros [|i] Hi; try done.
  - injection Hi as ->. change (alter f 0 (x :: l)) with (f x :: l).
    rewrite !length_filter_cons.
    destruct (decide (P x)), (decide (P (f x))); lia.
  - change (alter f (S i) (y :: l)) with (y :: alter f i l).
    rewrite !length_filter_cons. specialize (IH i Hi).
    destruct (decide (P x)), (decide (P (f x))), (decide (P y)); lia.
Qed.

(** X21.  A rating moves the mastered count by the card it updates:
    when a card of the store has the id of the card on display, the
    rating succeeds and masteredCount goes up by one if the rating is
    easy and that card was not, down by one if the card was easy and
    the rating is not, and stays otherwise. *)
Theorem rateCard_masteredCount (now rating : jsstring) (s : State)
    (card : Card.t) :
  s.(study).(studyCards) !! s.(study).(studyIndex) = Some card →
  card.(Card.id) ∈ card_ids s →
  ∃ s' c,
    rateCard now rating s = Some s' ∧
    c ∈ s.(data).(cards) ∧ c.(Card.id) = card.(Card.id) ∧
    masteredCount s'
    + (if decide (c.(Card.difficulty) = Some (str "easy")) then 1 else 0)
    = masteredCount s
      + (if decide (rating = str "easy") then 1 else 0).
Proof.
  intros Hcard Hin. unfold rateCard, card_ids in *. rewrite Hcard. simpl.
  pose proof (findIndex_by_id Card.id s.(data).(cards) card.(Card.id)) as Hf.
  destruct (findIndex _ _) as [i|]; [|done]. simpl.
  destruct Hf as (c & Hc & Hid & _).
  eexists _, c. split; [reflexivity|].
  split; [by eapply list_elem_of_lookup_2|]. split; [done|].
  unfold masteredCount.
  assert (Hcount := length_filter_alter
            (λ c, c.(Card.difficulty) = Some (str "easy"))
            (rate_fields now rating) i s.(data).(cards) c Hc).
  simpl in Hcount.
  assert (length (filter (λ c, c.(Card.difficulty) = Some (str "easy"))
                     (alter (rate_fields now rating) i s.(data).(cards)))
          + (if decide (c.(Card.difficulty) = Some (str "easy")) then 1 else 0)
          = length (filter (λ c, c.(Card.difficulty) = Some (str "easy"))
                           s.(data).(cards))
            + (if decide (rating = str "easy") then 1 else 0)) as Hcount'.
  { rewrite Hcount. destruct (decide (rating = str "easy")) as [->|Hr].
    - by rewrite decide_True.
    - by rewrite decide_False by congruence. }
  by destruct (bool_decide (length _ ≤ _)).
Qed.

Lemma rateCard_masteredCount_witness :
  ∃ s' c,
    rateCard sample_time (str "easy") sample_session = Some s' ∧
    c ∈ sample_session.(data).(cards) ∧ c.(Card.id) = str "c2" ∧
    masteredCount s'
    + (if decide (c.(Card.difficulty) = Some (str "easy")) then 1 else 0)
    = masteredCount sample_session
      + (if decide (str "easy" = str "easy") then 1 else 0).
Proof.
  apply (rateCard_masteredCount sample_time (str "easy") sample_session
           (sample_card "c2" "d1" "hard")).
  - reflexivity.
  - apply (bool_decide_unpack _). vm_compute. exact I.
Defined.

(* --------------------------------------------------------------------- *)
(*  Editing without a change                                             *)
(* --------------------------------------------------------------------- *)

Lemma NoDup_fmap_eq {A B} (f : A → B) (l : list A) i j x y :
  NoDup (f <$> l) → l !! i = Some x → l !! j = Some y → f x = f y → i = j.
Proof.
  intros Hnd Hx Hy Hf. apply (NoDup_lookup _ _ _ (f x) Hnd).
  - by rewrite list_lookup_fmap, Hx.
  - by rewrite list_lookup_fmap, Hy, Hf.
Qed.

Lemma alter_fixed {A} (f : A → A) i (l : list A) x :
  l !! i = Some x → f x = x → alter f i l = l.
Proof.
  intros Hx Hf. apply list_eq. intros j. destruct (decide (i = j)) as [<-|Hne].
  - rewrite list_lookup_alter_eq, Hx. simpl. by rewrite Hf.
  - by rewrite list_lookup_alter_ne.
Qed.

(** X22.  Opening the edit dialog on a deck or a card of the store and
    saving it as it stands changes nothing in the store, when the ids
    are unique: for a deck whose name is not blank the decks are the
    same after saveDeck; for a card whose front and back are not blank
    and already trimmed the cards are the same after saveCard. *)
Theorem edit_and_save_unchanged (newId now : jsstring) (s : State) :
  unique_ids s →
  (∀ d, d ∈ s.(data).(decks) → trim d.(Deck.name) ≠ [] →
        (saveDeck newId now (editDeck d s)).(data).(decks) = s.(data).(decks)) ∧
  (∀ c, c ∈ s.(data).(cards) →
        trim c.(Card.front) = c.(Card.front) → c.(Card.front) ≠ [] →
        trim c.(Card.back) = c.(Card.back) → c.(Card.back) ≠ [] →
        ∃ s', saveCard newId now (editCard c s) = Some s' ∧
              s'.(data).(cards) = s.(data).(cards)).
Proof.
  intros [Hdk Hcd]. unfold deck_ids, card_ids in *. split.
  - intros d Hd Hname. unfold saveDeck. cbv zeta. simpl.
    rewrite (trim_truthy _ Hname).
    pose proof (findIndex_by_id Deck.id s.(data).(decks) d.(Deck.id)) as Hf.
    destruct (findIndex _ _) as [i|]; simpl; [|done].
    destruct Hf as (d0 & Hd0 & Hid & _).
    apply list_elem_of_lookup in Hd as [j Hj].
    assert (i = j) as <- by (by eapply (NoDup_fmap_eq Deck.id)).
    assert (d0 = d) as -> by congruence.
    apply (alter_fixed _ _ _ d); [done|]. by destruct d.
  - intros c Hc Hf1 Hf2 Hb1 Hb2. unfold saveCard. cbv zeta. simpl.
    rewrite Hf1, Hb1.
    assert (negb (truthy c.(Card.front)) = false) as ->
      by (by destruct c.(Card.front)).
    assert (negb (truthy c.(Card.back)) = false) as ->
      by (by destruct c.(Card.back)).
    simpl.
    pose proof (findIndex_by_id Card.id s.(data).(cards) c.(Card.id)) as Hf.
    destruct (findIndex _ _) as [i|]; simpl; [|by eexists].
    destruct Hf as (c0 & Hc0 & Hid & _).
    apply list_elem_of_lookup in Hc as [j Hj].
    assert (i = j) as <- by (by eapply (NoDup_fmap_eq Card.id)).
    assert (c0 = c) as -> by congruence.
    eexists. split; [reflexivity|]. simpl.
    apply (alter_fixed _ _ _ c); [done|].
    unfold edit_card. simpl. rewrite Hf1, Hb1. by destruct c.
Qed.

Lemma edit_and_save_unchanged_witness :
  (saveDeck (str "d9") sample_time (editDeck (sample_deck "d2") sample_store))
    .(data).(decks) = sample_store.(data).(decks) ∧
  ∃ s',
    saveCard (str "c9") sample_time
      (editCard (sample_card "c3" "d2" "medium") sample_store) = Some s' ∧
    s'.(data).(cards) = sample_store.(data).(cards).
Proof.
  destruct (edit_and_save_unchanged (str "d9") sample_time sample_store)
    as [Hdeck Hcard].
  { split; apply (bool_decide_unpack _); vm_compute; exact I. }
  split.
  - apply Hdeck; [|vm_compute; discriminate].
    right. left.
  - apply Hcard; try reflexivity; try (vm_compute; discriminate).
    apply (bool_decide_unpack _). vm_compute. exact I.
Defined.

(* --------------------------------------------------------------------- *)
(*  Trimming                                                             *)
(* --------------------------------------------------------------------- *)

Lemma trimStart_head s :
  match trimStart s with
  | [] => True
  | c :: _ => is_white c = false
  end.
Proof.
  induction s as [|c s IH]; simpl; [done|].
  destruct (is_white c) eqn:Hc; [done|]. by rewrite Hc.
Qed.

Lemma trimStart_not_white c s : is_white c = false → trimStart (c :: s) = c :: s.
Proof. intros Hc. simpl. by rewrite Hc. Qed.

Lemma trimStart_snoc s c :
  is_white c = false → trimStart (s ++ [c]) = trimStart s ++ [c].
Proof.
  intros Hc. induction s as [|d s IH]; simpl; [by rewrite Hc|].
  by destruct (is_white d).
Qed.

Lemma trimEnd_cons c s : is_white c = false → trimEnd (c :: s) = c :: trimEnd s.
Proof.
  intros Hc. unfold trimEnd. rewrite reverse_cons, trimStart_snoc by done.
  by rewrite reverse_app.
Qed.

Lemma trimEnd_idemp s : trimEnd (trimEnd s) = trimEnd s.
Proof.
  unfold trimEnd. rewrite reverse_involutive.
  pose proof (trimStart_head (reverse s)) as Hh.
  destruct (trimStart (reverse s)) as [|c l]; [done|].
  by rewrite trimStart_not_white.
Qed.

Lemma trimEnd_nil : trimEnd [] = [].
Proof. reflexivity. Qed.

(* A trimmed string trims to itself. *)
Lemma trim_idemp s : trim (trim s) = trim s.
Proof.
  unfold trim. pose proof (trimStart_head s) as Hh.
  destruct (trimStart s) as [|c l]; [done|].
  rewrite trimEnd_cons, trimStart_not_white, trimEnd_cons, trimEnd_idemp; done.
Qed.

(* --------------------------------------------------------------------- *)
(*  The texts of the store                                               *)
(* --------------------------------------------------------------------- *)

Lemma texts_ok_rateCard now rating s s' :
  rateCard now rating s = Some s' → texts_ok s → texts_ok s'.
Proof.
  intros (Hd & _ & _ & Hc & _)%rateCard_store [Hdk Hcd]. split.
  - by rewrite Hd.
  - intros c Hin. destruct Hc as [Hc|[i Hc]]; rewrite Hc in Hin; [by apply Hcd|].
    apply elem_of_alter in Hin as [?|(c0 & ? & ->)]; [by apply Hcd|].
    simpl. by apply Hcd.
Qed.

(** X23.  The texts of the store stay as the forms leave them: if every
    deck has a name that is not blank and every card a front and a back
    that are trimmed and not empty, then after any method, key press,
    toast timeout or run of the watcher that returns it is still so.
    (A deck name is trimmed when the deck is created but stored as typed
    when it is edited, so only "not blank" holds for names.) *)
Theorem texts_ok_preserved (a : Action) (s s' : State) :
  texts_ok s →
  perform a s = Some s' →
  texts_ok s'.
Proof.
  intros Hok Hp. pose proof Hok as [Hdk Hcd].
  destruct a; simpl in Hp; try (injection Hp as <-); try done.
  - (* saveDeck *)
    destruct (saveDeck_store newId now s) as (Hc & _).
    split; [|by rewrite Hc]. clear Hc. unfold saveDeck. cbv zeta.
    destruct (trim s.(dialogs).(deckForm).(df_name)) as [|x n] eqn:Hn; [done|].
    simpl. destruct s.(dialogs).(editingDeck) as [e|];
      [destruct (findIndex _ _) as [i|]|]; simpl; try done.
    + intros d Hin. apply elem_of_alter in Hin as [?|(d0 & ? & ->)];
        [by apply Hdk|]. simpl. by rewrite Hn.
    + intros d Hin. apply elem_of_app in Hin as [?|Hin]; [by apply Hdk|].
      apply list_elem_of_singleton in Hin as ->. simpl.
      rewrite <- Hn, trim_idemp. by rewrite Hn.
  - (* saveCard *)
    split.
    { by destruct (saveCard_store _ _ _ _ Hp) as (-> & _). }
    revert Hp. unfold saveCard. cbv zeta.
    destruct (trim s.(dialogs).(cardForm).(cf_front)) as [|x f] eqn:Hf;
      [by intros [= <-]|].
    destruct (trim s.(dialogs).(cardForm).(cf_back)) as [|y b] eqn:Hb;
      [by intros [= <-]|].
    simpl. destruct s.(dialogs).(editingCard) as [e|].
    + destruct (findIndex _ _) as [i|]; simpl; intros [= <-]; [|done].
      simpl. intros c Hin. apply elem_of_alter in Hin as [?|(c0 & ? & ->)];
        [by apply Hcd|]. unfold edit_card. simpl.
      rewrite Hf, Hb, <- Hf, <- Hb, !trim_idemp. by rewrite Hf, Hb.
    + destruct s.(selectedDeck) as [sel|]; [|done]. simpl. intros [= <-]. simpl.
      intros c Hin. apply elem_of_app in Hin as [?|Hin]; [by apply Hcd|].
      apply list_elem_of_singleton in Hin as ->. simpl.
      rewrite <- Hf, <- Hb, !trim_idemp. by rewrite Hf, Hb.
  - (* confirmAction *)
    destruct (confirmAction_store s) as (_ & _ & _ & Hcases).
    destruct Hcases as [(Hd & Hc & _)|[(k & Hd & Hc & _)|(k & Hd & Hc & _)]];
      split; rewrite ?Hd, ?Hc; try done.
    + intros d [_ ?]%list_elem_of_filter. by apply Hdk.
    + intros c [_ ?]%list_elem_of_filter. by apply Hcd.
    + intros c [_ ?]%list_elem_of_filter. by apply Hcd.
  - (* startStudyMode *)
    unfold startStudyMode. by case_bool_decide.
  - (* studyDeck *)
    unfold studyDeck. by case_bool_decide.
  - (* rateCard *)
    by eapply texts_ok_rateCard.
  - (* keydown *)
    destruct (handleKeydown_cases _ _ _ _ Hp)
      as [->|[->|[->|[[r Hr]|[r Hr]]]]]; try done.
    + by eapply texts_ok_rateCard.
    + eapply texts_ok_rateCard; [exact Hr|done].
  - (* watcher *)
    unfold flush. by destruct s.(watch_pending).
Qed.

Lemma texts_ok_preserved_witness :
  ∃ s',
    saveCard (str "c9") sample_time
      (sample_card_dialog None "  uno " "one" sample_store) = Some s' ∧
    texts_ok s'.
Proof.
  eexists. split; [reflexivity|].
  apply (texts_ok_preserved (SaveCard (str "c9") sample_time)
           (sample_card_dialog None "  uno " "one" sample_store)).
  - split.
    + apply Forall_forall. repeat constructor; vm_compute; discriminate.
    + apply Forall_forall.
      repeat constructor; try reflexivity; vm_compute; discriminate.
  - reflexivity.
Defined.

(* --------------------------------------------------------------------- *)
(*  Persistence                                                          *)
(* --------------------------------------------------------------------- *)

Lemma persist_rateCard now rating s s' :
  rateCard now rating s = Some s' →
  s.(watch_pending) = false →
  s'.(storage_writes) = s.(storage_writes) ∧
  (s'.(watch_pending) = false → s'.(data) = s.(data)).
Proof.
  unfold rateCard. destruct (find_rated _ _) as [idx|]; [|done]. simpl.
  intros [= <-] Hp. destruct idx as [i|]; simpl; case_bool_decide; simpl;
    (split; [done|]); try done.
Qed.

(* A method writes nothing to the storage itself, and it leaves the
   watcher untriggered only if it has left the data as they were. *)
Lemma persist_step a s s' :
  s.(watch_pending) = false →
  perform a s = Some s' →
  s'.(storage_writes) = s.(storage_writes) ∧
  (s'.(watch_pending) = false → s'.(data) = s.(data)).
Proof.
  intros Hpend Hp. destruct a; simpl in Hp; try (injection Hp as <-);
    try (split; [done|]; done).
  - (* saveDeck *)
    unfold saveDeck. cbv zeta. destruct (negb _); [done|].
    destruct s.(dialogs).(editingDeck) as [e|];
      [destruct (findIndex _ _)|]; simpl; (split; [done|]); done.
  - (* saveCard *)
    revert Hp. unfold saveCard. cbv zeta.
    destruct (_ || _); [by intros [= <-]|].
    destruct s.(dialogs).(editingCard) as [e|].
    + destruct (findIndex _ _); simpl; intros [= <-]; simpl;
        (split; [done|]); done.
    + destruct s.(selectedDeck); [|done]. simpl. intros [= <-]. simpl.
      split; [done|]; done.
  - (* confirmAction *)
    unfold confirmAction. cbv zeta.
    destruct s.(dialogs).(confirmCallback) as [[k|k]|]; simpl;
      [|split; [done|]; done..].
    destruct s.(selectedDeck) as [sel|]; [case_bool_decide|]; simpl;
      (split; [done|]); done.
  - (* startStudyMode *)
    unfold startStudyMode. case_bool_decide; (split; [done|]); done.
  - (* studyDeck *)
    unfold studyDeck. case_bool_decide; (split; [done|]); done.
  - (* rateCard *)
    by eapply persist_rateCard.
  - (* keydown *)
    destruct (handleKeydown_cases _ _ _ _ Hp)
      as [->|[->|[->|[[r Hr]|[r Hr]]]]]; try (split; [done|]; done).
    + by eapply persist_rateCard.
    + by apply (persist_rateCard _ _ _ _ Hr).
  - (* watcher *)
    unfold flush. by rewrite Hpend.
Qed.

(** X24.  The storage follows the data: if the last blob written is the
    current data and the watcher has nothing to write, then so it is
    again after any method, key press or toast timeout that returns,
    followed by the watcher.  The method itself writes nothing; the
    watcher then writes the new data once, or nothing, and it writes
    whenever the data have changed. *)
Theorem storage_in_sync (a : Action) (s s' : State) :
  in_sync s →
  perform a s = Some s' →
  in_sync (flush s') ∧
  (flush s').(data) = s'.(data) ∧
  ((flush s').(storage_writes) = s.(storage_writes) ∨
   (flush s').(storage_writes) = s'.(data) :: s.(storage_writes)) ∧
  (s'.(data) ≠ s.(data) →
   (flush s').(storage_writes) = s'.(data) :: s.(storage_writes)).
Proof.
  intros [Hpend Hhead] Hp.
  destruct (persist_step a s s' Hpend Hp) as [Hw Hd].
  unfold in_sync, flush. destruct s'.(watch_pending) eqn:Hp'; simpl.
  - rewrite Hw. repeat split; auto.
  - rewrite Hw, (Hd eq_refl). repeat split; auto. done.
Qed.

Lemma storage_in_sync_witness :
  let s := flush sample_store in
  let s' := deleteDeck_confirmed (str "d1") s in
  in_sync (flush s') ∧
  (flush s').(storage_writes) = [s'.(data); sample_store.(data)].
Proof.
  intros s s'.
  destruct (storage_in_sync ConfirmAction (deleteDeck (str "d1") s) s')
    as (Hs & _ & _ & Hw); [split; reflexivity|reflexivity|].
  split; [exact Hs|]. apply Hw. vm_compute. discriminate.
Defined.

(* --------------------------------------------------------------------- *)
(*  A new card and the counts                                            *)
(* --------------------------------------------------------------------- *)

Lemma length_filter_snoc {A} (P : A → Prop) `{∀ x, Decision (P x)} (l : list A) x :
  length (filter P (l ++ [x]))
  = length (filter P l) + (if decide (P x) then 1 else 0).
Proof.
  rewrite filter_app, length_app, filter_cons, filter_nil. by case_decide.
Qed.

(** X25.  A card created by saveCard counts for the selected deck and as
    new: getCardCount of the selected deck and the count for new go up
    by one, getCardCount of every other id, the counts for hard, medium
    and easy and masteredCount stay as they were. *)
Theorem saveCard_creates_counts (newId now : jsstring) (s : State)
    (sel : Deck.t) :
  s.(dialogs).(editingCard) = None →
  s.(selectedDeck) = Some sel →
  trim s.(dialogs).(cardForm).(cf_front) ≠ [] →
  trim s.(dialogs).(cardForm).(cf_back) ≠ [] →
  ∃ s',
    saveCard newId now s = Some s' ∧
    getCardCount sel.(Deck.id) s' = getCardCount sel.(Deck.id) s + 1 ∧
    (∀ other, other ≠ sel.(Deck.id) →
              getCardCount other s' = getCardCount other s) ∧
    difficultyCount (str "new") s' = difficultyCount (str "new") s + 1 ∧
    difficultyCount (str "hard") s' = difficultyCount (str "hard") s ∧
    difficultyCount (str "medium") s' = difficultyCount (str "medium") s ∧
    difficultyCount (str "easy") s' = difficultyCount (str "easy") s ∧
    masteredCount s' = masteredCount s.
Proof.
  intros Hed Hsel Hf Hb. unfold saveCard. cbv zeta.
  rewrite Hed, Hsel, (trim_truthy _ Hf), (trim_truthy _ Hb). simpl.
  eexists. split; [reflexivity|].
  unfold getCardCount, difficultyCount, masteredCount. simpl.
  change (bool_decide (str "new" = str "new")) with true.
  change (bool_decide (str "hard" = str "new")) with false.
  change (bool_decide (str "medium" = str "new")) with false.
  change (bool_decide (str "easy" = str "new")) with false.
  cbv iota. repeat split; try (intros other Hne);
    rewrite length_filter_snoc;
    first [ rewrite decide_True by (vm_compute; done); lia
          | rewrite decide_False by (simpl; congruence); lia
          | rewrite decide_False by (vm_compute; done); lia ].
Qed.

Lemma saveCard_creates_counts_witness :
  ∃ s',
    saveCard (str "c9") sample_time
      (sample_card_dialog None "uno" "one" sample_store) = Some s' ∧
    getCardCount (str "d1") s' = 3 + 1 ∧
    getCardCount (str "d2") s' = 1 ∧
    difficultyCount (str "new") s' = 1 + 1.
Proof.
  destruct (saveCard_creates_counts (str "c9") sample_time
              (sample_card_dialog None "uno" "one" sample_store)
              (sample_deck "d1"))
    as (s' & Hs & Hsel & Hother & Hnew & _);
    [reflexivity|reflexivity|vm_compute; discriminate..|].
  exists s'. split; [exact Hs|]. split; [exact Hsel|].
  split; [|exact Hnew].
  rewrite (Hother (str "d2")); [reflexivity|vm_compute; discriminate].
Defined.
